(** * ClawdScanner (vigil): scan aggregation and report attestation

    A shallow embedding of the scan orchestrator ([scanners/index.ts]),
    the dependency scanner ([scanners/dependencies.ts]) and the key
    manager ([crypto/keys.ts]), followed by the properties of the
    specification that concern them.

    Layout: the embedding comes first, one module per source file; the
    theorems follow in the second half of the file. *)

From Stdlib Require Import ZArith QArith List String Ascii Lia ZifyNat.
From Stdlib Require Import DecimalString.
From Stdlib.Strings Require Import Byte.
From stdpp Require Import gmap strings list.

Import ListNotations.
Set Warnings "-register-all".
Set Default Proof Using "Type".
Local Open Scope string_scope.
Local Open Scope Z_scope.

(* ===================================================================== *)
(** * Part I: the embedding                                               *)
(* ===================================================================== *)

(** ** Severities

    Every scanner declares
    [severity: 'critical' | 'high' | 'medium' | 'low'] on its findings. *)

Inductive Severity : Type := critical | high | medium | low.

#[global] Instance Severity_eq_dec : EqDecision Severity.
Proof. solve_decision. Defined.

(** ** network.ts *)

Module Network.

Record PortInfo := {
  port : Z;
  protocol : string;
  service : string;
  state : string;
  severity : Severity
}.

Record FirewallStatus := { enabled : bool; type : string }.

Record ListeningService := { pid : string; command : string; lport : string }.

Record NetworkScanResult := {
  openPorts : list PortInfo;
  firewallStatus : FirewallStatus;
  listeningServices : list ListeningService
}.

End Network.

(** ** process.ts *)

Module Process.

Record ProcessInfo := {
  pid : string;
  command : string;
  user : string;
  issue : string;
  severity : Severity
}.

Record EnvSecret := {
  epid : string;
  ecommand : string;
  secret : string;
  type : string
}.

Record ProcessScanResult := {
  suspiciousProcesses : list ProcessInfo;
  privilegedProcesses : list ProcessInfo;
  secretsInEnv : list EnvSecret
}.

End Process.

(** ** filesystem.ts *)

Module Filesystem.

Record FileIssue := {
  path : string;
  issue : string;
  severity : Severity;
  permissions : option string
}.

Record FilesystemScanResult := {
  sensitiveFileIssues : list FileIssue;
  worldWritableFiles : list FileIssue;
  suidFiles : list FileIssue;
  exposedSecrets : list FileIssue
}.

End Filesystem.

(** ** configuration.ts *)

Module Configuration.

Record ConfigIssue := {
  file : string;
  issue : string;
  severity : Severity;
  line : option string
}.

Record ConfigScanResult := {
  sshConfigIssues : list ConfigIssue;
  secretsInConfig : list ConfigIssue
}.

End Configuration.

(** ** containers.ts

    The declarations of this scanner are not among the source files.  The
    aggregator reads [containers.containers[i].issues[j].severity] and
    nothing else of this domain; the records below are rebuilt from those
    reads, with the severities that the other five scanners declare. *)

Module Containers.

Record ContainerIssue := { issue : string; severity : Severity }.

Record ContainerInfo := { name : string; issues : list ContainerIssue }.

Record ContainerScanResult := { containers : list ContainerInfo }.

End Containers.

(** ** JavaScript values as [JSON.parse] returns them

    Objects list their own enumerable properties in the order in which
    [Object.entries] enumerates them.  [JUndefined] is the result of
    reading a missing property. *)

Inductive JSValue : Type :=
| JUndefined
| JNull
| JBool (b : bool)
| JNum (q : Q)
| JStr (s : string)
| JArr (elems : list JSValue)
| JObj (props : list (string * JSValue)).

(** Outcome of a JavaScript computation that may throw. *)

Inductive Result (A : Type) : Type :=
| Ok (a : A)
| Throw (e : string).
Arguments Ok {A} a.
Arguments Throw {A} e.

Definition bindR {A B} (c : Result A) (k : A -> Result B) : Result B :=
  match c with
  | Ok a => k a
  | Throw e => Throw e
  end.

(** [try { c } catch (error) { h error }] *)
Definition try_catch {A} (c : Result A) (h : string -> Result A) : Result A :=
  match c with
  | Ok a => Ok a
  | Throw e => h e
  end.

#[global] Instance Result_ret : MRet Result := fun A a => Ok a.
#[global] Instance Result_bind : MBind Result := fun A B k c => bindR c k.

(** ** dependencies.ts (data) *)

Module Dependencies.

(** The fields of a [Vulnerability] and of the summary are filled from
    the parsed audit report through [as any]; the record is therefore
    parametric in the type of those values: [JSValue] where the scanner
    builds it, [Z] where the aggregator consumes the declared
    [number]s. *)

Record Vulnerability := {
  name : string;
  severity : JSValue;
  version : JSValue;
  description : JSValue
}.

Record Buckets (A : Type) := {
  b_critical : A;
  b_high : A;
  b_moderate : A;
  b_low : A;
  b_info : A
}.
Arguments b_critical {A} _.
Arguments b_high {A} _.
Arguments b_moderate {A} _.
Arguments b_low {A} _.
Arguments b_info {A} _.

Record DependencyScanResult (A : Type) := {
  hasPackageJson : bool;
  vulnerabilities : list Vulnerability;
  totalVulnerabilities : nat;
  summary : Buckets A
}.
Arguments hasPackageJson {A} _.
Arguments vulnerabilities {A} _.
Arguments totalVulnerabilities {A} _.
Arguments summary {A} _.

End Dependencies.

(** ** scanners/index.ts: the risk aggregator *)

Module Aggregator.

Inductive RiskLevel : Type := CRITICAL | HIGH | MEDIUM | LOW | CLEAN.

Record Summary := {
  totalIssues : Z;
  criticalIssues : Z;
  highIssues : Z;
  mediumIssues : Z;
  lowIssues : Z;
  riskLevel : RiskLevel
}.

(** The four [let] counters of [calculateSummary].  They are JavaScript
    numbers that hold counts; the embedding keeps them in [Z], which is
    what the code computes as long as every sum is a safe integer, at
    most 2^53 - 1 (beyond it the code's additions round).  The
    properties that state exact counts assume that range. *)
Record Counters := {
  n_critical : Z;
  n_high : Z;
  n_medium : Z;
  n_low : Z
}.

Definition incr_critical (c : Counters) : Counters :=
  {| n_critical := n_critical c + 1; n_high := n_high c;
     n_medium := n_medium c; n_low := n_low c |}.
Definition incr_high (c : Counters) : Counters :=
  {| n_critical := n_critical c; n_high := n_high c + 1;
     n_medium := n_medium c; n_low := n_low c |}.
Definition incr_medium (c : Counters) : Counters :=
  {| n_critical := n_critical c; n_high := n_high c;
     n_medium := n_medium c + 1; n_low := n_low c |}.
Definition incr_low (c : Counters) : Counters :=
  {| n_critical := n_critical c; n_high := n_high c;
     n_medium := n_medium c; n_low := n_low c + 1 |}.

(** [xs.forEach((x) => body)] over mutable counters. *)
Definition forEach {A S : Type} (xs : list A) (body : A -> S -> S) (s : S) : S :=
  fold_left (fun acc x => body x acc) xs s.

(** The four-way [if / else if] chain on a severity. *)
Definition count_by_severity (sev : Severity) (c : Counters) : Counters :=
  match sev with
  | critical => incr_critical c
  | high => incr_high c
  | medium => incr_medium c
  | low => incr_low c
  end.

(** [if (file.severity === 'medium') mediumIssues++] *)
Definition count_if_medium (sev : Severity) (c : Counters) : Counters :=
  match sev with
  | medium => incr_medium c
  | _ => c
  end.

(** [if high ... else if medium ...] of the exposed-secrets loop. *)
Definition count_high_or_medium (sev : Severity) (c : Counters) : Counters :=
  match sev with
  | high => incr_high c
  | medium => incr_medium c
  | _ => c
  end.

Definition add_buckets (b : Dependencies.Buckets Z) (c : Counters) : Counters :=
  {| n_critical := n_critical c + Dependencies.b_critical b;
     n_high := n_high c + Dependencies.b_high b;
     n_medium := n_medium c + Dependencies.b_moderate b;
     n_low := n_low c + Dependencies.b_low b |}.

Definition resolve_risk (c : Counters) : RiskLevel :=
  if n_critical c >? 0 then CRITICAL
  else if n_high c >? 0 then HIGH
  else if n_medium c >? 0 then MEDIUM
  else if n_low c >? 0 then LOW
  else CLEAN.

(** The counters after each block of statements of [calculateSummary]. *)
Definition count_all
    (network : Network.NetworkScanResult)
    (processes : Process.ProcessScanResult)
    (filesystem : Filesystem.FilesystemScanResult)
    (dependencies : Dependencies.DependencyScanResult Z)
    (configuration : Configuration.ConfigScanResult)
    (containers : Containers.ContainerScanResult) : Counters :=
  let c := {| n_critical := 0; n_high := 0; n_medium := 0; n_low := 0 |} in
  (* network *)
  let c := forEach (Network.openPorts network)
             (fun port => count_by_severity (Network.severity port)) c in
  let c := if negb (Network.enabled (Network.firewallStatus network))
           then incr_high c else c in
  (* processes *)
  let c := forEach (Process.suspiciousProcesses processes)
             (fun proc => count_by_severity (Process.severity proc)) c in
  let c := forEach (Process.secretsInEnv processes) (fun _ => incr_high) c in
  (* filesystem *)
  let c := forEach (Filesystem.sensitiveFileIssues filesystem)
             (fun file => count_by_severity (Filesystem.severity file)) c in
  let c := forEach (Filesystem.worldWritableFiles filesystem)
             (fun file => count_if_medium (Filesystem.severity file)) c in
  let c := forEach (Filesystem.suidFiles filesystem) (fun _ => incr_low) c in
  let c := forEach (Filesystem.exposedSecrets filesystem)
             (fun file => count_high_or_medium (Filesystem.severity file)) c in
  (* dependencies *)
  let c := add_buckets (Dependencies.summary dependencies) c in
  (* configuration *)
  let c := forEach (Configuration.sshConfigIssues configuration)
             (fun issue => count_by_severity (Configuration.severity issue)) c in
  let c := forEach (Configuration.secretsInConfig configuration)
             (fun issue => count_by_severity (Configuration.severity issue)) c in
  (* containers *)
  forEach (Containers.containers containers)
    (fun container =>
       forEach (Containers.issues container)
         (fun issue => count_by_severity (Containers.severity issue))) c.

Definition calculateSummary
    (network : Network.NetworkScanResult)
    (processes : Process.ProcessScanResult)
    (filesystem : Filesystem.FilesystemScanResult)
    (dependencies : Dependencies.DependencyScanResult Z)
    (configuration : Configuration.ConfigScanResult)
    (containers : Containers.ContainerScanResult) : Summary :=
  let c := count_all network processes filesystem dependencies
             configuration containers in
  {| totalIssues := n_critical c + n_high c + n_medium c + n_low c;
     criticalIssues := n_critical c;
     highIssues := n_high c;
     mediumIssues := n_medium c;
     lowIssues := n_low c;
     riskLevel := resolve_risk c |}.

End Aggregator.

(** ** scanners/index.ts: the orchestrator

    Time is counted in milliseconds on the host clock.  An [async] call
    started at some instant either fulfils or rejects after a delay, or
    never settles. *)

Module Orchestrator.
Import Aggregator.

Inductive Promise (A : Type) : Type :=
| Fulfilled (after : nat) (value : A)
| Rejected (after : nat) (reason : string)
| Pending.
Arguments Fulfilled {A} after value.
Arguments Rejected {A} after reason.
Arguments Pending {A}.

(** [Promise.all([p, q])]: fulfilled once both are, rejected as soon as
    one of them rejects (the leftmost of two simultaneous rejections),
    and otherwise never settled.  [Promise.all] of a longer array is the
    nesting of this one. *)
Definition all2 {A B} (p : Promise A) (q : Promise B) : Promise (A * B) :=
  match p, q with
  | Fulfilled d a, Fulfilled d' b => Fulfilled (Nat.max d d') (a, b)
  | Rejected d e, Rejected d' e' =>
      if (d <=? d')%nat then Rejected d e else Rejected d' e'
  | Rejected d e, _ => Rejected d e
  | _, Rejected d' e' => Rejected d' e'
  | _, _ => Pending
  end.

Record ScanReport := {
  timestamp : nat;   (* the instant that [toISOString] prints *)
  hostname : string;
  network : Network.NetworkScanResult;
  processes : Process.ProcessScanResult;
  filesystem : Filesystem.FilesystemScanResult;
  dependencies : Dependencies.DependencyScanResult Z;
  configuration : Configuration.ConfigScanResult;
  containers : Containers.ContainerScanResult;
  summary : Summary
}.

(** What the orchestrator calls: the [hostname] command and the six
    domain scanners, each a function of the instant of the call. *)
Record Host := {
  exec_hostname : nat -> Promise string;
  scanNetwork : nat -> Promise Network.NetworkScanResult;
  scanProcesses : nat -> Promise Process.ProcessScanResult;
  scanFilesystem : nat -> Promise Filesystem.FilesystemScanResult;
  scanDependencies : nat -> Promise (Dependencies.DependencyScanResult Z);
  scanConfiguration : nat -> Promise Configuration.ConfigScanResult;
  scanContainers : nat -> Promise Containers.ContainerScanResult
}.

(** [String.prototype.trim].  Texts are held as sequences of ASCII
    characters, among which these six are the white space and the line
    terminators that [trim] and [\s] know. *)
Definition is_white_space (c : ascii) : bool :=
  let n := nat_of_ascii c in
  ((9 <=? n) && (n <=? 13) || (n =? 32))%nat.

Fixpoint trim_start (s : string) : string :=
  match s with
  | String c s' => if is_white_space c then trim_start s' else s
  | EmptyString => EmptyString
  end.

Fixpoint trim_end (s : string) : string :=
  match s with
  | String c s' =>
      match trim_end s' with
      | EmptyString => if is_white_space c then EmptyString
                       else String c EmptyString
      | t => String c t
      end
  | EmptyString => EmptyString
  end.

Definition trim (s : string) : string := trim_end (trim_start s).

(** [getHostname]: the command's trimmed output, ['unknown'] when the
    command fails. *)
Definition getHostname (h : Host) (now : nat) : Promise string :=
  match exec_hostname h now with
  | Fulfilled d stdout => Fulfilled d (trim stdout)
  | Rejected d _ => Fulfilled d "unknown"
  | Pending => Pending
  end.

Definition runFullScan (h : Host) (start : nat) : Promise ScanReport :=
  match getHostname h start with
  | Fulfilled d0 hostname =>
      let launch := (start + d0)%nat in
      match all2 (scanNetwork h launch)
             (all2 (scanProcesses h launch)
             (all2 (scanFilesystem h launch)
             (all2 (scanDependencies h launch)
             (all2 (scanConfiguration h launch)
                   (scanContainers h launch))))) with
      | Fulfilled d1 (network, (processes, (filesystem,
                       (dependencies, (configuration, containers))))) =>
          let summary := calculateSummary network processes filesystem
                           dependencies configuration containers in
          Fulfilled (d0 + d1)
            {| timestamp := (launch + d1)%nat;
               hostname := hostname;
               network := network;
               processes := processes;
               filesystem := filesystem;
               dependencies := dependencies;
               configuration := configuration;
               containers := containers;
               summary := summary |}
      | Rejected d1 e => Rejected (d0 + d1) e
      | Pending => Pending
      end
  | Rejected d0 e => Rejected d0 e
  | Pending => Pending
  end.

Definition is_rejected {A} (p : Promise A) : Prop :=
  match p with Rejected _ _ => True | _ => False end.

Definition is_pending {A} (p : Promise A) : Prop :=
  match p with Pending => True | _ => False end.

Definition is_fulfilled {A} (p : Promise A) : Prop :=
  match p with Fulfilled _ _ => True | _ => False end.

(** The six results of a settled [Promise.all], with the instant of the
    last one. *)
Definition collected (h : Host) (launch : nat) (r : ScanReport) (d1 : nat)
  : Prop :=
  exists dn dp df dd dc dk,
    scanNetwork h launch = Fulfilled dn (network r)
    /\ scanProcesses h launch = Fulfilled dp (processes r)
    /\ scanFilesystem h launch = Fulfilled df (filesystem r)
    /\ scanDependencies h launch = Fulfilled dd (dependencies r)
    /\ scanConfiguration h launch = Fulfilled dc (configuration r)
    /\ scanContainers h launch = Fulfilled dk (containers r)
    /\ d1 = Nat.max dn (Nat.max dp (Nat.max df (Nat.max dd (Nat.max dc dk)))).

End Orchestrator.

(** ** Node's [Buffer] encodings used by crypto/keys.ts

    [Buffer.toString('hex' | 'base64')] and
    [Buffer.from(string, 'hex' | 'base64')], after Node's documentation:
    the hexadecimal decoder stops at the first pair that is not
    hexadecimal; the base64 decoder accepts the standard and the URL-safe
    alphabets, skips characters outside them and stops at the first
    padding character.  Neither decoder throws. *)

Module Buffer.
Local Open Scope nat_scope.

Definition byte_of_nat (n : nat) : byte :=
  match Byte.of_nat (n mod 256) with
  | Some b => b
  | None => x00
  end.

Definition nth_char (table : string) (n : nat) : ascii :=
  match String.get n table with
  | Some c => c
  | None => "?"%char
  end.

Definition hex_digits : string := "0123456789abcdef".

Fixpoint toString_hex (bs : list byte) : string :=
  match bs with
  | [] => EmptyString
  | b :: rest =>
      let n := Byte.to_nat b in
      String (nth_char hex_digits (n / 16))
        (String (nth_char hex_digits (n mod 16)) (toString_hex rest))
  end.

Definition between (lo hi : ascii) (c : ascii) : bool :=
  (nat_of_ascii lo <=? nat_of_ascii c) && (nat_of_ascii c <=? nat_of_ascii hi).

Definition unhex (c : ascii) : option nat :=
  if between "0" "9" c then Some (nat_of_ascii c - 48)
  else if between "a" "f" c then Some (nat_of_ascii c - 87)
  else if between "A" "F" c then Some (nat_of_ascii c - 55)
  else None.

Fixpoint from_hex (s : string) : list byte :=
  match s with
  | String c1 (String c2 rest) =>
      match unhex c1, unhex c2 with
      | Some hi, Some lo => byte_of_nat (hi * 16 + lo) :: from_hex rest
      | _, _ => []
      end
  | _ => []
  end.

Definition base64_alphabet : string :=
  "ABCDEFGHIJKLMNOPQRSTUVWXYZabcdefghijklmnopqrstuvwxyz0123456789+/".

Definition base64_char (sextet : nat) : ascii :=
  nth_char base64_alphabet sextet.

Fixpoint toString_base64 (bs : list byte) : string :=
  match bs with
  | [] => EmptyString
  | [a] =>
      let a := Byte.to_nat a in
      String (base64_char (a / 4))
        (String (base64_char (a mod 4 * 16)) "==")
  | [a; b] =>
      let a := Byte.to_nat a in
      let b := Byte.to_nat b in
      String (base64_char (a / 4))
        (String (base64_char (a mod 4 * 16 + b / 16))
           (String (base64_char (b mod 16 * 4)) "="))
  | a :: b :: c :: rest =>
      let a := Byte.to_nat a in
      let b := Byte.to_nat b in
      let c := Byte.to_nat c in
      String (base64_char (a / 4))
        (String (base64_char (a mod 4 * 16 + b / 16))
           (String (base64_char (b mod 16 * 4 + c / 64))
              (String (base64_char (c mod 64)) (toString_base64 rest))))
  end.

Definition unbase64 (c : ascii) : option nat :=
  if between "A" "Z" c then Some (nat_of_ascii c - 65)
  else if between "a" "z" c then Some (nat_of_ascii c - 71)
  else if between "0" "9" c then Some (nat_of_ascii c + 4)
  else if (c =? "+")%char || (c =? "-")%char then Some 62
  else if (c =? "/")%char || (c =? "_")%char then Some 63
  else None.

(** The legal characters up to the first ['='], as six-bit values. *)
Fixpoint legal_sextets (s : string) : list nat :=
  match s with
  | EmptyString => []
  | String c rest =>
      if (c =? "=")%char then []
      else match unbase64 c with
           | Some v => v :: legal_sextets rest
           | None => legal_sextets rest
           end
  end.

Fixpoint bytes_of_sextets (l : list nat) : list byte :=
  match l with
  | s0 :: s1 :: s2 :: s3 :: rest =>
      byte_of_nat (s0 * 4 + s1 / 16)
      :: byte_of_nat (s1 mod 16 * 16 + s2 / 4)
      :: byte_of_nat (s2 mod 4 * 64 + s3)
      :: bytes_of_sextets rest
  | [s0; s1; s2] =>
      [byte_of_nat (s0 * 4 + s1 / 16); byte_of_nat (s1 mod 16 * 16 + s2 / 4)]
  | [s0; s1] => [byte_of_nat (s0 * 4 + s1 / 16)]
  | _ => []
  end.

Definition from_base64 (s : string) : list byte :=
  bytes_of_sextets (legal_sextets s).

End Buffer.

(** ** Node's [path.join] (POSIX)

    [join] glues its non-empty arguments with a separator and normalizes
    the result: empty and [.] segments are dropped, a [..] segment removes
    the segment before it (at the root it is dropped, at the start of a
    relative path it is kept), repeated separators are merged, and a
    trailing separator is kept. *)

Module Path.
Local Open Scope list_scope.

(** [path.split('/')] *)
Fixpoint segments (path : string) : list string :=
  match path with
  | EmptyString => [EmptyString]
  | String c rest =>
      if (c =? "/")%char then EmptyString :: segments rest
      else match segments rest with
           | segment :: others => String c segment :: others
           | [] => [String c EmptyString]
           end
  end.

(** What [normalizeString] does at the end of a segment; [kept] holds
    the segments of the result so far, the last one first. *)
Definition keep (allowAboveRoot : bool) (kept : list string)
    (segment : string) : list string :=
  if String.eqb segment EmptyString || String.eqb segment "." then kept
  else if String.eqb segment ".." then
    match kept with
    | last :: before =>
        if String.eqb last ".."
        then (if allowAboveRoot then segment :: kept else kept)
        else before
    | [] => if allowAboveRoot then [segment] else []
    end
  else segment :: kept.

Definition normalizeString (path : string) (allowAboveRoot : bool) : string :=
  String.concat "/" (rev (fold_left (keep allowAboveRoot) (segments path) [])).

Fixpoint last_char (s : string) : option ascii :=
  match s with
  | EmptyString => None
  | String c EmptyString => Some c
  | String _ rest => last_char rest
  end.

Definition is_slash (c : option ascii) : bool :=
  match c with
  | Some c => (c =? "/")%char
  | None => false
  end.

Definition normalize (path : string) : string :=
  match path with
  | EmptyString => "."
  | String first _ =>
      let isAbsolute := (first =? "/")%char in
      let trailingSeparator := is_slash (last_char path) in
      match normalizeString path (negb isAbsolute) with
      | EmptyString =>
          if isAbsolute then "/" else if trailingSeparator then "./" else "."
      | body =>
          (if isAbsolute then "/" else EmptyString)
          +:+ body +:+ (if trailingSeparator then "/" else EmptyString)
      end
  end.

(** [join(a, b)] *)
Definition join (a b : string) : string :=
  match a, b with
  | EmptyString, EmptyString => "."
  | EmptyString, _ => normalize b
  | _, EmptyString => normalize a
  | _, _ => normalize (a +:+ "/" +:+ b)
  end.

(** A name that [normalize] keeps as it is: a single segment, neither
    empty nor made of one or two dots. *)
Definition plain (name : string) : Prop :=
  segments name = [name]
  /\ forall allowAboveRoot kept, keep allowAboveRoot kept name = name :: kept.

End Path.

(** ** crypto/keys.ts *)

Module Keys.

Record KeyPair := { privateKey : string; publicKey : string }.

(** The functions of Node's [crypto] module that keys.ts imports.
    [generateKeyPairSync] is a function of the randomness it draws;
    [sign] and [verify] throw on key material they cannot parse. *)
Class Crypto := {
  sha256 : string -> list byte;
  sign : list byte -> string -> Result (list byte);
  verify : list byte -> string -> list byte -> Result bool;
  generateKeyPairSync : nat -> KeyPair
}.

(** The file system as keys.ts uses it: the files by path; the paths on
    which the operating system refuses [mkdir] and [writeFile] to this
    process, and those on which it refuses [readFile]; the file mode
    creation mask of the process and whether it runs as the superuser;
    and the state of the random generator. *)
Record File := { content : string; mode : N }.

Record World := {
  files : gmap string File;
  denied : gset string;
  unreadable : gset string;
  umask : N;
  superuser : bool;
  entropy : nat
}.

(** An [async] function over the world: its outcome and the world it
    leaves behind. *)
Definition IO (A : Type) : Type := World -> Result A * World.

Definition retIO {A} (a : A) : IO A := fun w => (Ok a, w).

Definition bindIO {A B} (c : IO A) (k : A -> IO B) : IO B :=
  fun w =>
    match c w with
    | (Ok a, w') => k a w'
    | (Throw e, w') => (Throw e, w')
    end.

Definition try_catchIO {A} (c : IO A) (handler : string -> IO A) : IO A :=
  fun w =>
    match c w with
    | (Ok a, w') => (Ok a, w')
    | (Throw e, w') => handler e w'
    end.

Notation "'await' x <- c ; k" := (bindIO c (fun x => k))
  (at level 10, x name, c at level 100, k at level 200,
   format "'[v' 'await'  x  <-  c ; '/' k ']'").

(** [fs.readFile(path, 'utf-8')]: rejected when there is no file at the
    path, and when there is one that the process may not read. *)
Definition readFile (path : string) : IO string :=
  fun w =>
    match files w !! path with
    | Some f =>
        if decide (path ∈ unreadable w) then (Throw "EACCES", w)
        else (Ok (content f), w)
    | None => (Throw "ENOENT", w)
    end.

(** [fs.mkdir(path, { recursive: true })] *)
Definition mkdir (path : string) : IO unit :=
  fun w =>
    if decide (path ∈ denied w) then (Throw "EACCES", w) else (Ok tt, w).

(** The owner's read bit, [0o400], of a mode. *)
Definition owner_read (m : N) : bool := N.testbit m 8.

(** The world after a [writeFile] that is not refused.  An existing file
    is truncated and rewritten: it keeps its mode, and whether it may be
    read.  A new file is created with the requested mode less the bits
    of the umask; the process, which owns it, may read it back when that
    leaves the owner's read bit or when it runs as the superuser. *)
Definition stored (path data : string) (m : N) (w : World) : World :=
  match files w !! path with
  | Some old =>
      {| files := <[path := {| content := data; mode := mode old |}]> (files w);
         denied := denied w;
         unreadable := unreadable w;
         umask := umask w;
         superuser := superuser w;
         entropy := entropy w |}
  | None =>
      let created := N.ldiff m (umask w) in
      {| files := <[path := {| content := data; mode := created |}]> (files w);
         denied := denied w;
         unreadable := if superuser w || owner_read created
                       then unreadable w
                       else {[path]} ∪ unreadable w;
         umask := umask w;
         superuser := superuser w;
         entropy := entropy w |}
  end.

(** [fs.writeFile(path, data, { mode })] *)
Definition writeFile (path data : string) (m : N) : IO unit :=
  fun w =>
    if decide (path ∈ denied w) then (Throw "EACCES", w)
    else (Ok tt, stored path data m w).

(** The world after a key pair has been drawn. *)
Definition drawn (w : World) : World :=
  {| files := files w;
     denied := denied w;
     unreadable := unreadable w;
     umask := umask w;
     superuser := superuser w;
     entropy := S (entropy w) |}.

(** The process may read the file at [path]. *)
Definition readable (w : World) (path : string) : Prop :=
  is_Some (files w !! path) /\ path ∉ unreadable w.

Section WithNode.
Context {crypto : Crypto}.
Variable homedir : string.

Definition VIGIL_DIR : string := Path.join homedir ".vigil".
Definition KEYS_DIR : string := Path.join VIGIL_DIR "keys".
Definition PRIVATE_KEY_PATH : string := Path.join KEYS_DIR "private.pem".
Definition PUBLIC_KEY_PATH : string := Path.join KEYS_DIR "public.pem".

Definition mode_0o600 : N := 384.
Definition mode_0o644 : N := 420.

(** [generateKeyPairSync('ed25519', ...)] on the world's randomness. *)
Definition drawKeyPair : IO KeyPair :=
  fun w => (Ok (generateKeyPairSync (entropy w)), drawn w).

Definition generateKeys : IO KeyPair :=
  await _ <- mkdir KEYS_DIR;
  await pair <- drawKeyPair;
  await _ <- writeFile PRIVATE_KEY_PATH (privateKey pair) mode_0o600;
  await _ <- writeFile PUBLIC_KEY_PATH (publicKey pair) mode_0o644;
  retIO pair.

Definition ensureKeysExist : IO KeyPair :=
  try_catchIO
    (await privateKey <- readFile PRIVATE_KEY_PATH;
     await publicKey <- readFile PUBLIC_KEY_PATH;
     retIO {| privateKey := privateKey; publicKey := publicKey |})
    (fun _ => generateKeys).

Definition hashData (data : string) : string :=
  Buffer.toString_hex (sha256 data).

Definition signData (data privateKey : string) : Result string :=
  let hash := Buffer.from_hex (hashData data) in
  signature ← sign hash privateKey;
  Ok (Buffer.toString_base64 signature).

Definition verifySignature (data signature publicKey : string)
  : Result bool :=
  try_catch
    (let hash := Buffer.from_hex (hashData data) in
     let signatureBuffer := Buffer.from_base64 signature in
     verify hash publicKey signatureBuffer)
    (fun _ => Ok false).

Definition getPublicKeyPath : IO string :=
  await _ <- ensureKeysExist;
  retIO PUBLIC_KEY_PATH.

(** The world after the two [writeFile] calls of [generateKeys]. *)
Definition written (w : World) (pair : KeyPair) : World :=
  stored PUBLIC_KEY_PATH (publicKey pair) mode_0o644
    (stored PRIVATE_KEY_PATH (privateKey pair) mode_0o600 (drawn w)).

(** No [mkdir] or [writeFile] of the key manager is refused. *)
Definition keys_writable (w : World) : Prop :=
  (KEYS_DIR ∉ denied w)
  /\ (PRIVATE_KEY_PATH ∉ denied w)
  /\ (PUBLIC_KEY_PATH ∉ denied w).

(** A private and a public key match when the library verifies, under
    the public key, every signature it makes with the private key. *)
Definition matching (privateKey publicKey : string) : Prop :=
  forall message, exists raw,
    sign message privateKey = Ok raw
    /\ verify message publicKey raw = Ok true.

End WithNode.

End Keys.

(** ** dependencies.ts (the scanner)

    The scanner is a function of what it observes: whether
    [package.json] can be accessed, how [npm audit --json] ends, and what
    [JSON.parse] makes of the command's output. *)

Module DependencyScanner.
Import Dependencies.

(** JavaScript's notion of a value that counts as true. *)
Definition truthy (v : JSValue) : bool :=
  match v with
  | JUndefined | JNull => false
  | JBool b => b
  | JNum q => negb (Qeq_bool q 0)
  | JStr s => negb (String.eqb s EmptyString)
  | JArr _ | JObj _ => true
  end.

(** [v || d] *)
Definition or_else (v d : JSValue) : JSValue := if truthy v then v else d.

Fixpoint own_property (key : string) (props : list (string * JSValue))
  : JSValue :=
  match props with
  | [] => JUndefined
  | (k, v) :: rest => if String.eqb k key then v else own_property key rest
  end.

(** [v?.key], for the property names that the scanner reads: they are
    own properties of no string, number, boolean or array. *)
Definition get_opt (v : JSValue) (key : string) : JSValue :=
  match v with
  | JObj props => own_property key props
  | _ => JUndefined
  end.

(** [v.key]: a [TypeError] on [null] and [undefined]. *)
Definition get (v : JSValue) (key : string) : Result JSValue :=
  match v with
  | JUndefined | JNull =>
      Throw "TypeError: Cannot read properties of null or undefined"
  | _ => Ok (get_opt v key)
  end.

(** [v?.[0]] *)
Definition first_opt (v : JSValue) : JSValue :=
  match v with
  | JArr (x :: _) => x
  | JStr (String c _) => JStr (String c EmptyString)
  | JObj props => own_property "0" props
  | _ => JUndefined
  end.

Definition index_key (i : nat) : string :=
  NilZero.string_of_uint (Nat.to_uint i).

Fixpoint indexed {A} (from : nat) (xs : list A) : list (string * A) :=
  match xs with
  | [] => []
  | x :: rest => (index_key from, x) :: indexed (S from) rest
  end.

Fixpoint characters (s : string) : list JSValue :=
  match s with
  | EmptyString => []
  | String c rest => JStr (String c EmptyString) :: characters rest
  end.

(** [Object.entries(v)], for a truthy [v]. *)
Definition entries (v : JSValue) : list (string * JSValue) :=
  match v with
  | JObj props => props
  | JArr elems => indexed 0 elems
  | JStr s => indexed 0 (characters s)
  | _ => []
  end.

(** The object pushed for one entry of [auditData.vulnerabilities]. *)
Definition vulnerability_of (entry : string * JSValue)
  : Result Vulnerability :=
  let '(name, v) := entry in
  sev ← get v "severity";
  range ← get v "range";
  via ← get v "via";
  Ok {| name := name;
        severity := or_else sev (JStr "info");
        version := or_else range (JStr "unknown");
        description :=
          or_else (get_opt (first_opt via) "title")
            (JStr "No description available") |}.

(** The [for ... of] loop that fills [vulnerabilities]. *)
Fixpoint push_all (es : list (string * JSValue)) (acc : list Vulnerability)
  : Result (list Vulnerability) :=
  match es with
  | [] => Ok acc
  | e :: rest =>
      vuln ← vulnerability_of e;
      push_all rest (acc ++ [vuln])
  end.

Definition collect (auditData : JSValue) : Result (list Vulnerability) :=
  listed ← get auditData "vulnerabilities";
  if truthy listed then push_all (entries listed) [] else Ok [].

(** [auditData.metadata?.vulnerabilities?.<bucket> || 0] *)
Definition bucket (auditData : JSValue) (key : string) : Result JSValue :=
  metadata ← get auditData "metadata";
  Ok (or_else (get_opt (get_opt metadata "vulnerabilities") key) (JNum 0)).

(** [Array.prototype.slice(0, n)] *)
Definition slice0 {A} (n : nat) (xs : list A) : list A := firstn n xs.

(** What both copies of the parsing block (after a clean exit of the
    command and after a failed one) compute from the parsed output. *)
Definition report (auditData : JSValue)
  : Result (DependencyScanResult JSValue) :=
  vulnerabilities ← collect auditData;
  critical ← bucket auditData "critical";
  high ← bucket auditData "high";
  moderate ← bucket auditData "moderate";
  low ← bucket auditData "low";
  info ← bucket auditData "info";
  Ok {| hasPackageJson := true;
        vulnerabilities := slice0 20 vulnerabilities;
        totalVulnerabilities := length vulnerabilities;
        summary := {| b_critical := critical; b_high := high;
                      b_moderate := moderate; b_low := low;
                      b_info := info |} |}.

Definition no_findings (hasPackageJson : bool)
  : DependencyScanResult JSValue :=
  {| hasPackageJson := hasPackageJson;
     vulnerabilities := [];
     totalVulnerabilities := 0;
     summary := {| b_critical := JNum 0; b_high := JNum 0;
                   b_moderate := JNum 0; b_low := JNum 0;
                   b_info := JNum 0 |} |}.

(** How [execAsync('npm audit --json')] settles: with the command's
    output, or with an error that carries the output in [stdout]. *)
Inductive Audit : Type :=
| Exited (stdout : string)
| Failed (stdout : string).

(** What the outer [catch] receives: the error of the command, or an
    error raised while parsing, which has no [stdout]. *)
Inductive Caught : Type :=
| CommandError (stdout : string)
| ParseError (e : string).

Definition stdout_of (err : Caught) : JSValue :=
  match err with
  | CommandError stdout => JStr stdout
  | ParseError _ => JUndefined
  end.

Section WithParser.
Variable JSON_parse : string -> Result JSValue.

(** The body of the outer [try]. *)
Definition audit_and_parse (audit : Audit)
  : Caught + DependencyScanResult JSValue :=
  match audit with
  | Exited stdout =>
      match (auditData ← JSON_parse stdout; report auditData) with
      | Ok r => inr r
      | Throw e => inl (ParseError e)
      end
  | Failed stdout => inl (CommandError stdout)
  end.

Definition scanDependencies (packageJsonAccessible : bool) (audit : Audit)
  : DependencyScanResult JSValue :=
  if negb packageJsonAccessible then no_findings false
  else
    match audit_and_parse audit with
    | inr r => r
    | inl err =>
        match stdout_of err with
        | JStr stdout =>
            if truthy (JStr stdout) then
              match (auditData ← JSON_parse stdout; report auditData) with
              | Ok r => r
              | Throw _ => no_findings true
              end
            else no_findings true
        | _ => no_findings true
        end
    end.

(** The output that the scanner parses, if any. *)
Definition parsed_output (audit : Audit) : option string :=
  match audit with
  | Exited stdout => Some stdout
  | Failed stdout => if truthy (JStr stdout) then Some stdout else None
  end.

End WithParser.

End DependencyScanner.

(** ** The canonical serializer

    Modelled from the spec: [canonicalize], the Canonical Serializer of
    the specification, which has no counterpart among the source files
    embedded above.  The data model is the specification's: a report with
    a time stamp, a host name, a mapping from domains to domain results
    and a summary; a domain result exposes its list of findings and the
    degraded marker; a finding has a subject, an issue, a severity and
    a mapping of metadata.  A mapping is held in memory as the list of its
    bindings in insertion order, of which the first one for a key counts.
    The serializer emits the fields of a record in declaration order, the
    domains in the fixed domain order and the metadata in the order of
    their keys in the finite map that the bindings denote. *)

Module Canonical.

Inductive Domain : Type :=
| network | processes | filesystem | dependencies | configuration
| containers.

#[global] Instance Domain_eq_dec : EqDecision Domain.
Proof. solve_decision. Defined.

Definition domain_order : list Domain :=
  [network; processes; filesystem; dependencies; configuration; containers].

Definition domain_name (d : Domain) : string :=
  match d with
  | network => "network"
  | processes => "processes"
  | filesystem => "filesystem"
  | dependencies => "dependencies"
  | configuration => "configuration"
  | containers => "containers"
  end.

Record Finding := {
  subject : string;
  issue : string;
  severity : Severity;
  metadata : list (string * string)
}.

Record DomainResult := {
  findings : list Finding;
  degraded : bool
}.

Record ScanReport := {
  timestamp : Z;
  hostname : string;
  results : list (Domain * DomainResult);
  summary : Aggregator.Summary
}.

(** The result bound to a domain. *)
Fixpoint result_of (d : Domain) (rs : list (Domain * DomainResult))
  : option DomainResult :=
  match rs with
  | [] => None
  | (d', r) :: rest => if decide (d' = d) then Some r else result_of d rest
  end.

(** The canonical form: a tree whose records list their fields in the
    order in which they are written out. *)
Inductive Canon : Type :=
| CInt (z : Z)
| CStr (s : string)
| CBool (b : bool)
| CList (items : list Canon)
| CRecord (fields : list (string * Canon)).

Definition severity_name (sev : Severity) : string :=
  match sev with
  | critical => "critical"
  | high => "high"
  | medium => "medium"
  | low => "low"
  end.

Definition risk_name (r : Aggregator.RiskLevel) : string :=
  match r with
  | Aggregator.CRITICAL => "CRITICAL"
  | Aggregator.HIGH => "HIGH"
  | Aggregator.MEDIUM => "MEDIUM"
  | Aggregator.LOW => "LOW"
  | Aggregator.CLEAN => "CLEAN"
  end.

Definition canon_metadata (m : list (string * string)) : Canon :=
  CRecord (map (fun kv => (fst kv, CStr (snd kv)))
             (map_to_list (list_to_map m : gmap string string))).

Definition canon_finding (f : Finding) : Canon :=
  CRecord [("subject", CStr (subject f));
           ("issue", CStr (issue f));
           ("severity", CStr (severity_name (severity f)));
           ("metadata", canon_metadata (metadata f))].

Definition canon_result (r : DomainResult) : Canon :=
  CRecord [("findings", CList (map canon_finding (findings r)));
           ("degraded", CBool (degraded r))].

(** One field per domain that is bound, in [domain_order]. *)
Definition canon_results (rs : list (Domain * DomainResult)) : Canon :=
  CRecord
    (flat_map
       (fun d =>
          match result_of d rs with
          | Some r => [(domain_name d, canon_result r)]
          | None => []
          end)
       domain_order).

Definition canon_summary (s : Aggregator.Summary) : Canon :=
  CRecord [("totalIssues", CInt (Aggregator.totalIssues s));
           ("criticalIssues", CInt (Aggregator.criticalIssues s));
           ("highIssues", CInt (Aggregator.highIssues s));
           ("mediumIssues", CInt (Aggregator.mediumIssues s));
           ("lowIssues", CInt (Aggregator.lowIssues s));
           ("riskLevel", CStr (risk_name (Aggregator.riskLevel s)))].

(** Modelled from the spec: the fixed order of emission of the Canonical
    Serializer, record fields in the order of the data model and domains
    in [domain_order]. *)
Definition canonical_form (r : ScanReport) : Canon :=
  CRecord [("timestamp", CInt (timestamp r));
           ("hostname", CStr (hostname r));
           ("results", canon_results (results r));
           ("summary", canon_summary (summary r))].

(** Writing the canonical form out. *)

Definition double_quote : ascii := ascii_of_nat 34.
Definition backslash : ascii := ascii_of_nat 92.

Fixpoint escape (s : string) : string :=
  match s with
  | EmptyString => EmptyString
  | String c rest =>
      if (c =? double_quote)%char || (c =? backslash)%char
      then String backslash (String c (escape rest))
      else String c (escape rest)
  end.

Definition quote (s : string) : string :=
  String double_quote (escape s +:+ String double_quote EmptyString).

Definition decimal (z : Z) : string := NilZero.string_of_int (Z.to_int z).

Fixpoint render (c : Canon) : string :=
  match c with
  | CInt z => decimal z
  | CStr s => quote s
  | CBool b => if b then "true" else "false"
  | CList items =>
      "[" +:+
      (fix go (l : list Canon) : string :=
         match l with
         | [] => EmptyString
         | x :: rest =>
             match rest with
             | [] => render x
             | _ => render x +:+ "," +:+ go rest
             end
         end) items
      +:+ "]"
  | CRecord fields =>
      "{" +:+
      (fix go (l : list (string * Canon)) : string :=
         match l with
         | [] => EmptyString
         | (k, v) :: rest =>
             match rest with
             | [] => quote k +:+ ":" +:+ render v
             | _ => quote k +:+ ":" +:+ render v +:+ "," +:+ go rest
             end
         end) fields
      +:+ "}"
  end.

(** Modelled from the spec: [canonicalize(report) -> bytes] of the
    Canonical Serializer (section 4.4), absent from the source files:
    the bytes of the canonical form written out. *)
Definition canonicalize (r : ScanReport) : list byte :=
  list_byte_of_string (render (canonical_form r)).

(** The keys of the [results] mapping, in the order of emission. *)
Definition emitted_domains (r : ScanReport) : list string :=
  match canon_results (results r) with
  | CRecord fields => map fst fields
  | _ => []
  end.

(** Two representations of the same logical report: the same fields,
    and mappings that bind the same keys to the same values, in
    whatever order the bindings are held. *)

Definition same_metadata (m1 m2 : list (string * string)) : Prop :=
  (list_to_map m1 : gmap string string) = list_to_map m2.

Definition same_finding (f1 f2 : Finding) : Prop :=
  subject f1 = subject f2
  /\ issue f1 = issue f2
  /\ severity f1 = severity f2
  /\ same_metadata (metadata f1) (metadata f2).

Definition same_result (r1 r2 : DomainResult) : Prop :=
  Forall2 same_finding (findings r1) (findings r2)
  /\ degraded r1 = degraded r2.

Definition same_binding (o1 o2 : option DomainResult) : Prop :=
  match o1, o2 with
  | Some r1, Some r2 => same_result r1 r2
  | None, None => True
  | _, _ => False
  end.

Definition same_report (r1 r2 : ScanReport) : Prop :=
  timestamp r1 = timestamp r2
  /\ hostname r1 = hostname r2
  /\ (forall d, same_binding (result_of d (results r1))
                  (result_of d (results r2)))
  /\ summary r1 = summary r2.

(** Every domain is bound. *)
Definition complete (r : ScanReport) : Prop :=
  forall d, result_of d (results r) <> None.

End Canonical.

(** ** The reference counting function of the specification

    [summarize] is written from the words of the specification, over a
    list of finding severities [fs]: each finding increments the counter
    of its severity, the four structural penalties are added, the total
    is the sum of the counters and the risk level is read off the
    priority ladder.  [all_findings] lists every finding of the six
    domains, as the specification counts them; [counted_findings] lists
    the findings that the loops of [calculateSummary] look at. *)

Module Reference.
Import Aggregator.

Definition occurrences (sev : Severity) (fs : list Severity) : Z :=
  Z.of_nat (count_occ Severity_eq_dec fs sev).

(** Adding the occurrences of each severity in [fs] to the counters. *)
Definition add_findings (fs : list Severity) (c : Counters) : Counters :=
  {| n_critical := n_critical c + occurrences critical fs;
     n_high := n_high c + occurrences high fs;
     n_medium := n_medium c + occurrences medium fs;
     n_low := n_low c + occurrences low fs |}.

Definition is_medium (sev : Severity) : bool :=
  match sev with medium => true | _ => false end.

Definition is_high_or_medium (sev : Severity) : bool :=
  match sev with high | medium => true | _ => false end.

Definition container_findings (containers : Containers.ContainerScanResult)
  : list Severity :=
  flat_map (fun c => map Containers.severity (Containers.issues c))
    (Containers.containers containers).

Definition all_findings
    (network : Network.NetworkScanResult)
    (processes : Process.ProcessScanResult)
    (filesystem : Filesystem.FilesystemScanResult)
    (configuration : Configuration.ConfigScanResult)
    (containers : Containers.ContainerScanResult) : list Severity :=
  map Network.severity (Network.openPorts network)
  ++ map Process.severity (Process.suspiciousProcesses processes)
  ++ map Process.severity (Process.privilegedProcesses processes)
  ++ map Filesystem.severity (Filesystem.sensitiveFileIssues filesystem)
  ++ map Filesystem.severity (Filesystem.worldWritableFiles filesystem)
  ++ map Filesystem.severity (Filesystem.exposedSecrets filesystem)
  ++ map Configuration.severity (Configuration.sshConfigIssues configuration)
  ++ map Configuration.severity (Configuration.secretsInConfig configuration)
  ++ container_findings containers.

Definition counted_findings
    (network : Network.NetworkScanResult)
    (processes : Process.ProcessScanResult)
    (filesystem : Filesystem.FilesystemScanResult)
    (configuration : Configuration.ConfigScanResult)
    (containers : Containers.ContainerScanResult) : list Severity :=
  map Network.severity (Network.openPorts network)
  ++ map Process.severity (Process.suspiciousProcesses processes)
  ++ map Filesystem.severity (Filesystem.sensitiveFileIssues filesystem)
  ++ List.filter is_medium
       (map Filesystem.severity (Filesystem.worldWritableFiles filesystem))
  ++ List.filter is_high_or_medium
       (map Filesystem.severity (Filesystem.exposedSecrets filesystem))
  ++ map Configuration.severity (Configuration.sshConfigIssues configuration)
  ++ map Configuration.severity (Configuration.secretsInConfig configuration)
  ++ container_findings containers.

(** absent/disabled firewall: +1 high *)
Definition firewall_penalty (network : Network.NetworkScanResult) : Z :=
  if Network.enabled (Network.firewallStatus network) then 0 else 1.

(** every environment-variable secret: +1 high *)
Definition env_secret_penalty (processes : Process.ProcessScanResult) : Z :=
  Z.of_nat (length (Process.secretsInEnv processes)).

(** every SUID/SGID file: +1 low *)
Definition suid_penalty (filesystem : Filesystem.FilesystemScanResult) : Z :=
  Z.of_nat (length (Filesystem.suidFiles filesystem)).

Definition ladder (c h m l : Z) : RiskLevel :=
  if decide (0 < c) then CRITICAL
  else if decide (0 < h) then HIGH
  else if decide (0 < m) then MEDIUM
  else if decide (0 < l) then LOW
  else CLEAN.

Definition summarize
    (fs : list Severity)
    (network : Network.NetworkScanResult)
    (processes : Process.ProcessScanResult)
    (filesystem : Filesystem.FilesystemScanResult)
    (dependencies : Dependencies.DependencyScanResult Z) : Summary :=
  let b := Dependencies.summary dependencies in
  let c := occurrences critical fs + Dependencies.b_critical b in
  let h := occurrences high fs + firewall_penalty network
           + env_secret_penalty processes + Dependencies.b_high b in
  let m := occurrences medium fs + Dependencies.b_moderate b in
  let l := occurrences low fs + suid_penalty filesystem
           + Dependencies.b_low b in
  {| totalIssues := c + h + m + l;
     criticalIssues := c;
     highIssues := h;
     mediumIssues := m;
     lowIssues := l;
     riskLevel := ladder c h m l |}.

(** The number of inputs that enter the count: one per listed finding,
    one per structural penalty, and the dependency buckets as given. *)
Definition counted_inputs
    (fs : list Severity)
    (network : Network.NetworkScanResult)
    (processes : Process.ProcessScanResult)
    (filesystem : Filesystem.FilesystemScanResult)
    (dependencies : Dependencies.DependencyScanResult Z) : Z :=
  let b := Dependencies.summary dependencies in
  Z.of_nat (length fs)
  + firewall_penalty network
  + env_secret_penalty processes
  + suid_penalty filesystem
  + (Dependencies.b_critical b + Dependencies.b_high b
     + Dependencies.b_moderate b + Dependencies.b_low b).

(** The strict priority ladder, as a property of a summary. *)
Definition follows_ladder (s : Summary) : Prop :=
  (0 < criticalIssues s -> riskLevel s = CRITICAL)
  /\ (criticalIssues s <= 0 -> 0 < highIssues s -> riskLevel s = HIGH)
  /\ (criticalIssues s <= 0 -> highIssues s <= 0 -> 0 < mediumIssues s ->
      riskLevel s = MEDIUM)
  /\ (criticalIssues s <= 0 -> highIssues s <= 0 -> mediumIssues s <= 0 ->
      0 < lowIssues s -> riskLevel s = LOW)
  /\ (criticalIssues s <= 0 -> highIssues s <= 0 -> mediumIssues s <= 0 ->
      lowIssues s <= 0 -> riskLevel s = CLEAN).

(** Some list that the aggregator classifies by full severity holds a
    critical finding. *)
Definition critical_finding_present
    (network : Network.NetworkScanResult)
    (processes : Process.ProcessScanResult)
    (filesystem : Filesystem.FilesystemScanResult)
    (configuration : Configuration.ConfigScanResult)
    (containers : Containers.ContainerScanResult) : Prop :=
  (exists x, In x (Network.openPorts network)
             /\ Network.severity x = critical)
  \/ (exists x, In x (Process.suspiciousProcesses processes)
                /\ Process.severity x = critical)
  \/ (exists x, In x (Filesystem.sensitiveFileIssues filesystem)
                /\ Filesystem.severity x = critical)
  \/ (exists x, In x (Configuration.sshConfigIssues configuration)
                /\ Configuration.severity x = critical)
  \/ (exists x, In x (Configuration.secretsInConfig configuration)
                /\ Configuration.severity x = critical)
  \/ (exists k x, In k (Containers.containers containers)
                  /\ In x (Containers.issues k)
                  /\ Containers.severity x = critical).

End Reference.

(** ** Sample scan results *)

Module Samples.

Definition quiet_network : Network.NetworkScanResult :=
  {| Network.openPorts := [];
     Network.firewallStatus := {| Network.enabled := true; Network.type := "ufw" |};
     Network.listeningServices := [] |}.

Definition telnet : Network.PortInfo :=
  {| Network.port := 23; Network.protocol := "TCP";
     Network.service := "Telnet (unencrypted)"; Network.state := "LISTENING";
     Network.severity := critical |}.

Definition ssh_port : Network.PortInfo :=
  {| Network.port := 22; Network.protocol := "TCP";
     Network.service := "Unknown"; Network.state := "LISTENING";
     Network.severity := low |}.

Definition telnet_network : Network.NetworkScanResult :=
  {| Network.openPorts := [ssh_port; telnet];
     Network.firewallStatus := {| Network.enabled := false; Network.type := "none" |};
     Network.listeningServices := [] |}.

Definition no_processes : Process.ProcessScanResult :=
  {| Process.suspiciousProcesses := [];
     Process.privilegedProcesses := [];
     Process.secretsInEnv := [] |}.

(** What [findPrivilegedProcesses] pushes for a line of [ps aux]. *)
Definition init_process : Process.ProcessInfo :=
  {| Process.pid := "1"; Process.command := "/sbin/init";
     Process.user := "root";
     Process.issue := "Running with root privileges";
     Process.severity := medium |}.

Definition root_processes : Process.ProcessScanResult :=
  {| Process.suspiciousProcesses := [];
     Process.privilegedProcesses := [init_process];
     Process.secretsInEnv := [] |}.

Definition clean_filesystem : Filesystem.FilesystemScanResult :=
  {| Filesystem.sensitiveFileIssues := [];
     Filesystem.worldWritableFiles := [];
     Filesystem.suidFiles := [];
     Filesystem.exposedSecrets := [] |}.

Definition no_buckets : Dependencies.Buckets Z :=
  {| Dependencies.b_critical := 0; Dependencies.b_high := 0;
     Dependencies.b_moderate := 0; Dependencies.b_low := 0;
     Dependencies.b_info := 0 |}.

Definition no_dependencies : Dependencies.DependencyScanResult Z :=
  {| Dependencies.hasPackageJson := false;
     Dependencies.vulnerabilities := [];
     Dependencies.totalVulnerabilities := 0;
     Dependencies.summary := no_buckets |}.

Definition clean_configuration : Configuration.ConfigScanResult :=
  {| Configuration.sshConfigIssues := [];
     Configuration.secretsInConfig := [] |}.

Definition no_containers : Containers.ContainerScanResult :=
  {| Containers.containers := [] |}.

(** Hosts for the orchestrator. *)

Definition steady_host : Orchestrator.Host :=
  {| Orchestrator.exec_hostname := fun _ => Orchestrator.Fulfilled 2 "build-01
";
     Orchestrator.scanNetwork := fun _ => Orchestrator.Fulfilled 40 telnet_network;
     Orchestrator.scanProcesses := fun _ => Orchestrator.Fulfilled 25 root_processes;
     Orchestrator.scanFilesystem := fun _ => Orchestrator.Fulfilled 90 clean_filesystem;
     Orchestrator.scanDependencies := fun _ => Orchestrator.Fulfilled 700 no_dependencies;
     Orchestrator.scanConfiguration := fun _ => Orchestrator.Fulfilled 5 clean_configuration;
     Orchestrator.scanContainers := fun _ => Orchestrator.Fulfilled 30 no_containers |}.

(** The container scanner raises; every other scanner returns. *)
Definition broken_containers_host : Orchestrator.Host :=
  {| Orchestrator.exec_hostname := Orchestrator.exec_hostname steady_host;
     Orchestrator.scanNetwork := Orchestrator.scanNetwork steady_host;
     Orchestrator.scanProcesses := Orchestrator.scanProcesses steady_host;
     Orchestrator.scanFilesystem := Orchestrator.scanFilesystem steady_host;
     Orchestrator.scanDependencies := Orchestrator.scanDependencies steady_host;
     Orchestrator.scanConfiguration := Orchestrator.scanConfiguration steady_host;
     Orchestrator.scanContainers :=
       fun _ => Orchestrator.Rejected 3 "spawn docker ENOENT" |}.

(** The network scanner never settles; every other scanner returns. *)
Definition hanging_network_host : Orchestrator.Host :=
  {| Orchestrator.exec_hostname := Orchestrator.exec_hostname steady_host;
     Orchestrator.scanNetwork := fun _ => Orchestrator.Pending;
     Orchestrator.scanProcesses := Orchestrator.scanProcesses steady_host;
     Orchestrator.scanFilesystem := Orchestrator.scanFilesystem steady_host;
     Orchestrator.scanDependencies := Orchestrator.scanDependencies steady_host;
     Orchestrator.scanConfiguration := Orchestrator.scanConfiguration steady_host;
     Orchestrator.scanContainers := Orchestrator.scanContainers steady_host |}.

(** A host that is renamed ten milliseconds after the clock's origin. *)
Definition renamed_host : Orchestrator.Host :=
  {| Orchestrator.exec_hostname :=
       fun t => Orchestrator.Fulfilled 2
                  (if (t <? 10)%nat then "old-name" else "new-name");
     Orchestrator.scanNetwork := Orchestrator.scanNetwork steady_host;
     Orchestrator.scanProcesses := Orchestrator.scanProcesses steady_host;
     Orchestrator.scanFilesystem := Orchestrator.scanFilesystem steady_host;
     Orchestrator.scanDependencies := Orchestrator.scanDependencies steady_host;
     Orchestrator.scanConfiguration := Orchestrator.scanConfiguration steady_host;
     Orchestrator.scanContainers := Orchestrator.scanContainers steady_host |}.

(** A stand-in for Node's [crypto]: the digest of a text is the text,
    key number [n] is a tag followed by [n] marks, a signature is the
    message followed by the marks of the private key, and keys without
    the expected tag are refused. *)

Fixpoint marks (n : nat) : string :=
  match n with
  | O => EmptyString
  | S n' => String "#" (marks n')
  end.

#[global] Instance byte_eq_dec : EqDecision byte := Byte.byte_eq_dec.

Definition toy_crypto : Keys.Crypto :=
  {| Keys.sha256 := list_byte_of_string;
     Keys.sign := fun message key =>
       match key with
       | String "s" tag => Ok (message ++ list_byte_of_string tag)%list
       | _ => Throw "ERR_OSSL_UNSUPPORTED"
       end;
     Keys.verify := fun message key signature =>
       match key with
       | String "p" tag =>
           Ok (bool_decide
                (signature = (message ++ list_byte_of_string tag)%list))
       | _ => Throw "ERR_OSSL_UNSUPPORTED"
       end;
     Keys.generateKeyPairSync := fun n =>
       {| Keys.privateKey := String "s" (marks n);
          Keys.publicKey := String "p" (marks n) |} |}.

Definition home : string := "/home/dev".

(** No key has been generated yet. *)
Definition fresh_world : Keys.World :=
  {| Keys.files := ∅;
     Keys.denied := ∅;
     Keys.unreadable := ∅;
     Keys.umask := 18;
     Keys.superuser := false;
     Keys.entropy := 3 |}.

(** The private key is there, the public key file was removed. *)
Definition half_keys_world : Keys.World :=
  {| Keys.files :=
       {[ Keys.PRIVATE_KEY_PATH home :=
            {| Keys.content := "s#"; Keys.mode := Keys.mode_0o600 |} ]};
     Keys.denied := ∅;
     Keys.unreadable := ∅;
     Keys.umask := 18;
     Keys.superuser := false;
     Keys.entropy := 3 |}.


(** An audit report that lists twenty-one vulnerable packages. *)

Definition advisory (i : nat) : string * JSValue :=
  ("pkg-" +:+ DependencyScanner.index_key i,
   JObj [("severity", JStr "high");
         ("range", JStr "<1.0.0");
         ("via", JArr [JObj [("title", JStr "Prototype pollution")]])]).

Definition long_audit : JSValue :=
  JObj [("vulnerabilities", JObj (map advisory (seq 0 21)));
        ("metadata",
         JObj [("vulnerabilities",
                JObj [("critical", JNum 0); ("high", JNum 21);
                      ("moderate", JNum 0); ("low", JNum 0);
                      ("info", JNum 0)])])].

(** A parser that reads [long_audit] from every text. *)
Definition parse_long_audit (text : string) : Result JSValue := Ok long_audit.

(** Two representations of one report: the domains and the metadata
    were inserted in different orders. *)

Definition open_telnet (meta : list (string * string)) : Canonical.Finding :=
  {| Canonical.subject := "23/tcp";
     Canonical.issue := "Telnet (unencrypted)";
     Canonical.severity := critical;
     Canonical.metadata := meta |}.

Definition empty_result : Canonical.DomainResult :=
  {| Canonical.findings := []; Canonical.degraded := false |}.

Definition one_critical : Aggregator.Summary :=
  {| Aggregator.totalIssues := 1; Aggregator.criticalIssues := 1;
     Aggregator.highIssues := 0; Aggregator.mediumIssues := 0;
     Aggregator.lowIssues := 0; Aggregator.riskLevel := Aggregator.CRITICAL |}.

Definition report_in_domain_order : Canonical.ScanReport :=
  {| Canonical.timestamp := 1700000000000;
     Canonical.hostname := "build-01";
     Canonical.results :=
       [(Canonical.network,
         {| Canonical.findings :=
              [open_telnet [("protocol", "TCP"); ("state", "LISTENING")]];
            Canonical.degraded := false |});
        (Canonical.processes, empty_result);
        (Canonical.filesystem, empty_result);
        (Canonical.dependencies, empty_result);
        (Canonical.configuration, empty_result);
        (Canonical.containers, empty_result)];
     Canonical.summary := one_critical |}.

Definition report_in_completion_order : Canonical.ScanReport :=
  {| Canonical.timestamp := 1700000000000;
     Canonical.hostname := "build-01";
     Canonical.results :=
       [(Canonical.configuration, empty_result);
        (Canonical.containers, empty_result);
        (Canonical.processes, empty_result);
        (Canonical.network,
         {| Canonical.findings :=
              [open_telnet [("state", "LISTENING"); ("protocol", "TCP")]];
            Canonical.degraded := false |});
        (Canonical.filesystem, empty_result);
        (Canonical.dependencies, empty_result)];
     Canonical.summary := one_critical |}.

End Samples.

(** ** Further sample inputs *)

Module Fixtures.

(** The private key is there; the public key file is missing and may
    not be written. *)
Definition locked_public_world : Keys.World :=
  {| Keys.files :=
       {[ Keys.PRIVATE_KEY_PATH Samples.home :=
            {| Keys.content := "s#"; Keys.mode := 420 |};
          "/home/dev/notes.txt" :=
            {| Keys.content := "keep"; Keys.mode := 420 |} ]};
     Keys.denied := {[ Keys.PUBLIC_KEY_PATH Samples.home ]};
     Keys.unreadable := ∅;
     Keys.umask := 18;
     Keys.superuser := false;
     Keys.entropy := 5 |}.

(** The private key is there with mode 0644; the public key file is
    missing; the umask is 077. *)
Definition private_umask_world : Keys.World :=
  {| Keys.files :=
       {[ Keys.PRIVATE_KEY_PATH Samples.home :=
            {| Keys.content := "s#"; Keys.mode := 420 |} ]};
     Keys.denied := ∅;
     Keys.unreadable := ∅;
     Keys.umask := 63;
     Keys.superuser := false;
     Keys.entropy := 5 |}.

(** One finding of severity critical, and the four otherwise clean
    results that hold it in a list which the aggregator filters by
    severity, counts as low, or does not read. *)
Definition critical_file : Filesystem.FileIssue :=
  {| Filesystem.path := "/srv/upload";
     Filesystem.issue := "World-writable file";
     Filesystem.severity := critical;
     Filesystem.permissions := None |}.

Definition critical_process : Process.ProcessInfo :=
  {| Process.pid := "1"; Process.command := "/sbin/init";
     Process.user := "root";
     Process.issue := "Running with root privileges";
     Process.severity := critical |}.

Definition critical_world_writable : Filesystem.FilesystemScanResult :=
  {| Filesystem.sensitiveFileIssues := [];
     Filesystem.worldWritableFiles := [critical_file];
     Filesystem.suidFiles := [];
     Filesystem.exposedSecrets := [] |}.

Definition critical_exposed_secret : Filesystem.FilesystemScanResult :=
  {| Filesystem.sensitiveFileIssues := [];
     Filesystem.worldWritableFiles := [];
     Filesystem.suidFiles := [];
     Filesystem.exposedSecrets := [critical_file] |}.

Definition critical_suid_file : Filesystem.FilesystemScanResult :=
  {| Filesystem.sensitiveFileIssues := [];
     Filesystem.worldWritableFiles := [];
     Filesystem.suidFiles := [critical_file];
     Filesystem.exposedSecrets := [] |}.

Definition critical_privileged : Process.ProcessScanResult :=
  {| Process.suspiciousProcesses := [];
     Process.privilegedProcesses := [critical_process];
     Process.secretsInEnv := [] |}.

(** The [hostname] command is missing; every scanner returns. *)
Definition nameless_host : Orchestrator.Host :=
  {| Orchestrator.exec_hostname :=
       fun _ => Orchestrator.Rejected 1 "spawn hostname ENOENT";
     Orchestrator.scanNetwork := Orchestrator.scanNetwork Samples.steady_host;
     Orchestrator.scanProcesses :=
       Orchestrator.scanProcesses Samples.steady_host;
     Orchestrator.scanFilesystem :=
       Orchestrator.scanFilesystem Samples.steady_host;
     Orchestrator.scanDependencies :=
       Orchestrator.scanDependencies Samples.steady_host;
     Orchestrator.scanConfiguration :=
       Orchestrator.scanConfiguration Samples.steady_host;
     Orchestrator.scanContainers :=
       Orchestrator.scanContainers Samples.steady_host |}.

(** An audit report in which one package has no advisory object. *)
Definition audit_with_null_entry : JSValue :=
  JObj [("vulnerabilities",
         JObj [Samples.advisory 0; ("left-pad", JNull); Samples.advisory 2]);
        ("metadata",
         JObj [("vulnerabilities",
                JObj [("critical", JNum 0); ("high", JNum 2);
                      ("moderate", JNum 0); ("low", JNum 0);
                      ("info", JNum 0)])])].

Definition parse_null_entry (text : string) : Result JSValue :=
  Ok audit_with_null_entry.

(** The environment of a build, before and after the credentials were
    rotated. *)
Definition build_env : list (string * string) :=
  [("PATH", "/usr/bin:/bin");
   ("Db_Password", "hunter2");
   ("AWS_SECRET_ACCESS_KEY", "wJalrXUtnFEMI");
   ("NPM_TOKEN", EmptyString);
   ("SSH_PRIVATE_KEY", "-----BEGIN")].

Definition build_env_rotated : list (string * string) :=
  [("PATH", "/opt/bin");
   ("Db_Password", "correct horse");
   ("AWS_SECRET_ACCESS_KEY", "k7MDENG/bPxRfiCY");
   ("NPM_TOKEN", EmptyString);
   ("SSH_PRIVATE_KEY", "-----BEGIN OPENSSH")].

End Fixtures.

(** ** Notions used to state further properties *)

Module Notions.

(** [null] or [undefined]. *)
Definition nullish (v : JSValue) : bool :=
  match v with
  | JUndefined | JNull => true
  | _ => false
  end.

(** The risk levels in increasing order. *)
Definition rank (r : Aggregator.RiskLevel) : nat :=
  match r with
  | Aggregator.CLEAN => 0
  | Aggregator.LOW => 1
  | Aggregator.MEDIUM => 2
  | Aggregator.HIGH => 3
  | Aggregator.CRITICAL => 4
  end.

(** Every character of the text is white space, or none is. *)
Fixpoint all_white_space (s : string) : bool :=
  match s with
  | EmptyString => true
  | String c rest => Orchestrator.is_white_space c && all_white_space rest
  end.

Fixpoint no_white_space (s : string) : bool :=
  match s with
  | EmptyString => true
  | String c rest =>
      negb (Orchestrator.is_white_space c) && no_white_space rest
  end.

(** The dependency buckets that enter the summary are not negative. *)
Definition buckets_nonnegative (d : Dependencies.DependencyScanResult Z)
  : Prop :=
  0 <= Dependencies.b_critical (Dependencies.summary d)
  /\ 0 <= Dependencies.b_high (Dependencies.summary d)
  /\ 0 <= Dependencies.b_moderate (Dependencies.summary d)
  /\ 0 <= Dependencies.b_low (Dependencies.summary d).

(** [Number.MAX_SAFE_INTEGER], 2^53 - 1: up to it, JavaScript numbers
    hold the integers exactly. *)
Definition MAX_SAFE_INTEGER : Z := 9007199254740991.

(** The counters of [calculateSummary] stay safe integers, so that each
    addition of the code gives the exact sum: the dependency buckets are
    not negative and the inputs that are counted number at most
    [MAX_SAFE_INTEGER]. *)
Definition counts_exactly
    (network : Network.NetworkScanResult)
    (processes : Process.ProcessScanResult)
    (filesystem : Filesystem.FilesystemScanResult)
    (dependencies : Dependencies.DependencyScanResult Z)
    (configuration : Configuration.ConfigScanResult)
    (containers : Containers.ContainerScanResult) : Prop :=
  buckets_nonnegative dependencies
  /\ Reference.counted_inputs
       (Reference.counted_findings network processes filesystem
          configuration containers)
       network processes filesystem dependencies
     <= MAX_SAFE_INTEGER.

(** Every character of the text is an ASCII character. *)
Fixpoint ascii_text (s : string) : bool :=
  match s with
  | EmptyString => true
  | String c rest => (nat_of_ascii c <? 128)%nat && ascii_text rest
  end.

(** The command, or the read, gave an ASCII text or failed. *)
Definition ascii_output (r : Result string) : Prop :=
  match r with
  | Ok text => ascii_text text = true
  | Throw _ => True
  end.

(** Two results of a scanner put together: the lists of the second
    after those of the first, the firewall status of the first. *)
Definition more_network (a b : Network.NetworkScanResult)
  : Network.NetworkScanResult :=
  {| Network.openPorts := (Network.openPorts a ++ Network.openPorts b)%list;
     Network.firewallStatus := Network.firewallStatus a;
     Network.listeningServices :=
       (Network.listeningServices a ++ Network.listeningServices b)%list |}.

Definition more_processes (a b : Process.ProcessScanResult)
  : Process.ProcessScanResult :=
  {| Process.suspiciousProcesses :=
       (Process.suspiciousProcesses a ++ Process.suspiciousProcesses b)%list;
     Process.privilegedProcesses :=
       (Process.privilegedProcesses a ++ Process.privilegedProcesses b)%list;
     Process.secretsInEnv :=
       (Process.secretsInEnv a ++ Process.secretsInEnv b)%list |}.

Definition more_filesystem (a b : Filesystem.FilesystemScanResult)
  : Filesystem.FilesystemScanResult :=
  {| Filesystem.sensitiveFileIssues :=
       (Filesystem.sensitiveFileIssues a
        ++ Filesystem.sensitiveFileIssues b)%list;
     Filesystem.worldWritableFiles :=
       (Filesystem.worldWritableFiles a
        ++ Filesystem.worldWritableFiles b)%list;
     Filesystem.suidFiles :=
       (Filesystem.suidFiles a ++ Filesystem.suidFiles b)%list;
     Filesystem.exposedSecrets :=
       (Filesystem.exposedSecrets a ++ Filesystem.exposedSecrets b)%list |}.

Definition more_configuration (a b : Configuration.ConfigScanResult)
  : Configuration.ConfigScanResult :=
  {| Configuration.sshConfigIssues :=
       (Configuration.sshConfigIssues a
        ++ Configuration.sshConfigIssues b)%list;
     Configuration.secretsInConfig :=
       (Configuration.secretsInConfig a
        ++ Configuration.secretsInConfig b)%list |}.

Definition more_containers (a b : Containers.ContainerScanResult)
  : Containers.ContainerScanResult :=
  {| Containers.containers :=
       (Containers.containers a ++ Containers.containers b)%list |}.

End Notions.

(** ** process.ts (the scanner of environment variables)

    Texts are sequences of bytes.  A pattern such as [/API_KEY/i] has no
    operator: it is found in a text when the word occurs in it, letters
    compared without regard to ASCII case. *)

Module ProcessScanner.

Definition to_upper (c : ascii) : ascii :=
  if Buffer.between "a" "z" c then ascii_of_nat (nat_of_ascii c - 32) else c.

Fixpoint starts_with_ci (word text : string) : bool :=
  match word, text with
  | EmptyString, _ => true
  | String _ _, EmptyString => false
  | String a word', String b text' =>
      (to_upper a =? to_upper b)%char && starts_with_ci word' text'
  end.

(** [/word/i.test(text)] *)
Fixpoint test_ci (word text : string) : bool :=
  starts_with_ci word text
  || match text with
     | EmptyString => false
     | String _ rest => test_ci word rest
     end.

Definition SECRET_PATTERNS : list (string * string) :=
  [("AWS_ACCESS_KEY", "AWS Access Key");
   ("AWS_SECRET", "AWS Secret");
   ("GITHUB_TOKEN", "GitHub Token");
   ("API_KEY", "API Key");
   ("PASSWORD", "Password");
   ("SECRET", "Secret");
   ("TOKEN", "Token");
   ("PRIVATE_KEY", "Private Key")].

(** A value counts as true when it is not the empty text. *)
Definition has_value (value : string) : bool :=
  negb (String.eqb value EmptyString).

(** The inner loop over the patterns, left at the first push. *)
Fixpoint first_pattern (patterns : list (string * string))
    (pid key value : string) : option Process.EnvSecret :=
  match patterns with
  | [] => None
  | (pattern, type) :: rest =>
      if test_ci pattern key && has_value value
      then Some {| Process.epid := pid;
                   Process.ecommand := "current-process";
                   Process.secret := key;
                   Process.type := type |}
      else first_pattern rest pid key value
  end.

(** The outer loop over [Object.entries(process.env)]. *)
Fixpoint scan_entries (env : list (string * string)) (pid : string)
    (secrets : list Process.EnvSecret) : list Process.EnvSecret :=
  match env with
  | [] => secrets
  | (key, value) :: rest =>
      match first_pattern SECRET_PATTERNS pid key value with
      | Some found => scan_entries rest pid (secrets ++ [found])
      | None => scan_entries rest pid secrets
      end
  end.

(** [scanEnvironmentVariables], given [process.pid.toString()] and the
    entries of [process.env]. *)
Definition scanEnvironmentVariables (pid : string)
    (env : list (string * string)) : list Process.EnvSecret :=
  scan_entries env pid [].

(** The name of the variable holds one of the words of the table. *)
Definition names_a_secret (key : string) : bool :=
  existsb (fun p => test_ci (fst p) key) SECRET_PATTERNS.

End ProcessScanner.

(** ** filesystem.ts (the scanner)

    The scanner is a function of the home and working directories, of
    what [stat] and [access] answer for a path, and of how the two [find]
    commands end. *)

Module FilesystemScanner.
Import Filesystem.
Local Open Scope list_scope.

(** What the file system answers for an existing path: [stats.mode],
    [stats.isFile()], and whether [access(path, R_OK)] succeeds. *)
Record Stat := { st_mode : N; st_isFile : bool; st_readable : bool }.

Abbreviation Disk := (gmap string Stat).

(** [n.toString(8)] *)
Fixpoint octal_from (fuel : nat) (n : N) (acc : string) : string :=
  match fuel with
  | O => acc
  | S fuel' =>
      let acc' := String (ascii_of_N (48 + n mod 8)) acc in
      if (n / 8 =? 0)%N then acc' else octal_from fuel' (n / 8) acc'
  end.

Definition toString_8 (n : N) : string :=
  octal_from (S (N.to_nat (N.log2 n))) n EmptyString.

(** [text.split('\n')] *)
Fixpoint split_lines (text : string) : list string :=
  match text with
  | EmptyString => [EmptyString]
  | String c rest =>
      if (c =? ascii_of_nat 10)%char then EmptyString :: split_lines rest
      else match split_lines rest with
           | line :: lines => String c line :: lines
           | [] => [String c EmptyString]
           end
  end.

(** [stdout.split('\n').filter((l) => l.trim())] *)
Definition non_blank_lines (stdout : string) : list string :=
  List.filter
    (fun l => negb (String.eqb (Orchestrator.trim l) EmptyString))
    (split_lines stdout).

Definition SENSITIVE_FILES : list (string * Severity) :=
  [(".ssh/id_rsa", critical);
   (".ssh/id_ed25519", critical);
   (".aws/credentials", high);
   (".env", high);
   (".env.local", high);
   (".npmrc", medium);
   (".netrc", high)].

Definition mask_0o777 : N := 511.
Definition mask_0o044 : N := 36.
Definition mask_0o7777 : N := 4095.
Definition mask_0o4000 : N := 2048.

(** One turn of the loop of [checkSensitiveFiles]. *)
Definition check_sensitive (home : string) (disk : Disk)
    (file : string * Severity) (issues : list FileIssue) : list FileIssue :=
  let fullPath := Path.join home (fst file) in
  match disk !! fullPath with
  | Some stats =>
      let mode := N.land (st_mode stats) mask_0o777 in
      let perms := toString_8 mode in
      if negb (N.land mode mask_0o044 =? 0)%N
      then issues ++ [{| path := fullPath;
                         issue := "Sensitive file has overly permissive permissions";
                         severity := snd file;
                         permissions := Some perms |}]
      else issues
  | None => issues
  end.

Definition checkSensitiveFiles (home : string) (disk : Disk)
  : list FileIssue :=
  Aggregator.forEach SENSITIVE_FILES (check_sensitive home disk) [].

(** The [find] command of [findWorldWritableFiles] prints [stdout], or
    the call throws. *)
Definition findWorldWritableFiles (found : Result string) : list FileIssue :=
  match found with
  | Ok stdout =>
      Aggregator.forEach (non_blank_lines stdout)
        (fun line files =>
           files ++ [{| path := line;
                        issue := "World-writable file";
                        severity := medium;
                        permissions := None |}])
        []
  | Throw _ => []
  end.

(** One turn of the loop of [findSuidFiles]. *)
Definition check_suid (disk : Disk) (line : string) (files : list FileIssue)
  : list FileIssue :=
  match disk !! line with
  | Some stats =>
      let mode := N.land (st_mode stats) mask_0o7777 in
      let perms := toString_8 mode in
      files ++ [{| path := line;
                   issue := if negb (N.land mode mask_0o4000 =? 0)%N
                            then "SUID binary" else "SGID binary";
                   severity := low;
                   permissions := Some perms |}]
  | None => files
  end.

Definition findSuidFiles (found : Result string) (disk : Disk)
  : list FileIssue :=
  match found with
  | Ok stdout =>
      Aggregator.forEach (firstn 20 (non_blank_lines stdout))
        (check_suid disk) []
  | Throw _ => []
  end.

Definition home_secret_files : list string :=
  [".env"; ".env.local"; ".env.production"; ".env.development";
   "config.json"; "config.yaml"; "config.yml"; ".npmrc"; ".aws/credentials"].

Definition cwd_secret_files : list string :=
  [".env"; ".env.local"; "config.json"].

(** [access(path, constants.R_OK)] succeeds. *)
Definition can_read (disk : Disk) (path : string) : bool :=
  match disk !! path with
  | Some stats => st_readable stats
  | None => false
  end.

Definition check_home_secret (home : string) (disk : Disk) (file : string)
    (secrets : list FileIssue) : list FileIssue :=
  let fullPath := Path.join home file in
  if can_read disk fullPath
  then secrets ++ [{| path := fullPath;
                      issue := "Potential secrets file found";
                      severity := medium;
                      permissions := None |}]
  else secrets.

Definition check_cwd_secret (cwd : string) (disk : Disk) (file : string)
    (secrets : list FileIssue) : list FileIssue :=
  let fullPath := Path.join cwd file in
  if can_read disk fullPath
  then match disk !! fullPath with
       | Some stats =>
           if st_isFile stats
           then secrets ++ [{| path := fullPath;
                               issue := "Potential secrets file in current directory";
                               severity := high;
                               permissions := None |}]
           else secrets
       | None => secrets
       end
  else secrets.

Definition findExposedSecrets (home cwd : string) (disk : Disk)
  : list FileIssue :=
  let secrets :=
    Aggregator.forEach home_secret_files (check_home_secret home disk) [] in
  Aggregator.forEach cwd_secret_files (check_cwd_secret cwd disk) secrets.

Definition scanFilesystem (home cwd : string) (disk : Disk)
    (worldWritable suid : Result string) : FilesystemScanResult :=
  {| sensitiveFileIssues := checkSensitiveFiles home disk;
     worldWritableFiles := findWorldWritableFiles worldWritable;
     suidFiles := findSuidFiles suid disk;
     exposedSecrets := findExposedSecrets home cwd disk |}.

(** Reading an octal numeral back. *)
Fixpoint octal_value (s : string) (acc : N) : N :=
  match s with
  | EmptyString => acc
  | String c rest => octal_value rest (8 * acc + (N_of_ascii c - 48))
  end.

(** What one turn of each loop pushes. *)
Definition sensitive_issue (home : string) (disk : Disk)
    (file : string * Severity) : list FileIssue :=
  check_sensitive home disk file [].

Definition suid_issue (disk : Disk) (line : string) : list FileIssue :=
  check_suid disk line [].

Definition home_secret (home : string) (disk : Disk) (file : string)
  : list FileIssue := check_home_secret home disk file [].

Definition cwd_secret (cwd : string) (disk : Disk) (file : string)
  : list FileIssue := check_cwd_secret cwd disk file [].

End FilesystemScanner.

(** ** network.ts (the firewall check)

    The check is a function of how its shell commands end: with the text
    that the command prints, or with an exception.  Texts are ASCII. *)

Module NetworkScanner.

Fixpoint starts_with (word text : string) : bool :=
  match word, text with
  | EmptyString, _ => true
  | String _ _, EmptyString => false
  | String a word', String b text' => (a =? b)%char && starts_with word' text'
  end.

(** [text.includes(word)] *)
Fixpoint includes (word text : string) : bool :=
  starts_with word text
  || match text with
     | EmptyString => false
     | String _ rest => includes word rest
     end.

Definition digit_value (c : ascii) : option N :=
  if Buffer.between "0" "9" c then Some (N_of_ascii c - 48)%N else None.

(** The number written by the decimal digits at the start of a text. *)
Fixpoint leading_digits (text : string) (acc : option N) : option N :=
  match text with
  | EmptyString => acc
  | String c rest =>
      match digit_value c with
      | Some d => leading_digits rest (Some (10 * default 0%N acc + d)%N)
      | None => acc
      end
  end.

(** [parseInt(text, 10)], with [None] for [NaN]. *)
Definition parseInt (text : string) : option Z :=
  match Orchestrator.trim_start text with
  | String c rest =>
      if (c =? "-")%char
      then (fun n => - Z.of_N n) <$> leading_digits rest None
      else if (c =? "+")%char
      then Z.of_N <$> leading_digits rest None
      else Z.of_N <$> leading_digits (String c rest) None
  | EmptyString => None
  end.

(** [ruleCount > 8], false for [NaN]. *)
Definition greater_than (count : option Z) (bound : Z) : bool :=
  match count with
  | Some n => n >? bound
  | None => false
  end.

(** [checkFirewall], given how [ufw status] ends and how
    [iptables -L | wc -l] ends when it is run. *)
Definition checkFirewall (ufw iptables : Result string)
  : Network.FirewallStatus :=
  match ufw with
  | Ok ufwOutput =>
      if includes "Status: active" ufwOutput
      then {| Network.enabled := true; Network.type := "ufw" |}
      else
        match iptables with
        | Ok iptablesOutput =>
            let ruleCount := parseInt (Orchestrator.trim iptablesOutput) in
            if greater_than ruleCount 8
            then {| Network.enabled := true; Network.type := "iptables" |}
            else {| Network.enabled := false; Network.type := "none" |}
        | Throw _ => {| Network.enabled := false; Network.type := "unknown" |}
        end
  | Throw _ => {| Network.enabled := false; Network.type := "unknown" |}
  end.

End NetworkScanner.

(** ** process.ts (the privileged processes) *)

Module PrivilegedProcesses.

(** [text.split(/\s+/)] *)
Fixpoint split_white_space (text : string) : list string :=
  match text with
  | EmptyString => [EmptyString]
  | String c rest =>
      if Orchestrator.is_white_space c
      then match rest with
           | String c' _ =>
               if Orchestrator.is_white_space c'
               then split_white_space rest
               else EmptyString :: split_white_space rest
           | EmptyString => EmptyString :: split_white_space rest
           end
      else match split_white_space rest with
           | part :: parts => String c part :: parts
           | [] => [String c EmptyString]
           end
  end.

(** [parts.join(' ')] *)
Fixpoint join_spaces (parts : list string) : string :=
  match parts with
  | [] => EmptyString
  | [part] => part
  | part :: rest => part +:+ " " +:+ join_spaces rest
  end.

(** [parts[i] || 'unknown'] *)
Definition part_or_unknown (parts : list string) (i : nat) : string :=
  match nth_error parts i with
  | Some part => if String.eqb part EmptyString then "unknown" else part
  | None => "unknown"
  end.

(** One turn of the loop of [findPrivilegedProcesses]. *)
Definition privileged_process (line : string) : Process.ProcessInfo :=
  let parts := split_white_space line in
  {| Process.pid := part_or_unknown parts 1;
     Process.command :=
       String.substring 0 100 (join_spaces (skipn 10 parts));
     Process.user := "root";
     Process.issue := "Running with root privileges";
     Process.severity := medium |}.

(** [findPrivilegedProcesses], given how
    [ps aux | grep "^root" | head -20] ends. *)
Definition findPrivilegedProcesses (ps : Result string)
  : list Process.ProcessInfo :=
  match ps with
  | Ok stdout =>
      let lines :=
        List.filter
          (fun l => negb (String.eqb (Orchestrator.trim l) EmptyString)
                    && negb (NetworkScanner.includes "grep" l))
          (FilesystemScanner.split_lines stdout) in
      Aggregator.forEach (firstn 10 lines)
        (fun line privileged => (privileged ++ [privileged_process line])%list)
        []
  | Throw _ => []
  end.

End PrivilegedProcesses.

(** ** configuration.ts (the check of the SSH daemon configuration)

    The check is a function of what reading [/etc/ssh/sshd_config]
    gives: its text, or an exception. *)

Module SshConfig.
Import Configuration.
Local Open Scope list_scope.

Definition sshConfigPath : string := "/etc/ssh/sshd_config".

(** What follows [word] at the start of [text], letters compared
    without regard to case. *)
Fixpoint after_ci (word text : string) : option string :=
  match word, text with
  | EmptyString, _ => Some text
  | String _ _, EmptyString => None
  | String a word', String b text' =>
      if (ProcessScanner.to_upper a =? ProcessScanner.to_upper b)%char
      then after_ci word' text' else None
  end.

(** [/^name\s+yes/i.test(text)] *)
Definition says_yes (name text : string) : bool :=
  match after_ci name text with
  | Some (String c rest) =>
      Orchestrator.is_white_space c
      && ProcessScanner.starts_with_ci "yes" (Orchestrator.trim_start rest)
  | _ => false
  end.

(** The body of the loop over the lines. *)
Definition check_line (line : string) (issues : list ConfigIssue)
  : list ConfigIssue :=
  let trimmed := Orchestrator.trim line in
  let issues :=
    if says_yes "PermitRootLogin" trimmed
    then issues ++ [{| file := sshConfigPath;
                       issue := "SSH allows root login";
                       severity := high;
                       line := Some trimmed |}]
    else issues in
  let issues :=
    if says_yes "PasswordAuthentication" trimmed
    then issues ++ [{| file := sshConfigPath;
                       issue := "SSH allows password authentication";
                       severity := medium;
                       line := Some trimmed |}]
    else issues in
  if says_yes "PermitEmptyPasswords" trimmed
  then issues ++ [{| file := sshConfigPath;
                     issue := "SSH allows empty passwords";
                     severity := critical;
                     line := Some trimmed |}]
  else issues.

Definition checkSSHConfig (config : Result string) : list ConfigIssue :=
  match config with
  | Ok content =>
      Aggregator.forEach (FilesystemScanner.split_lines content) check_line []
  | Throw _ => []
  end.

(** What one line pushes. *)
Definition line_issues (line : string) : list ConfigIssue :=
  check_line line [].

(** The three directives with the issue and severity they give rise to. *)
Definition directives : list (string * (string * Severity)) :=
  [("PermitRootLogin", ("SSH allows root login", high));
   ("PasswordAuthentication", ("SSH allows password authentication", medium));
   ("PermitEmptyPasswords", ("SSH allows empty passwords", critical))].

(** Two words agree when, as far as both go, they have the same letters
    without regard to case. *)
Fixpoint agree_ci (w1 w2 : string) : bool :=
  match w1, w2 with
  | String a r1, String b r2 =>
      (ProcessScanner.to_upper a =? ProcessScanner.to_upper b)%char
      && agree_ci r1 r2
  | _, _ => true
  end.

End SshConfig.

(** ** Sample inputs of the scanners *)

Module Scenes.

(** A home directory whose [.npmrc] is readable by everyone. *)
Definition dev_disk : gmap string FilesystemScanner.Stat :=
  {[ "/home/dev/.npmrc" :=
       {| FilesystemScanner.st_mode := 33188;
          FilesystemScanner.st_isFile := true;
          FilesystemScanner.st_readable := true |} ]}.

(** What [find] prints for one world-writable file. *)
Definition one_world_writable : Result string := Ok "/srv/upload
".

(** Two lines of [ps aux | grep "^root"], the second one the [grep]
    itself. *)
Definition ps_root : Result string :=
  Ok "root         1  0.0  0.1 167744 11580 ?        Ss   Jan01   0:09 /sbin/init splash
root      4242  0.0  0.0   6432   720 pts/0    S+   10:02   0:00 grep ^root
".

(** A daemon configuration that lets root log in. *)
Definition sshd_config : Result string :=
  Ok "# OpenSSH server
Port 22
  permitrootlogin   YES
PasswordAuthentication no
".

End Scenes.

(* ===================================================================== *)
(** * Part II: properties                                                 *)
(* ===================================================================== *)

(** ** The risk aggregator *)

Section AggregatorFacts.
Import Aggregator Reference.

Lemma Counters_eq (c d : Counters) :
  n_critical c = n_critical d -> n_high c = n_high d ->
  n_medium c = n_medium d -> n_low c = n_low d -> c = d.
Proof. destruct c, d; simpl; congruence. Qed.

Lemma occurrences_cons sev x fs :
  occurrences sev (x :: fs)
  = (if decide (x = sev) then 1 else 0) + occurrences sev fs.
Proof.
  unfold occurrences. simpl.
  destruct (Severity_eq_dec x sev), (decide (x = sev)); try congruence; lia.
Qed.

Lemma occurrences_app sev fs gs :
  occurrences sev (fs ++ gs) = occurrences sev fs + occurrences sev gs.
Proof. unfold occurrences. rewrite count_occ_app. lia. Qed.

Lemma occurrences_nonneg sev fs : 0 <= occurrences sev fs.
Proof. unfold occurrences. lia. Qed.

Lemma occurrences_pos sev fs : In sev fs -> 0 < occurrences sev fs.
Proof.
  intros H. unfold occurrences.
  apply (count_occ_In Severity_eq_dec) in H. lia.
Qed.

Lemma occurrences_total fs :
  occurrences critical fs + occurrences high fs
  + occurrences medium fs + occurrences low fs = Z.of_nat (length fs).
Proof.
  induction fs as [|x fs IH]; [reflexivity|].
  rewrite !occurrences_cons. simpl length. rewrite Nat2Z.inj_succ.
  destruct x; repeat case_decide; try congruence; lia.
Qed.

Lemma add_findings_nil c : add_findings [] c = c.
Proof. apply Counters_eq; simpl; unfold occurrences; simpl; lia. Qed.

Lemma add_findings_app fs gs c :
  add_findings gs (add_findings fs c) = add_findings (fs ++ gs) c.
Proof. apply Counters_eq; simpl; rewrite occurrences_app; lia. Qed.

Lemma count_by_severity_add sev c :
  count_by_severity sev c = add_findings [sev] c.
Proof.
  destruct sev; apply Counters_eq; simpl; unfold occurrences; simpl; lia.
Qed.

(** A loop that classifies each element by its full severity. *)
Lemma forEach_count_by_severity {A} (sev : A -> Severity) xs c :
  forEach xs (fun x => count_by_severity (sev x)) c
  = add_findings (map sev xs) c.
Proof.
  unfold forEach. revert c.
  induction xs as [|x xs IH]; intros c; simpl.
  - now rewrite add_findings_nil.
  - rewrite IH, count_by_severity_add, add_findings_app. reflexivity.
Qed.

Lemma forEach_count_if_medium {A} (sev : A -> Severity) xs c :
  forEach xs (fun x => count_if_medium (sev x)) c
  = add_findings (List.filter is_medium (map sev xs)) c.
Proof.
  unfold forEach. revert c.
  induction xs as [|x xs IH]; intros c; simpl.
  - now rewrite add_findings_nil.
  - rewrite IH. destruct (sev x); simpl; try reflexivity.
    change (incr_medium c) with (count_by_severity medium c).
    rewrite count_by_severity_add, add_findings_app. reflexivity.
Qed.

Lemma forEach_count_high_or_medium {A} (sev : A -> Severity) xs c :
  forEach xs (fun x => count_high_or_medium (sev x)) c
  = add_findings (List.filter is_high_or_medium (map sev xs)) c.
Proof.
  unfold forEach. revert c.
  induction xs as [|x xs IH]; intros c; simpl.
  - now rewrite add_findings_nil.
  - rewrite IH. destruct (sev x); simpl; try reflexivity.
    + change (incr_high c) with (count_by_severity high c).
      rewrite count_by_severity_add, add_findings_app. reflexivity.
    + change (incr_medium c) with (count_by_severity medium c).
      rewrite count_by_severity_add, add_findings_app. reflexivity.
Qed.

Lemma forEach_incr_high {A} (xs : list A) c :
  forEach xs (fun _ => incr_high) c
  = {| n_critical := n_critical c;
       n_high := n_high c + Z.of_nat (length xs);
       n_medium := n_medium c; n_low := n_low c |}.
Proof.
  unfold forEach. revert c.
  induction xs as [|x xs IH]; intros c.
  - apply Counters_eq; simpl; lia.
  - simpl fold_left. rewrite IH. apply Counters_eq; simpl; lia.
Qed.

Lemma forEach_incr_low {A} (xs : list A) c :
  forEach xs (fun _ => incr_low) c
  = {| n_critical := n_critical c; n_high := n_high c;
       n_medium := n_medium c;
       n_low := n_low c + Z.of_nat (length xs) |}.
Proof.
  unfold forEach. revert c.
  induction xs as [|x xs IH]; intros c.
  - apply Counters_eq; simpl; lia.
  - simpl fold_left. rewrite IH. apply Counters_eq; simpl; lia.
Qed.

(** The nested loop over containers and their issues. *)
Lemma forEach_containers cs c :
  forEach cs
    (fun container =>
       forEach (Containers.issues container)
         (fun issue => count_by_severity (Containers.severity issue))) c
  = add_findings
      (flat_map (fun k => map Containers.severity (Containers.issues k)) cs) c.
Proof.
  unfold forEach at 1. revert c.
  induction cs as [|k cs IH]; intros c; simpl.
  - now rewrite add_findings_nil.
  - rewrite IH, forEach_count_by_severity, add_findings_app. reflexivity.
Qed.

Lemma resolve_risk_ladder c :
  resolve_risk c = ladder (n_critical c) (n_high c) (n_medium c) (n_low c).
Proof.
  unfold resolve_risk, ladder.
  repeat match goal with
         | |- context [ ?a >? 0 ] => destruct (Z.gtb_spec a 0)
         end;
  repeat case_decide; try reflexivity; lia.
Qed.

Lemma ladder_follows c h m l t :
  follows_ladder
    {| totalIssues := t; criticalIssues := c; highIssues := h;
       mediumIssues := m; lowIssues := l; riskLevel := ladder c h m l |}.
Proof.
  unfold follows_ladder, ladder; simpl.
  repeat split; intros; repeat case_decide; try reflexivity; lia.
Qed.

Variables (network : Network.NetworkScanResult)
          (processes : Process.ProcessScanResult)
          (filesystem : Filesystem.FilesystemScanResult)
          (dependencies : Dependencies.DependencyScanResult Z)
          (configuration : Configuration.ConfigScanResult)
          (containers : Containers.ContainerScanResult).

(** The counters at the end of [calculateSummary], in closed form. *)
Lemma count_all_closed :
  let fs := counted_findings network processes filesystem
              configuration containers in
  let b := Dependencies.summary dependencies in
  count_all network processes filesystem dependencies configuration containers
  = {| n_critical := occurrences critical fs + Dependencies.b_critical b;
       n_high := occurrences high fs + firewall_penalty network
                 + env_secret_penalty processes + Dependencies.b_high b;
       n_medium := occurrences medium fs + Dependencies.b_moderate b;
       n_low := occurrences low fs + suid_penalty filesystem
                + Dependencies.b_low b |}.
Proof.
  intros fs b. subst fs b.
  unfold count_all, counted_findings, container_findings.
  rewrite forEach_containers, !forEach_count_by_severity,
    forEach_count_high_or_medium, forEach_count_if_medium,
    forEach_incr_high, forEach_incr_low.
  unfold firewall_penalty, env_secret_penalty, suid_penalty, add_buckets.
  destruct (Network.enabled (Network.firewallStatus network));
    apply Counters_eq; simpl; rewrite !occurrences_app.
  all: lia.
Qed.

Lemma calculateSummary_counted :
  calculateSummary network processes filesystem dependencies
    configuration containers
  = summarize
      (counted_findings network processes filesystem configuration containers)
      network processes filesystem dependencies.
Proof.
  unfold calculateSummary, summarize.
  rewrite resolve_risk_ladder, count_all_closed. reflexivity.
Qed.

Lemma calculateSummary_critical_positive :
  0 <= Dependencies.b_critical (Dependencies.summary dependencies) ->
  critical_finding_present network processes filesystem
    configuration containers ->
  0 < criticalIssues
        (calculateSummary network processes filesystem dependencies
           configuration containers).
Proof.
  intros Hdep Hcrit. rewrite calculateSummary_counted. simpl.
  assert (In critical
            (counted_findings network processes filesystem
               configuration containers)) as Hin.
  { unfold counted_findings, container_findings.
    rewrite !in_app_iff.
    destruct Hcrit as [(x & Hx & Hs)|[(x & Hx & Hs)|[(x & Hx & Hs)|
                      [(x & Hx & Hs)|[(x & Hx & Hs)|(k & x & Hk & Hx & Hs)]]]]].
    - left. rewrite <- Hs. now apply in_map.
    - right; left. rewrite <- Hs. now apply in_map.
    - do 2 right; left. rewrite <- Hs. now apply in_map.
    - do 5 right; left. rewrite <- Hs. now apply in_map.
    - do 6 right; left. rewrite <- Hs. now apply in_map.
    - do 7 right. apply in_flat_map. exists k. split; [exact Hk|].
      rewrite <- Hs. now apply in_map. }
  apply occurrences_pos in Hin. lia.
Qed.

End AggregatorFacts.

(** C1, as the specification states it, fails: one critical finding
    added to a clean result set does not always give [CRITICAL].  Among
    the world-writable files or the exposed secrets it is filtered out by
    the severity test of the loop, among the privileged processes it is
    not read at all, and the summary stays [CLEAN] with no critical
    issue; among the SUID files it counts as low. *)
Lemma critical_finding_not_counted_as_critical :
  Aggregator.riskLevel
    (Aggregator.calculateSummary Samples.quiet_network Samples.no_processes
       Fixtures.critical_world_writable Samples.no_dependencies
       Samples.clean_configuration Samples.no_containers) = Aggregator.CLEAN
  /\ Aggregator.riskLevel
       (Aggregator.calculateSummary Samples.quiet_network Samples.no_processes
          Fixtures.critical_exposed_secret Samples.no_dependencies
          Samples.clean_configuration Samples.no_containers) = Aggregator.CLEAN
  /\ Aggregator.riskLevel
       (Aggregator.calculateSummary Samples.quiet_network
          Fixtures.critical_privileged Samples.clean_filesystem
          Samples.no_dependencies Samples.clean_configuration
          Samples.no_containers) = Aggregator.CLEAN
  /\ Aggregator.riskLevel
       (Aggregator.calculateSummary Samples.quiet_network Samples.no_processes
          Fixtures.critical_suid_file Samples.no_dependencies
          Samples.clean_configuration Samples.no_containers) = Aggregator.LOW
  /\ Aggregator.criticalIssues
       (Aggregator.calculateSummary Samples.quiet_network
          Fixtures.critical_privileged Fixtures.critical_world_writable
          Samples.no_dependencies Samples.clean_configuration
          Samples.no_containers) = 0.
Proof. repeat split. Qed.

(** C1, amended. The risk level of every summary follows the strict
    priority ladder on the summary's own counters (critical, then high,
    then medium, then low, else clean); and whenever the dependency
    scanner's critical bucket is not negative, one critical finding in any
    list that the aggregator classifies by full severity (open ports,
    suspicious processes, sensitive files, SSH configuration, secrets in
    configuration, container issues) makes the risk level [CRITICAL],
    whatever else the result set holds. *)
Theorem riskLevel_priority_ladder
    (network : Network.NetworkScanResult)
    (processes : Process.ProcessScanResult)
    (filesystem : Filesystem.FilesystemScanResult)
    (dependencies : Dependencies.DependencyScanResult Z)
    (configuration : Configuration.ConfigScanResult)
    (containers : Containers.ContainerScanResult) :
  let s := Aggregator.calculateSummary network processes filesystem
             dependencies configuration containers in
  Reference.follows_ladder s
  /\ (0 <= Dependencies.b_critical (Dependencies.summary dependencies) ->
      Reference.critical_finding_present network processes filesystem
        configuration containers ->
      Aggregator.riskLevel s = Aggregator.CRITICAL).
Proof.
  intros s.
  assert (Reference.follows_ladder s) as Hl.
  { subst s. rewrite calculateSummary_counted. apply ladder_follows. }
  split; [exact Hl|].
  intros Hdep Hcrit. apply Hl.
  now apply calculateSummary_critical_positive.
Qed.

Lemma riskLevel_priority_ladder_witness :
  0 <= Dependencies.b_critical (Dependencies.summary Samples.no_dependencies)
  /\ Reference.critical_finding_present Samples.telnet_network
       Samples.no_processes Samples.clean_filesystem
       Samples.clean_configuration Samples.no_containers
  /\ Aggregator.riskLevel
       (Aggregator.calculateSummary Samples.telnet_network Samples.no_processes
          Samples.clean_filesystem Samples.no_dependencies
          Samples.clean_configuration Samples.no_containers)
     = Aggregator.CRITICAL.
Proof.
  assert (0 <= Dependencies.b_critical
                 (Dependencies.summary Samples.no_dependencies)) as H0
    by (simpl; lia).
  assert (Reference.critical_finding_present Samples.telnet_network
            Samples.no_processes Samples.clean_filesystem
            Samples.clean_configuration Samples.no_containers) as H1.
  { left. exists Samples.telnet. split; [right; left; reflexivity|reflexivity]. }
  split; [exact H0|]. split; [exact H1|].
  exact (proj2 (riskLevel_priority_ladder Samples.telnet_network
                  Samples.no_processes Samples.clean_filesystem
                  Samples.no_dependencies Samples.clean_configuration
                  Samples.no_containers) H0 H1).
Defined.

(** C2, as the specification states it, fails: the privileged processes
    reported by the process scanner are findings of severity medium, and
    the aggregator does not count them. *)
Lemma summary_omits_privileged_processes :
  Aggregator.mediumIssues
    (Aggregator.calculateSummary Samples.quiet_network Samples.root_processes
       Samples.clean_filesystem Samples.no_dependencies
       Samples.clean_configuration Samples.no_containers) = 0
  /\ Aggregator.riskLevel
       (Aggregator.calculateSummary Samples.quiet_network
          Samples.root_processes Samples.clean_filesystem
          Samples.no_dependencies Samples.clean_configuration
          Samples.no_containers) = Aggregator.CLEAN
  /\ Aggregator.mediumIssues
       (Reference.summarize
          (Reference.all_findings Samples.quiet_network Samples.root_processes
             Samples.clean_filesystem Samples.clean_configuration
             Samples.no_containers)
          Samples.quiet_network Samples.root_processes
          Samples.clean_filesystem Samples.no_dependencies) = 1
  /\ Aggregator.calculateSummary Samples.quiet_network Samples.root_processes
       Samples.clean_filesystem Samples.no_dependencies
       Samples.clean_configuration Samples.no_containers
     <> Reference.summarize
          (Reference.all_findings Samples.quiet_network Samples.root_processes
             Samples.clean_filesystem Samples.clean_configuration
             Samples.no_containers)
          Samples.quiet_network Samples.root_processes
          Samples.clean_filesystem Samples.no_dependencies.
Proof.
  vm_compute. repeat split; discriminate.
Qed.

(** C2, amended. As long as the counters stay safe integers (the
    dependency buckets are not negative and at most 2^53 - 1 inputs are
    counted), the summary equals the reference counting function over the
    findings that the aggregator looks at: open ports, suspicious
    processes, sensitive-file issues, SSH and configuration issues and
    container issues by their severity, world-writable files of severity
    medium, exposed secrets of severity high or medium; privileged
    processes are not counted.  The structural penalties are applied
    exactly, [totalIssues] is the sum of the four counters, and it is the
    number of counted inputs. *)
Theorem calculateSummary_counts_counted_findings
    (network : Network.NetworkScanResult)
    (processes : Process.ProcessScanResult)
    (filesystem : Filesystem.FilesystemScanResult)
    (dependencies : Dependencies.DependencyScanResult Z)
    (configuration : Configuration.ConfigScanResult)
    (containers : Containers.ContainerScanResult) :
  Notions.counts_exactly network processes filesystem dependencies
    configuration containers ->
  let s := Aggregator.calculateSummary network processes filesystem
             dependencies configuration containers in
  let fs := Reference.counted_findings network processes filesystem
              configuration containers in
  s = Reference.summarize fs network processes filesystem dependencies
  /\ Aggregator.totalIssues s
     = Aggregator.criticalIssues s + Aggregator.highIssues s
       + Aggregator.mediumIssues s + Aggregator.lowIssues s
  /\ Aggregator.totalIssues s
     = Reference.counted_inputs fs network processes filesystem dependencies
  /\ 0 <= Aggregator.totalIssues s <= Notions.MAX_SAFE_INTEGER.
Proof.
  intros [(Hc & Hh & Hm & Hl) Hsafe] s fs. subst s fs.
  rewrite calculateSummary_counted.
  assert (Aggregator.totalIssues
            (Reference.summarize
               (Reference.counted_findings network processes filesystem
                  configuration containers)
               network processes filesystem dependencies)
          = Reference.counted_inputs
              (Reference.counted_findings network processes filesystem
                 configuration containers)
              network processes filesystem dependencies) as Htotal.
  { unfold Reference.summarize, Reference.counted_inputs; simpl.
    rewrite <- occurrences_total. lia. }
  split; [reflexivity|]. split; [reflexivity|]. split; [exact Htotal|].
  rewrite Htotal. split; [|exact Hsafe].
  unfold Reference.counted_inputs, Reference.firewall_penalty,
    Reference.env_secret_penalty, Reference.suid_penalty.
  destruct (Network.enabled _); lia.
Qed.

Lemma calculateSummary_counts_counted_findings_witness :
  Notions.counts_exactly Samples.telnet_network Samples.root_processes
    Samples.clean_filesystem Samples.no_dependencies
    Samples.clean_configuration Samples.no_containers
  /\ Aggregator.calculateSummary Samples.telnet_network Samples.root_processes
       Samples.clean_filesystem Samples.no_dependencies
       Samples.clean_configuration Samples.no_containers
     = {| Aggregator.totalIssues := 3; Aggregator.criticalIssues := 1;
          Aggregator.highIssues := 1; Aggregator.mediumIssues := 0;
          Aggregator.lowIssues := 1;
          Aggregator.riskLevel := Aggregator.CRITICAL |}.
Proof.
  assert (Notions.counts_exactly Samples.telnet_network Samples.root_processes
            Samples.clean_filesystem Samples.no_dependencies
            Samples.clean_configuration Samples.no_containers) as H
    by (repeat split; vm_compute; discriminate).
  split; [exact H|].
  rewrite (proj1 (calculateSummary_counts_counted_findings _ _ _ _ _ _ H)).
  reflexivity.
Defined.

(** ** The orchestrator *)

Section OrchestratorFacts.
Import Aggregator Orchestrator.

Lemma all2_fulfilled {A B} (p : Promise A) (q : Promise B) d a b :
  all2 p q = Fulfilled d (a, b) <->
  exists d1 d2, p = Fulfilled d1 a /\ q = Fulfilled d2 b
                /\ d = Nat.max d1 d2.
Proof.
  split.
  - destruct p as [d1 x|d1 e|], q as [d2 y|d2 e'|]; simpl;
      try discriminate.
    + intros [= <- <- <-]. eauto.
    + destruct (d1 <=? d2)%nat; discriminate.
  - intros (d1 & d2 & -> & -> & ->). reflexivity.
Qed.

Lemma all2_rejected {A B} (p : Promise A) (q : Promise B) :
  is_rejected (all2 p q) <-> is_rejected p \/ is_rejected q.
Proof.
  destruct p as [d1 x|d1 e|], q as [d2 y|d2 e'|]; simpl;
    try destruct (d1 <=? d2)%nat; simpl; tauto.
Qed.

Lemma all2_pending {A B} (p : Promise A) (q : Promise B) :
  is_pending (all2 p q) <->
  ~ is_rejected p /\ ~ is_rejected q /\ (is_pending p \/ is_pending q).
Proof.
  destruct p as [d1 x|d1 e|], q as [d2 y|d2 e'|]; simpl;
    try destruct (d1 <=? d2)%nat; simpl; tauto.
Qed.

Lemma is_pending_eq {A} (p : Promise A) : is_pending p <-> p = Pending.
Proof. destruct p; simpl; split; (tauto || discriminate || reflexivity). Qed.

Lemma runFullScan_fulfilled_inv h start d r :
  runFullScan h start = Fulfilled d r ->
  exists d0 d1,
    getHostname h start = Fulfilled d0 (hostname r)
    /\ collected h (start + d0) r d1
    /\ d = (d0 + d1)%nat
    /\ timestamp r = (start + d0 + d1)%nat
    /\ summary r = calculateSummary (network r) (processes r) (filesystem r)
                     (dependencies r) (configuration r) (containers r).
Proof.
  unfold runFullScan.
  destruct (getHostname h start) as [d0 name| |]; try discriminate.
  destruct (all2 _ _) as [d1 [n [p [f [dp [c k]]]]]| |] eqn:Hall;
    try discriminate.
  intros [= <- <-]. simpl.
  apply all2_fulfilled in Hall as (dn & x1 & Hn & Hall & ->).
  apply all2_fulfilled in Hall as (dp' & x2 & Hp & Hall & ->).
  apply all2_fulfilled in Hall as (df & x3 & Hf & Hall & ->).
  apply all2_fulfilled in Hall as (dd & x4 & Hd & Hall & ->).
  apply all2_fulfilled in Hall as (dc & dk & Hc & Hk & ->).
  exists d0, (Nat.max dn (Nat.max dp' (Nat.max df (Nat.max dd (Nat.max dc dk))))).
  repeat split; try reflexivity.
  exists dn, dp', df, dd, dc, dk. repeat split; assumption.
Qed.

Lemma runFullScan_rejected h start d0 name :
  getHostname h start = Fulfilled d0 name ->
  let launch := (start + d0)%nat in
  is_rejected (runFullScan h start) <->
  is_rejected (scanNetwork h launch)
  \/ is_rejected (scanProcesses h launch)
  \/ is_rejected (scanFilesystem h launch)
  \/ is_rejected (scanDependencies h launch)
  \/ is_rejected (scanConfiguration h launch)
  \/ is_rejected (scanContainers h launch).
Proof.
  intros Hh launch. unfold runFullScan. rewrite Hh. fold launch.
  rewrite <- !all2_rejected.
  destruct (all2 _ _) as [d1 [n [p [f [dp [c k]]]]]| |]; simpl; tauto.
Qed.

Lemma runFullScan_pending h start d0 name :
  getHostname h start = Fulfilled d0 name ->
  let launch := (start + d0)%nat in
  is_pending (runFullScan h start) <->
  is_pending (all2 (scanNetwork h launch)
             (all2 (scanProcesses h launch)
             (all2 (scanFilesystem h launch)
             (all2 (scanDependencies h launch)
             (all2 (scanConfiguration h launch)
                   (scanContainers h launch)))))).
Proof.
  intros Hh launch. unfold runFullScan. rewrite Hh. fold launch.
  destruct (all2 _ _) as [d1 [n [p [f [dp [c k]]]]]| |]; simpl; tauto.
Qed.

Lemma all2_is_fulfilled {A B} (p : Promise A) (q : Promise B) :
  is_fulfilled (all2 p q) <-> is_fulfilled p /\ is_fulfilled q.
Proof.
  destruct p as [d1 x|d1 e|], q as [d2 y|d2 e'|]; simpl;
    try destruct (d1 <=? d2)%nat; simpl; tauto.
Qed.

Lemma runFullScan_is_fulfilled h start d0 name :
  getHostname h start = Fulfilled d0 name ->
  let launch := (start + d0)%nat in
  is_fulfilled (runFullScan h start) <->
  is_fulfilled (scanNetwork h launch)
  /\ is_fulfilled (scanProcesses h launch)
  /\ is_fulfilled (scanFilesystem h launch)
  /\ is_fulfilled (scanDependencies h launch)
  /\ is_fulfilled (scanConfiguration h launch)
  /\ is_fulfilled (scanContainers h launch).
Proof.
  intros Hh launch. unfold runFullScan. rewrite Hh. fold launch.
  rewrite <- !all2_is_fulfilled.
  destruct (all2 _ _) as [d1 [n [p [f [dp [c k]]]]]| |]; simpl; tauto.
Qed.

End OrchestratorFacts.

(** C3, as the specification states it, fails: when the container
    scanner raises and the five others return, [runFullScan] is rejected
    with the scanner's error, whereas the same run with a container
    scanner that returns an empty result yields a report. *)
Lemma runFullScan_rejects_with_one_scanner :
  Orchestrator.runFullScan Samples.broken_containers_host 0
  = Orchestrator.Rejected 5 "spawn docker ENOENT"
  /\ Orchestrator.is_fulfilled
       (Orchestrator.scanNetwork Samples.broken_containers_host 2)
  /\ Orchestrator.is_fulfilled
       (Orchestrator.scanProcesses Samples.broken_containers_host 2)
  /\ Orchestrator.is_fulfilled
       (Orchestrator.scanFilesystem Samples.broken_containers_host 2)
  /\ Orchestrator.is_fulfilled
       (Orchestrator.scanDependencies Samples.broken_containers_host 2)
  /\ Orchestrator.is_fulfilled
       (Orchestrator.scanConfiguration Samples.broken_containers_host 2)
  /\ Orchestrator.is_fulfilled (Orchestrator.runFullScan Samples.steady_host 0).
Proof. vm_compute. repeat split. Qed.

(** C3, amended. [runFullScan] applies no timeout and substitutes no
    degraded result; it awaits the six scanners together.  Once the
    host name is known: a report is returned exactly when all six
    scanners return, and it carries each scanner's result unchanged with
    the summary computed from them; the scan is rejected exactly when
    some scanner raises; and it never settles when no scanner raises and
    some scanner never settles. *)
Theorem runFullScan_awaits_all_scanners
    (h : Orchestrator.Host) (start d0 : nat) (name : string) :
  Orchestrator.getHostname h start = Orchestrator.Fulfilled d0 name ->
  let launch := (start + d0)%nat in
  let run := Orchestrator.runFullScan h start in
  (forall d r, run = Orchestrator.Fulfilled d r ->
     exists d1,
       Orchestrator.collected h launch r d1
       /\ d = (d0 + d1)%nat
       /\ Orchestrator.hostname r = name
       /\ Orchestrator.summary r
          = Aggregator.calculateSummary
              (Orchestrator.network r) (Orchestrator.processes r)
              (Orchestrator.filesystem r) (Orchestrator.dependencies r)
              (Orchestrator.configuration r) (Orchestrator.containers r))
  /\ (Orchestrator.is_fulfilled run <->
      Orchestrator.is_fulfilled (Orchestrator.scanNetwork h launch)
      /\ Orchestrator.is_fulfilled (Orchestrator.scanProcesses h launch)
      /\ Orchestrator.is_fulfilled (Orchestrator.scanFilesystem h launch)
      /\ Orchestrator.is_fulfilled (Orchestrator.scanDependencies h launch)
      /\ Orchestrator.is_fulfilled (Orchestrator.scanConfiguration h launch)
      /\ Orchestrator.is_fulfilled (Orchestrator.scanContainers h launch))
  /\ (Orchestrator.is_rejected run <->
      Orchestrator.is_rejected (Orchestrator.scanNetwork h launch)
      \/ Orchestrator.is_rejected (Orchestrator.scanProcesses h launch)
      \/ Orchestrator.is_rejected (Orchestrator.scanFilesystem h launch)
      \/ Orchestrator.is_rejected (Orchestrator.scanDependencies h launch)
      \/ Orchestrator.is_rejected (Orchestrator.scanConfiguration h launch)
      \/ Orchestrator.is_rejected (Orchestrator.scanContainers h launch))
  /\ (~ Orchestrator.is_rejected run ->
      Orchestrator.is_pending (Orchestrator.scanNetwork h launch)
      \/ Orchestrator.is_pending (Orchestrator.scanProcesses h launch)
      \/ Orchestrator.is_pending (Orchestrator.scanFilesystem h launch)
      \/ Orchestrator.is_pending (Orchestrator.scanDependencies h launch)
      \/ Orchestrator.is_pending (Orchestrator.scanConfiguration h launch)
      \/ Orchestrator.is_pending (Orchestrator.scanContainers h launch) ->
      run = Orchestrator.Pending).
Proof.
  intros Hh launch run. subst run.
  split; [|split; [|split]].
  - intros d r Hrun.
    destruct (runFullScan_fulfilled_inv _ _ _ _ Hrun)
      as (d0' & d1 & Hh' & Hc & -> & _ & Hs).
    rewrite Hh in Hh'. injection Hh' as <- ->.
    exists d1. repeat split; try assumption; reflexivity.
  - exact (runFullScan_is_fulfilled h start d0 name Hh).
  - exact (runFullScan_rejected h start d0 name Hh).
  - intros Hnr Hp.
    apply is_pending_eq.
    apply (runFullScan_pending h start d0 name Hh). fold launch.
    rewrite (runFullScan_rejected h start d0 name Hh) in Hnr. fold launch in Hnr.
    rewrite !all2_pending, !all2_rejected. tauto.
Qed.

Lemma runFullScan_awaits_all_scanners_witness :
  Orchestrator.getHostname Samples.hanging_network_host 0
  = Orchestrator.Fulfilled 2 "build-01"
  /\ Orchestrator.runFullScan Samples.hanging_network_host 0
     = Orchestrator.Pending.
Proof.
  assert (Orchestrator.getHostname Samples.hanging_network_host 0
          = Orchestrator.Fulfilled 2 "build-01") as Hh by reflexivity.
  split; [exact Hh|].
  apply (runFullScan_awaits_all_scanners _ _ _ _ Hh).
  - vm_compute. tauto.
  - left. exact I.
Defined.

(** C9, as the specification states it, fails for the host name: the
    [hostname] command runs before the scanners are launched.  On a host
    renamed during the scan, the report holds the name read at the start,
    not the name the host has when the six results are collected. *)
Lemma runFullScan_hostname_read_at_start :
  exists d r,
    Orchestrator.runFullScan Samples.renamed_host 0 = Orchestrator.Fulfilled d r
    /\ Orchestrator.timestamp r = 702%nat
    /\ Orchestrator.hostname r = "old-name"
    /\ Orchestrator.getHostname Samples.renamed_host 0
       = Orchestrator.Fulfilled 2 "old-name"
    /\ Orchestrator.getHostname Samples.renamed_host (Orchestrator.timestamp r)
       = Orchestrator.Fulfilled 2 "new-name".
Proof. eexists _, _. repeat split; reflexivity. Qed.

(** C9, amended. The time stamp of a report is the instant at which the
    last of the six scanner results is collected, which is also the
    instant at which [runFullScan] returns; the host name is the output
    of the command started when the scan starts, before the scanners are
    launched.  A scan started once an earlier scan has returned bears a
    time stamp that is not earlier than that scan's. *)
Theorem runFullScan_timestamp_at_collection
    (h : Orchestrator.Host) (start d : nat) (r : Orchestrator.ScanReport) :
  Orchestrator.runFullScan h start = Orchestrator.Fulfilled d r ->
  (exists d0 d1,
      Orchestrator.getHostname h start
      = Orchestrator.Fulfilled d0 (Orchestrator.hostname r)
      /\ Orchestrator.collected h (start + d0) r d1
      /\ Orchestrator.timestamp r = (start + d0 + d1)%nat
      /\ Orchestrator.timestamp r = (start + d)%nat)
  /\ (forall h' start' d' r',
        (start + d <= start')%nat ->
        Orchestrator.runFullScan h' start' = Orchestrator.Fulfilled d' r' ->
        (Orchestrator.timestamp r <= Orchestrator.timestamp r')%nat).
Proof.
  intros Hrun.
  destruct (runFullScan_fulfilled_inv _ _ _ _ Hrun)
    as (d0 & d1 & Hh & Hc & -> & Ht & _).
  split.
  - exists d0, d1. repeat split; try assumption. lia.
  - intros h' start' d' r' Hseq Hrun'.
    destruct (runFullScan_fulfilled_inv _ _ _ _ Hrun')
      as (d0' & d1' & _ & _ & _ & Ht' & _).
    lia.
Qed.

Lemma runFullScan_timestamp_at_collection_witness :
  exists r,
    Orchestrator.runFullScan Samples.steady_host 0
    = Orchestrator.Fulfilled 702 r
    /\ Orchestrator.timestamp r = 702%nat
    /\ forall d' r',
         Orchestrator.runFullScan Samples.steady_host 1000
         = Orchestrator.Fulfilled d' r' ->
         (Orchestrator.timestamp r <= Orchestrator.timestamp r')%nat.
Proof.
  eexists. split; [reflexivity|]. split; [reflexivity|].
  intros d' r'.
  apply (proj2 (runFullScan_timestamp_at_collection
                  Samples.steady_host 0 702 _ eq_refl)).
  simpl. lia.
Defined.

(** ** Buffer encodings *)

Section BufferFacts.
Import Buffer.
Local Open Scope nat_scope.

Ltac div_mod_arith := zify; Z.to_euclidean_division_equations; lia.

Lemma byte_of_nat_to_nat b : byte_of_nat (Byte.to_nat b) = b.
Proof.
  unfold byte_of_nat.
  pose proof (Byte.to_nat_bounded b).
  rewrite Nat.mod_small by lia.
  now rewrite Byte.of_to_nat.
Qed.

Lemma byte_of_nat_eq n b : n = Byte.to_nat b -> byte_of_nat n = b.
Proof. intros ->. apply byte_of_nat_to_nat. Qed.

Lemma legal_sextets_base64_char n s :
  n < 64 ->
  legal_sextets (String (base64_char n) s) = n :: legal_sextets s.
Proof.
  intros Hn.
  do 64 (destruct n as [|n]; [reflexivity|]). lia.
Qed.

(** Induction on a list three elements at a time. *)
Lemma list_ind3 {A} (P : list A -> Prop) :
  P [] -> (forall a, P [a]) -> (forall a b, P [a; b]) ->
  (forall a b c l, P l -> P (a :: b :: c :: l)) ->
  forall l, P l.
Proof.
  intros H0 H1 H2 H3 l.
  enough (P l /\ (forall a, P (a :: l)) /\ (forall a b, P (a :: b :: l)))
    by tauto.
  induction l as [|x l (IH0 & IH1 & IH2)]; [now auto|].
  repeat split; auto.
Qed.

(** Decoding the base64 text of a buffer gives the buffer back. *)
Lemma from_base64_toString_base64 bs :
  from_base64 (toString_base64 bs) = bs.
Proof.
  unfold from_base64.
  induction bs as [|a|a b|a b c rest IH] using list_ind3.
  - reflexivity.
  - pose proof (Byte.to_nat_bounded a).
    cbn [toString_base64].
    do 2 (rewrite legal_sextets_base64_char by div_mod_arith).
    cbn [legal_sextets Ascii.eqb Bool.eqb bytes_of_sextets].
    f_equal. apply byte_of_nat_eq. div_mod_arith.
  - pose proof (Byte.to_nat_bounded a). pose proof (Byte.to_nat_bounded b).
    cbn [toString_base64].
    do 3 (rewrite legal_sextets_base64_char by div_mod_arith).
    cbn [legal_sextets Ascii.eqb Bool.eqb bytes_of_sextets].
    f_equal; [|f_equal]; apply byte_of_nat_eq; div_mod_arith.
  - pose proof (Byte.to_nat_bounded a). pose proof (Byte.to_nat_bounded b).
    pose proof (Byte.to_nat_bounded c).
    cbn [toString_base64].
    do 4 (rewrite legal_sextets_base64_char by div_mod_arith).
    cbn [bytes_of_sextets]. rewrite IH.
    f_equal; [|f_equal; [|f_equal]]; apply byte_of_nat_eq; div_mod_arith.
Qed.

End BufferFacts.

(** ** Paths *)

Section PathFacts.
Import Path.
Local Open Scope list_scope.

Lemma append_cons c (s t : string) : String c s +:+ t = String c (s +:+ t).
Proof. reflexivity. Qed.

Lemma append_empty_r (s : string) : s +:+ EmptyString = s.
Proof.
  induction s as [|c s IH]; [reflexivity|]. now rewrite append_cons, IH.
Qed.

Lemma append_assoc (s t u : string) : (s +:+ t) +:+ u = s +:+ (t +:+ u).
Proof.
  induction s as [|c s IH]; [reflexivity|]. now rewrite !append_cons, IH.
Qed.

Lemma append_inv_head (s t u : string) : s +:+ t = s +:+ u -> t = u.
Proof. induction s as [|c s IH]; simpl; [auto|]. intros [= H]. auto. Qed.

Lemma segments_not_nil path : segments path <> [].
Proof.
  destruct path as [|c rest]; simpl; [discriminate|].
  destruct (c =? "/")%char; [discriminate|].
  destruct (segments rest); discriminate.
Qed.

(** The segments of a path followed by a separator and a name. *)
Lemma segments_child a name :
  segments (a +:+ "/" +:+ name) = segments a ++ segments name.
Proof.
  induction a as [|c a IH]; [reflexivity|].
  rewrite append_cons. cbn [segments]. rewrite IH.
  destruct (c =? "/")%char; [reflexivity|].
  pose proof (segments_not_nil a).
  destruct (segments a); [contradiction|reflexivity].
Qed.

Lemma last_char_child a c name :
  last_char (a +:+ String c name) = last_char (String c name).
Proof.
  induction a as [|d a IH]; [reflexivity|].
  rewrite append_cons. cbn [last_char]. rewrite IH.
  destruct a; reflexivity.
Qed.

Lemma concat_snoc sep parts name :
  String.concat sep (parts ++ [name])
  = match parts with
    | [] => EmptyString
    | _ => String.concat sep parts +:+ sep
    end +:+ name.
Proof.
  induction parts as [|p parts IH]; [reflexivity|].
  destruct parts as [|q parts].
  { cbn [String.concat app]. now rewrite append_assoc. }
  change (String.concat sep ((p :: q :: parts) ++ [name]))
    with (p +:+ sep +:+ String.concat sep ((q :: parts) ++ [name])).
  rewrite IH.
  change (String.concat sep (p :: q :: parts))
    with (p +:+ sep +:+ String.concat sep (q :: parts)).
  now rewrite !append_assoc.
Qed.

Lemma plain_not_empty name : plain name -> name <> EmptyString.
Proof. intros [_ H] ->. specialize (H true []). discriminate. Qed.

Lemma plain_no_slash name : plain name -> is_slash (last_char name) = false.
Proof.
  intros [H _]. induction name as [|c name IH]; [reflexivity|].
  simpl in H. destruct (c =? "/")%char eqn:Hc.
  { injection H as H _. discriminate. }
  destruct name as [|d name]; [simpl; now rewrite Hc|].
  apply IH. destruct (segments (String d name)) as [|s l] eqn:Hs;
    [now apply segments_not_nil in Hs|].
  injection H as -> ->. reflexivity.
Qed.

Lemma plain_relative c name : plain (String c name) -> (c =? "/")%char = false.
Proof.
  intros [H _]. simpl in H. destruct (c =? "/")%char; [|reflexivity].
  injection H as H _. discriminate.
Qed.

(** Joining a directory and a plain name appends the name to a text
    that depends on the directory alone. *)
Lemma join_child a :
  exists parent, forall name, plain name -> join a name = parent +:+ name.
Proof.
  destruct a as [|c a].
  - exists EmptyString. intros name Hp.
    pose proof (plain_not_empty _ Hp) as Hne.
    destruct name as [|d name]; [contradiction|].
    unfold join, normalize, normalizeString.
    rewrite (plain_relative _ _ Hp), (plain_no_slash _ Hp).
    destruct Hp as [-> Hk]. simpl fold_left. rewrite Hk. simpl.
    now rewrite append_empty_r.
  - set (kept := fold_left (keep (negb (c =? "/")%char))
                   (segments (String c a)) []).
    exists ((if (c =? "/")%char then "/" else EmptyString)
            +:+ match rev kept with
                | [] => EmptyString
                | _ => String.concat "/" (rev kept) +:+ "/"
                end).
    intros name Hp.
    pose proof (plain_not_empty _ Hp) as Hne.
    pose proof (plain_no_slash _ Hp) as Hslash.
    destruct name as [|d name]; [contradiction|].
    unfold join.
    change (String c a +:+ "/" +:+ String d name)
      with (String c (a +:+ "/" +:+ String d name)).
    unfold normalize, normalizeString.
    change (String c (a +:+ "/" +:+ String d name))
      with (String c a +:+ "/" +:+ String d name).
    rewrite segments_child.
    change ("/" +:+ String d name) with (String "/" (String d name)).
    rewrite (last_char_child (String c a) "/" (String d name)).
    change (last_char (String "/" (String d name)))
      with (last_char (String d name)).
    rewrite Hslash.
    destruct Hp as [-> Hk].
    rewrite fold_left_app. fold kept. simpl fold_left. rewrite Hk.
    simpl rev. rewrite concat_snoc.
    destruct (_ +:+ String d name) as [|e body] eqn:Hbody.
    { destruct (rev kept); [discriminate|].
      destruct (String.concat _ _); discriminate. }
    rewrite <- Hbody, append_empty_r, append_assoc. reflexivity.
Qed.

Lemma join_child_inj a name1 name2 :
  plain name1 -> plain name2 -> join a name1 = join a name2 -> name1 = name2.
Proof.
  intros H1 H2. destruct (join_child a) as [parent Hj].
  rewrite (Hj _ H1), (Hj _ H2). apply append_inv_head.
Qed.

(** A home directory written with a trailing separator, or the root
    directory, gives the paths of the directory written without. *)
Example join_home_trailing_separator :
  join "/home/dev/" ".vigil" = "/home/dev/.vigil"
  /\ join "/" ".vigil" = "/.vigil"
  /\ join "/home/dev/../ops" ".ssh/id_rsa" = "/home/ops/.ssh/id_rsa"
  /\ join EmptyString ".env" = ".env".
Proof. repeat split. Qed.

End PathFacts.

(** ** The key manager *)

Section KeysFacts.
Import Keys.
Context {crypto : Crypto}.
Variable homedir : string.

Local Abbreviation PRIV := (PRIVATE_KEY_PATH homedir).
Local Abbreviation PUB := (PUBLIC_KEY_PATH homedir).
Local Abbreviation DIR := (KEYS_DIR homedir).

Lemma key_paths_distinct : PRIV <> PUB.
Proof.
  unfold PRIVATE_KEY_PATH, PUBLIC_KEY_PATH. intros H.
  apply join_child_inj in H; [discriminate| |];
    (split; [reflexivity|intros b k; reflexivity]).
Qed.

Lemma stored_denied path data m w :
  denied (stored path data m w) = denied w.
Proof. unfold stored. destruct (files w !! path); reflexivity. Qed.

Lemma stored_entropy path data m w :
  entropy (stored path data m w) = entropy w.
Proof. unfold stored. destruct (files w !! path); reflexivity. Qed.

Lemma stored_umask path data m w :
  umask (stored path data m w) = umask w.
Proof. unfold stored. destruct (files w !! path); reflexivity. Qed.

Lemma stored_lookup path data m w :
  files (stored path data m w) !! path
  = Some {| content := data;
            mode := default (N.ldiff m (umask w))
                      (mode <$> files w !! path) |}.
Proof.
  unfold stored. destruct (files w !! path); simpl;
    now rewrite lookup_insert_eq.
Qed.

Lemma stored_lookup_ne path data m w p :
  p <> path -> files (stored path data m w) !! p = files w !! p.
Proof.
  intros H. unfold stored. destruct (files w !! path); simpl;
    now rewrite lookup_insert_ne.
Qed.


(** A file that was there before it is written stays as readable as it
    was. *)
Lemma stored_unreadable_old path data m w f :
  files w !! path = Some f ->
  unreadable (stored path data m w) = unreadable w.
Proof. intros H. unfold stored. now rewrite H. Qed.

Lemma generateKeys_Ok w pair w' :
  generateKeys homedir w = (Ok pair, w') <->
  keys_writable homedir w
  /\ pair = generateKeyPairSync (entropy w)
  /\ w' = written homedir w pair.
Proof.
  unfold keys_writable.
  unfold generateKeys, bindIO, mkdir, drawKeyPair, writeFile, retIO, written.
  destruct (decide (DIR ∈ denied w)); simpl;
    [split; [discriminate|tauto]|].
  destruct (decide (PRIV ∈ denied w)); simpl;
    [split; [discriminate|tauto]|].
  rewrite stored_denied. simpl.
  destruct (decide (PUB ∈ denied w)); simpl;
    [split; [discriminate|tauto]|].
  split.
  - intros [= <- <-]. repeat split; assumption.
  - intros (_ & -> & ->). reflexivity.
Qed.

Lemma written_private w pair :
  content <$> files (written homedir w pair) !! PRIV
  = Some (privateKey pair).
Proof.
  unfold written.
  rewrite stored_lookup_ne by apply key_paths_distinct.
  now rewrite stored_lookup.
Qed.

Lemma written_public w pair :
  content <$> files (written homedir w pair) !! PUB
  = Some (publicKey pair).
Proof. unfold written. now rewrite stored_lookup. Qed.

Lemma readable_dec w p : {readable w p} + {~ readable w p}.
Proof.
  unfold readable. destruct (files w !! p) as [f|].
  - destruct (decide (p ∈ unreadable w)) as [H|H].
    + right. tauto.
    + left. eauto.
  - right. intros [[f H] _]. discriminate.
Qed.

(** Both key files can be read: their contents are returned and nothing
    is written. *)
Lemma ensureKeysExist_present w f g :
  files w !! PRIV = Some f -> PRIV ∉ unreadable w ->
  files w !! PUB = Some g -> PUB ∉ unreadable w ->
  ensureKeysExist homedir w
  = (Ok {| privateKey := content f; publicKey := content g |}, w).
Proof.
  intros Hf Hfr Hg Hgr.
  unfold ensureKeysExist, try_catchIO, bindIO, readFile, retIO.
  rewrite Hf, decide_False by exact Hfr.
  now rewrite Hg, decide_False by exact Hgr.
Qed.

(** A key file cannot be read: every error of [readFile] ends in the
    [catch] branch. *)
Lemma ensureKeysExist_unreadable w :
  ~ readable w PRIV \/ ~ readable w PUB ->
  ensureKeysExist homedir w = generateKeys homedir w.
Proof.
  intros H.
  unfold ensureKeysExist, try_catchIO, bindIO, readFile, retIO.
  destruct (files w !! PRIV) as [f|] eqn:Hf; [|reflexivity].
  destruct (decide (PRIV ∈ unreadable w)) as [|Hfr]; [reflexivity|].
  destruct (files w !! PUB) as [g|] eqn:Hg; [|reflexivity].
  destruct (decide (PUB ∈ unreadable w)) as [|Hgr]; [reflexivity|].
  exfalso. unfold readable in H. rewrite Hf, Hg in H.
  destruct H as [H|H]; apply H; eauto.
Qed.

Lemma ensureKeysExist_absent w :
  files w !! PRIV = None \/ files w !! PUB = None ->
  ensureKeysExist homedir w = generateKeys homedir w.
Proof.
  intros H. apply ensureKeysExist_unreadable. unfold readable.
  destruct H as [H|H]; rewrite H; [left|right]; intros [[f Hf] _];
    discriminate.
Qed.

(** [ensureKeysExist] either reads both files, or is [generateKeys]. *)
Lemma ensureKeysExist_cases w :
  (exists f g, files w !! PRIV = Some f /\ files w !! PUB = Some g
               /\ readable w PRIV /\ readable w PUB
               /\ ensureKeysExist homedir w
                  = (Ok {| privateKey := content f;
                           publicKey := content g |}, w))
  \/ ((~ readable w PRIV \/ ~ readable w PUB)
      /\ ensureKeysExist homedir w = generateKeys homedir w).
Proof.
  destruct (readable_dec w PRIV) as [Hp|Hp];
    [destruct (readable_dec w PUB) as [Hq|Hq]|].
  - left. destruct Hp as [[f Hf] Hfr], Hq as [[g Hg] Hgr].
    exists f, g. unfold readable. rewrite Hf, Hg.
    repeat split; eauto. now apply ensureKeysExist_present.
  - right. split; [now right|]. apply ensureKeysExist_unreadable. now right.
  - right. split; [now left|]. apply ensureKeysExist_unreadable. now left.
Qed.

(** After a call that returns, both files hold the returned pair. *)
Lemma ensureKeysExist_Ok w pair w' :
  ensureKeysExist homedir w = (Ok pair, w') ->
  content <$> files w' !! PRIV = Some (privateKey pair)
  /\ content <$> files w' !! PUB = Some (publicKey pair).
Proof.
  destruct (ensureKeysExist_cases w)
    as [(f & g & Hf & Hg & _ & _ & ->)|[_ ->]].
  - intros [= <- <-]. rewrite Hf, Hg. split; reflexivity.
  - intros (_ & _ & ->)%generateKeys_Ok.
    split; [apply written_private|apply written_public].
Qed.



(** Signing, then verifying, whenever the library accepts under the
    public key the raw signature it made with the private key. *)
Lemma signData_verifySignature data priv pub raw :
  sign (Buffer.from_hex (hashData data)) priv = Ok raw ->
  verify (Buffer.from_hex (hashData data)) pub raw = Ok true ->
  signData data priv = Ok (Buffer.toString_base64 raw)
  /\ verifySignature data (Buffer.toString_base64 raw) pub = Ok true.
Proof.
  intros Hs Hv. unfold signData, verifySignature.
  rewrite Hs, from_base64_toString_base64, Hv. split; reflexivity.
Qed.

End KeysFacts.

(** C4. For a key pair whose halves match, and any report text, the
    signature that [signData] makes with the private key is accepted by
    [verifySignature] under the public key. *)
Theorem sign_verify_round_trip
    (crypto : Keys.Crypto) (data privateKey publicKey : string) :
  Keys.matching privateKey publicKey ->
  exists signature,
    Keys.signData data privateKey = Ok signature
    /\ Keys.verifySignature data signature publicKey = Ok true.
Proof.
  intros Hmatch.
  destruct (Hmatch (Buffer.from_hex (Keys.hashData data)))
    as (raw & Hsign & Hverify).
  exists (Buffer.toString_base64 raw).
  now apply signData_verifySignature.
Qed.

Lemma sign_verify_round_trip_witness :
  Keys.matching (crypto := Samples.toy_crypto) "s##" "p##"
  /\ exists signature,
       Keys.signData (crypto := Samples.toy_crypto) "report" "s##"
       = Ok signature
       /\ Keys.verifySignature (crypto := Samples.toy_crypto)
            "report" signature "p##" = Ok true.
Proof.
  assert (Keys.matching (crypto := Samples.toy_crypto) "s##" "p##") as H.
  { intros message. eexists. split; [reflexivity|].
    simpl. now rewrite bool_decide_eq_true_2. }
  split; [exact H|].
  exact (sign_verify_round_trip Samples.toy_crypto "report" "s##" "p##" H).
Defined.

(** C6. [verifySignature] returns a boolean for every text, signature
    and key: it returns [true] exactly when the library's [verify] accepts
    the decoded signature, and [false] in every other case, which includes
    the library throwing on malformed key material. *)
Theorem verifySignature_never_throws
    (crypto : Keys.Crypto) (data signature publicKey : string) :
  exists b : bool,
    Keys.verifySignature data signature publicKey = Ok b
    /\ (b = true <->
        Keys.verify (Buffer.from_hex (Keys.hashData data)) publicKey
          (Buffer.from_base64 signature) = Ok true)
    /\ (forall e,
          Keys.verify (Buffer.from_hex (Keys.hashData data)) publicKey
            (Buffer.from_base64 signature) = Throw e ->
          b = false).
Proof.
  unfold Keys.verifySignature.
  destruct (Keys.verify _ _ _) as [[|]|e]; simpl.
  - exists true. repeat split; auto; discriminate.
  - exists false. repeat split; auto; discriminate.
  - exists false. repeat split; auto; discriminate.
Qed.

(** C5. The key manager does overwrite an existing private key.  With
    the private key file in place and readable, and the public key file
    missing, the failed read of [public.pem] ends in the [catch] branch
    that the source comments with [Keys don't exist, generate new ones]:
    [ensureKeysExist] generates a new pair and writes it over the
    private key that was there. *)
Lemma ensureKeysExist_overwrites_private_key :
  fst (Keys.readFile (Keys.PRIVATE_KEY_PATH Samples.home)
         Samples.half_keys_world)
  = Ok "s#"
  /\ Keys.content <$> Keys.files Samples.half_keys_world
                        !! Keys.PRIVATE_KEY_PATH Samples.home
     = Some "s#"
  /\ fst (Keys.ensureKeysExist (crypto := Samples.toy_crypto) Samples.home
            Samples.half_keys_world)
     = Ok {| Keys.privateKey := "s###"; Keys.publicKey := "p###" |}
  /\ Keys.content <$> Keys.files
                        (snd (Keys.ensureKeysExist
                                (crypto := Samples.toy_crypto) Samples.home
                                Samples.half_keys_world))
                        !! Keys.PRIVATE_KEY_PATH Samples.home
     = Some "s###".
Proof. vm_compute. repeat split. Qed.




(** ** The dependency scanner *)

Section DependencyScannerFacts.
Import Dependencies DependencyScanner.
Local Open Scope nat_scope.

Lemma length_slice0 {A} n (xs : list A) :
  length (slice0 n xs) = Nat.min n (length xs).
Proof. unfold slice0. apply length_firstn. Qed.

Lemma no_findings_limits b :
  vulnerabilities (no_findings b) = []
  /\ totalVulnerabilities (no_findings b) = 0.
Proof. split; reflexivity. Qed.

(** The parsing block returns exactly when the loop over the entries
    does, with the first twenty elements and the full count. *)
Lemma report_Ok auditData r :
  report auditData = Ok r <->
  exists parsed,
    collect auditData = Ok parsed
    /\ exists b, summary r = b
    /\ r = {| hasPackageJson := true;
              vulnerabilities := slice0 20 parsed;
              totalVulnerabilities := length parsed;
              summary := b |}
    /\ report auditData = Ok r.
Proof.
  split.
  - intros Hr. unfold report in Hr.
    destruct (collect auditData) as [parsed|e] eqn:Hc; [|discriminate].
    exists parsed. split; [reflexivity|].
    exists (summary r). split; [reflexivity|].
    split; [|unfold report; rewrite Hc; exact Hr].
    simpl in Hr.
    repeat match type of Hr with
           | context [bucket ?a ?k] =>
               destruct (bucket a k); simpl in Hr; [|discriminate]
           end.
    injection Hr as <-. reflexivity.
  - intros (parsed & _ & b & _ & _ & Hr). exact Hr.
Qed.

Lemma collect_Ok_report auditData parsed :
  collect auditData = Ok parsed ->
  exists r, report auditData = Ok r
            /\ vulnerabilities r = slice0 20 parsed
            /\ totalVulnerabilities r = length parsed.
Proof.
  intros Hc. unfold report. rewrite Hc. simpl.
  assert (forall key, exists v, bucket auditData key = Ok v) as Hb.
  { intros key. unfold bucket, collect in *.
    destruct auditData; simpl in *; try discriminate; eauto. }
  destruct (Hb "critical") as [c ->], (Hb "high") as [h ->],
    (Hb "moderate") as [m ->], (Hb "low") as [l ->],
    (Hb "info") as [i ->]. simpl.
  eexists. split; [reflexivity|]. split; reflexivity.
Qed.

Variable JSON_parse : string -> Result JSValue.

(** The result is empty, or it is the report on the parsed output. *)
Lemma scanDependencies_cases accessible audit :
  (exists b, scanDependencies JSON_parse accessible audit = no_findings b)
  \/ (exists stdout auditData,
        accessible = true
        /\ parsed_output audit = Some stdout
        /\ JSON_parse stdout = Ok auditData
        /\ report auditData
           = Ok (scanDependencies JSON_parse accessible audit)).
Proof.
  unfold scanDependencies.
  destruct accessible; simpl; [|left; eauto].
  destruct audit as [stdout|stdout]; simpl.
  - destruct (JSON_parse stdout) as [auditData|e] eqn:Hp; simpl;
      [|left; eauto].
    destruct (report auditData) as [r|e] eqn:Hr; simpl; [|left; eauto].
    right. exists stdout, auditData. auto.
  - destruct (negb (String.eqb stdout EmptyString)) eqn:Ht; [|left; eauto].
    destruct (JSON_parse stdout) as [auditData|e] eqn:Hp; simpl;
      [|left; eauto].
    destruct (report auditData) as [r|e] eqn:Hr; simpl; [|left; eauto].
    right. exists stdout, auditData. auto.
Qed.

(** The report on the output that the scanner parses is its result. *)
Lemma scanDependencies_parsed audit stdout auditData r :
  parsed_output audit = Some stdout ->
  JSON_parse stdout = Ok auditData ->
  report auditData = Ok r ->
  scanDependencies JSON_parse true audit = r.
Proof.
  intros Hout Hparse Hrep. unfold scanDependencies. simpl.
  destruct audit as [out|out]; simpl in *.
  - injection Hout as ->. rewrite Hparse. simpl. now rewrite Hrep.
  - destruct (negb (String.eqb out EmptyString)); [|discriminate].
    injection Hout as ->. rewrite Hparse. simpl. now rewrite Hrep.
Qed.

End DependencyScannerFacts.

(** C10. Whatever [npm audit] prints, the [vulnerabilities] list of the
    result has at most twenty entries: it holds the first twenty parsed
    vulnerabilities, while [totalVulnerabilities] is the number of all
    parsed vulnerabilities; and the count does exceed the length of the
    list for an audit report with twenty-one entries. *)
Theorem scanDependencies_lists_at_most_twenty :
  (forall (JSON_parse : string -> Result JSValue) (accessible : bool)
          (audit : DependencyScanner.Audit),
     let r := DependencyScanner.scanDependencies JSON_parse accessible audit in
     (length (Dependencies.vulnerabilities r) <= 20)%nat
     /\ length (Dependencies.vulnerabilities r)
        = Nat.min 20 (Dependencies.totalVulnerabilities r)
     /\ (forall stdout auditData parsed,
           accessible = true ->
           DependencyScanner.parsed_output audit = Some stdout ->
           JSON_parse stdout = Ok auditData ->
           DependencyScanner.collect auditData = Ok parsed ->
           Dependencies.vulnerabilities r = firstn 20 parsed
           /\ Dependencies.totalVulnerabilities r = length parsed))
  /\ (let r := DependencyScanner.scanDependencies Samples.parse_long_audit
                 true (DependencyScanner.Exited "{}") in
      length (Dependencies.vulnerabilities r) = 20%nat
      /\ Dependencies.totalVulnerabilities r = 21%nat).
Proof.
  split; [|split; reflexivity].
  intros JSON_parse accessible audit r. subst r.
  split; [|split].
  - destruct (scanDependencies_cases JSON_parse accessible audit)
      as [[b Hb]|(stdout & auditData & _ & _ & _ & Hrep)].
    + rewrite Hb. simpl. lia.
    + apply report_Ok in Hrep as (parsed & _ & s & _ & -> & _).
      cbn [Dependencies.vulnerabilities]. rewrite length_slice0. lia.
  - destruct (scanDependencies_cases JSON_parse accessible audit)
      as [[b Hb]|(stdout & auditData & _ & _ & _ & Hrep)].
    + rewrite Hb. reflexivity.
    + apply report_Ok in Hrep as (parsed & _ & s & _ & -> & _).
      cbn [Dependencies.vulnerabilities Dependencies.totalVulnerabilities].
      apply length_slice0.
  - intros stdout auditData parsed -> Hout Hparse Hc.
    destruct (collect_Ok_report _ _ Hc) as (r' & Hr' & Hv & Ht).
    rewrite (scanDependencies_parsed JSON_parse audit stdout auditData r'
               Hout Hparse Hr').
    split; assumption.
Qed.

(** ** The canonical serializer *)

Section CanonicalFacts.
Import Canonical.

Lemma canon_metadata_same m1 m2 :
  same_metadata m1 m2 -> canon_metadata m1 = canon_metadata m2.
Proof. unfold same_metadata, canon_metadata. now intros ->. Qed.

Lemma canon_finding_same f1 f2 :
  same_finding f1 f2 -> canon_finding f1 = canon_finding f2.
Proof.
  intros (Hs & Hi & Hv & Hm). unfold canon_finding.
  now rewrite Hs, Hi, Hv, (canon_metadata_same _ _ Hm).
Qed.

Lemma canon_findings_same fs1 fs2 :
  Forall2 same_finding fs1 fs2 ->
  map canon_finding fs1 = map canon_finding fs2.
Proof.
  induction 1 as [|f1 f2 fs1 fs2 Hf _ IH]; [reflexivity|].
  simpl. now rewrite (canon_finding_same _ _ Hf), IH.
Qed.

Lemma canon_result_same r1 r2 :
  same_result r1 r2 -> canon_result r1 = canon_result r2.
Proof.
  intros [Hf Hd]. unfold canon_result.
  now rewrite (canon_findings_same _ _ Hf), Hd.
Qed.

Lemma canon_results_same rs1 rs2 :
  (forall d, same_binding (result_of d rs1) (result_of d rs2)) ->
  canon_results rs1 = canon_results rs2.
Proof.
  intros H. unfold canon_results. f_equal.
  apply flat_map_ext. intros d. specialize (H d).
  destruct (result_of d rs1) as [r1|], (result_of d rs2) as [r2|];
    simpl in H; try contradiction; [|reflexivity].
  now rewrite (canon_result_same _ _ H).
Qed.

Lemma canonical_form_same r1 r2 :
  same_report r1 r2 -> canonical_form r1 = canonical_form r2.
Proof.
  intros (Ht & Hh & Hr & Hs). unfold canonical_form.
  now rewrite Ht, Hh, Hs, (canon_results_same _ _ Hr).
Qed.

Lemma same_finding_refl f : same_finding f f.
Proof. repeat split. Qed.

Lemma same_result_refl r : same_result r r.
Proof.
  split; [|reflexivity].
  induction (findings r); constructor; auto using same_finding_refl.
Qed.

(** Reordering bindings with distinct keys changes no look-up. *)
Lemma result_of_Permutation d rs1 rs2 :
  NoDup (map fst rs1) -> rs1 ≡ₚ rs2 -> result_of d rs1 = result_of d rs2.
Proof.
  intros Hnd Hp. induction Hp as [|[k r] l l' Hp IH
                                  |[k1 r1] [k2 r2] l|l l' l'' Hp1 IH1 Hp2 IH2].
  - reflexivity.
  - simpl in *. apply NoDup_cons in Hnd as [_ Hnd].
    destruct (decide (k = d)); auto.
  - simpl in *. apply NoDup_cons in Hnd as [Hnot _].
    destruct (decide (k2 = d)), (decide (k1 = d)); try reflexivity.
    exfalso. apply Hnot. subst. left.
  - rewrite IH1 by assumption. apply IH2.
    assert (map fst l ≡ₚ map fst l') as Hm by now apply Permutation_map.
    now rewrite <- Hm.
Qed.

Lemma append_empty_l (s : string) : EmptyString +:+ s = s.
Proof. reflexivity. Qed.

(** The text of the canonical form of a report in which every domain is
    bound. *)
Lemma canonical_form_layout r rn rp rf rd rc rk :
  result_of network (results r) = Some rn ->
  result_of processes (results r) = Some rp ->
  result_of filesystem (results r) = Some rf ->
  result_of dependencies (results r) = Some rd ->
  result_of configuration (results r) = Some rc ->
  result_of containers (results r) = Some rk ->
  render (canonical_form r)
  = String.concat EmptyString
      ["{"; quote "timestamp"; ":"; decimal (timestamp r); ",";
       quote "hostname"; ":"; quote (hostname r); ",";
       quote "results"; ":";
       "{"; quote "network"; ":"; render (canon_result rn); ",";
       quote "processes"; ":"; render (canon_result rp); ",";
       quote "filesystem"; ":"; render (canon_result rf); ",";
       quote "dependencies"; ":"; render (canon_result rd); ",";
       quote "configuration"; ":"; render (canon_result rc); ",";
       quote "containers"; ":"; render (canon_result rk); "}"; ",";
       quote "summary"; ":"; render (canon_summary (summary r));
       "}"].
Proof.
  intros Hn Hp Hf Hd Hc Hk.
  unfold canonical_form, canon_results, domain_order.
  cbn [flat_map]. rewrite Hn, Hp, Hf, Hd, Hc, Hk.
  cbn [app render String.concat].
  rewrite ?append_empty_l, ?append_assoc.
  reflexivity.
Qed.

Lemma emitted_domains_complete r :
  complete r -> emitted_domains r = map domain_name domain_order.
Proof.
  intros Hc. unfold emitted_domains, canon_results, domain_order.
  pose proof (Hc network). pose proof (Hc processes).
  pose proof (Hc filesystem). pose proof (Hc dependencies).
  pose proof (Hc configuration). pose proof (Hc containers).
  simpl.
  repeat match goal with
         | |- context [result_of ?d ?rs] =>
             destruct (result_of d rs); [|congruence]
         end.
  reflexivity.
Qed.

End CanonicalFacts.

(** C7. [canonicalize] gives the same bytes for two representations of
    the same logical report, in particular when the bindings of the
    [results] mapping are held in a different order; the keys of that
    mapping are emitted in the order network, processes, filesystem,
    dependencies, configuration, containers; and the bytes themselves are
    the text of a record that lists the time stamp, the host name, the
    results and the summary, in which the results are the record of the
    six domains in that order, each with the text of its own result. *)
Theorem canonicalize_order_stable :
  (forall r1 r2,
     Canonical.same_report r1 r2 ->
     Canonical.canonicalize r1 = Canonical.canonicalize r2)
  /\ (forall r1 r2,
        Canonical.timestamp r1 = Canonical.timestamp r2 ->
        Canonical.hostname r1 = Canonical.hostname r2 ->
        Canonical.summary r1 = Canonical.summary r2 ->
        NoDup (map fst (Canonical.results r1)) ->
        Canonical.results r1 ≡ₚ Canonical.results r2 ->
        Canonical.canonicalize r1 = Canonical.canonicalize r2)
  /\ (forall r,
        Canonical.complete r ->
        Canonical.emitted_domains r
        = ["network"; "processes"; "filesystem"; "dependencies";
           "configuration"; "containers"])
  /\ (forall r rn rp rf rd rc rk,
        Canonical.result_of Canonical.network (Canonical.results r)
        = Some rn ->
        Canonical.result_of Canonical.processes (Canonical.results r)
        = Some rp ->
        Canonical.result_of Canonical.filesystem (Canonical.results r)
        = Some rf ->
        Canonical.result_of Canonical.dependencies (Canonical.results r)
        = Some rd ->
        Canonical.result_of Canonical.configuration (Canonical.results r)
        = Some rc ->
        Canonical.result_of Canonical.containers (Canonical.results r)
        = Some rk ->
        Canonical.canonicalize r
        = list_byte_of_string
            (String.concat EmptyString
               ["{"; Canonical.quote "timestamp"; ":";
                Canonical.decimal (Canonical.timestamp r); ",";
                Canonical.quote "hostname"; ":";
                Canonical.quote (Canonical.hostname r); ",";
                Canonical.quote "results"; ":";
                "{"; Canonical.quote "network"; ":";
                Canonical.render (Canonical.canon_result rn); ",";
                Canonical.quote "processes"; ":";
                Canonical.render (Canonical.canon_result rp); ",";
                Canonical.quote "filesystem"; ":";
                Canonical.render (Canonical.canon_result rf); ",";
                Canonical.quote "dependencies"; ":";
                Canonical.render (Canonical.canon_result rd); ",";
                Canonical.quote "configuration"; ":";
                Canonical.render (Canonical.canon_result rc); ",";
                Canonical.quote "containers"; ":";
                Canonical.render (Canonical.canon_result rk); "}"; ",";
                Canonical.quote "summary"; ":";
                Canonical.render
                  (Canonical.canon_summary (Canonical.summary r));
                "}"])).
Proof.
  assert (forall r1 r2,
            Canonical.same_report r1 r2 ->
            Canonical.canonicalize r1 = Canonical.canonicalize r2) as Hsame.
  { intros r1 r2 H. unfold Canonical.canonicalize.
    now rewrite (canonical_form_same _ _ H). }
  split; [exact Hsame|]. split; [|split].
  - intros r1 r2 Ht Hh Hs Hnd Hp. apply Hsame.
    repeat split; try assumption.
    intros d. rewrite (result_of_Permutation d _ _ Hnd Hp).
    destruct (Canonical.result_of d (Canonical.results r2)); simpl;
      [apply same_result_refl|exact I].
  - intros r Hc. now rewrite emitted_domains_complete.
  - intros r rn rp rf rd rc rk Hn Hp Hf Hd Hc Hk.
    unfold Canonical.canonicalize. f_equal.
    apply canonical_form_layout; assumption.
Qed.

Lemma canonicalize_order_stable_witness :
  Canonical.same_report Samples.report_in_domain_order
    Samples.report_in_completion_order
  /\ Samples.report_in_domain_order <> Samples.report_in_completion_order
  /\ Canonical.canonicalize Samples.report_in_domain_order
     = Canonical.canonicalize Samples.report_in_completion_order.
Proof.
  assert (Canonical.same_report Samples.report_in_domain_order
            Samples.report_in_completion_order) as H.
  { split; [reflexivity|]. split; [reflexivity|]. split; [|reflexivity].
    intros d. destruct d;
      try exact (same_result_refl Samples.empty_result).
    split; [|reflexivity].
    constructor; [|constructor].
    split; [reflexivity|]. split; [reflexivity|]. split; [reflexivity|].
    vm_compute. reflexivity. }
  split; [exact H|]. split; [discriminate|].
  exact (proj1 canonicalize_order_stable _ _ H).
Defined.

Lemma scanDependencies_lists_at_most_twenty_witness :
  DependencyScanner.parsed_output (DependencyScanner.Failed "{}") = Some "{}"
  /\ Samples.parse_long_audit "{}" = Ok Samples.long_audit
  /\ (exists parsed,
        DependencyScanner.collect Samples.long_audit = Ok parsed
        /\ Dependencies.vulnerabilities
             (DependencyScanner.scanDependencies Samples.parse_long_audit true
                (DependencyScanner.Failed "{}"))
           = firstn 20 parsed
        /\ Dependencies.totalVulnerabilities
             (DependencyScanner.scanDependencies Samples.parse_long_audit true
                (DependencyScanner.Failed "{}"))
           = length parsed
        /\ length parsed = 21%nat).
Proof.
  assert (DependencyScanner.parsed_output (DependencyScanner.Failed "{}")
          = Some "{}") as Hout by reflexivity.
  assert (Samples.parse_long_audit "{}" = Ok Samples.long_audit) as Hparse
    by reflexivity.
  split; [exact Hout|]. split; [exact Hparse|].
  destruct (DependencyScanner.collect Samples.long_audit) as [parsed|e] eqn:Hc;
    [|vm_compute in Hc; discriminate].
  exists parsed. split; [reflexivity|].
  destruct (proj2 (proj2 (proj1 scanDependencies_lists_at_most_twenty
                            Samples.parse_long_audit true
                            (DependencyScanner.Failed "{}")))
              "{}" Samples.long_audit parsed eq_refl Hout Hparse Hc)
    as [Hv Ht].
  split; [exact Hv|]. split; [exact Ht|].
  vm_compute in Hc. injection Hc as <-. reflexivity.
Defined.

(** ** Further properties of the key manager *)

Section KeysMoreFacts.
Import Keys Buffer.
Context {crypto : Crypto}.
Variable homedir : string.

Local Abbreviation PRIV := (PRIVATE_KEY_PATH homedir).
Local Abbreviation PUB := (PUBLIC_KEY_PATH homedir).
Local Abbreviation DIR := (KEYS_DIR homedir).

Lemma unhex_hex_digit n :
  (n < 16)%nat -> unhex (nth_char hex_digits n) = Some n.
Proof. intros H. do 16 (destruct n as [|n]; [reflexivity|]). lia. Qed.

(** Decoding the hexadecimal text of a buffer gives the buffer back. *)
Lemma from_hex_toString_hex bs : from_hex (toString_hex bs) = bs.
Proof.
  induction bs as [|b bs IH]; [reflexivity|].
  pose proof (Byte.to_nat_bounded b).
  cbn [toString_hex from_hex].
  rewrite !unhex_hex_digit
    by (zify; Z.to_euclidean_division_equations; lia).
  rewrite IH. f_equal. apply byte_of_nat_eq.
  zify; Z.to_euclidean_division_equations; lia.
Qed.

Lemma digest_recovered data : from_hex (hashData data) = sha256 data.
Proof. apply from_hex_toString_hex. Qed.

(** The four ways in which [generateKeys] ends. *)
Lemma generateKeys_cases w :
  let pair := generateKeyPairSync (entropy w) in
  ((DIR ∈ denied w) /\ generateKeys homedir w = (Throw "EACCES", w))
  \/ ((DIR ∉ denied w) /\ (PRIV ∈ denied w)
      /\ generateKeys homedir w = (Throw "EACCES", drawn w))
  \/ ((DIR ∉ denied w) /\ (PRIV ∉ denied w) /\ (PUB ∈ denied w)
      /\ generateKeys homedir w
         = (Throw "EACCES",
            stored PRIV (privateKey pair) mode_0o600 (drawn w)))
  \/ (keys_writable homedir w
      /\ generateKeys homedir w = (Ok pair, written homedir w pair)).
Proof.
  intros pair.
  destruct (decide (DIR ∈ denied w)) as [Hd|Hd].
  { left. split; [exact Hd|].
    unfold generateKeys, bindIO, mkdir. now rewrite decide_True. }
  right.
  destruct (decide (PRIV ∈ denied w)) as [Hp|Hp].
  { left. split; [exact Hd|]. split; [exact Hp|].
    unfold generateKeys, bindIO, mkdir, drawKeyPair, writeFile.
    rewrite decide_False by exact Hd. simpl.
    now rewrite decide_True. }
  right.
  destruct (decide (PUB ∈ denied w)) as [Hq|Hq].
  { left. split; [exact Hd|]. split; [exact Hp|]. split; [exact Hq|].
    unfold generateKeys, bindIO, mkdir, drawKeyPair, writeFile.
    rewrite decide_False by exact Hd. simpl.
    rewrite decide_False by exact Hp. rewrite stored_denied. simpl.
    now rewrite decide_True by exact Hq. }
  right. split; [repeat split; assumption|].
  apply generateKeys_Ok. repeat split; assumption.
Qed.


End KeysMoreFacts.

(** X1. The message that [signData] signs and [verifySignature]
    verifies is the SHA-256 digest itself, recovered from its hexadecimal
    text: [signData] returns the base64 text of the library's signature
    of the digest and passes on the library's exception, and
    [verifySignature] accepts exactly when the library accepts the
    decoded signature for the digest. *)
Theorem signData_signs_sha256_digest
    (crypto : Keys.Crypto) (data privateKey signature publicKey : string) :
  (forall raw,
     Keys.sign (Keys.sha256 data) privateKey = Ok raw ->
     Keys.signData data privateKey = Ok (Buffer.toString_base64 raw))
  /\ (forall e,
        Keys.sign (Keys.sha256 data) privateKey = Throw e ->
        Keys.signData data privateKey = Throw e)
  /\ (Keys.verifySignature data signature publicKey = Ok true <->
      Keys.verify (Keys.sha256 data) publicKey
        (Buffer.from_base64 signature) = Ok true).
Proof.
  unfold Keys.signData, Keys.verifySignature.
  rewrite digest_recovered.
  split; [|split].
  - intros raw ->. reflexivity.
  - intros e ->. reflexivity.
  - destruct (Keys.verify _ _ _) as [[|]|e]; simpl; split;
      congruence || discriminate.
Qed.



(** X3. [ensureKeysExist] throws exactly when a key file cannot be
    read, because it is missing or because the read is refused, and the
    [mkdir] or one of the two [writeFile] calls of [generateKeys] is
    refused. *)
Theorem ensureKeysExist_throws_iff
    (crypto : Keys.Crypto) (homedir : string) (w : Keys.World) :
  (exists e w', Keys.ensureKeysExist homedir w = (Throw e, w'))
  <-> (~ Keys.readable w (Keys.PRIVATE_KEY_PATH homedir)
       \/ ~ Keys.readable w (Keys.PUBLIC_KEY_PATH homedir))
      /\ ~ Keys.keys_writable homedir w.
Proof.
  destruct (ensureKeysExist_cases homedir w)
    as [(f & g & Hf & Hg & Hp & Hq & Hread)|[Habs Hgen]].
  { rewrite Hread. split.
    - intros (e & w' & H). discriminate.
    - intros [[H|H] _]; contradiction. }
  rewrite Hgen. split.
  - intros (e & w' & H). split; [exact Habs|].
    intros Hw.
    assert (Keys.generateKeys homedir w
            = (Ok (Keys.generateKeyPairSync (Keys.entropy w)),
               Keys.written homedir w
                 (Keys.generateKeyPairSync (Keys.entropy w)))) as Hok
      by (apply generateKeys_Ok; auto).
    congruence.
  - intros [_ Hnw].
    destruct (generateKeys_cases homedir w)
      as [[_ H]|[(_ & _ & H)|[(_ & _ & _ & H)|[Hw _]]]];
      try (rewrite H; eauto).
    contradiction.
Qed.

(** X4. Key generation is not atomic: when the private key can be
    written and the public key cannot, [ensureKeysExist] throws after it
    has put the new private key in [private.pem], and [public.pem] is as
    it was. *)
Theorem ensureKeysExist_partial_write
    (crypto : Keys.Crypto) (homedir : string) (w : Keys.World) :
  Keys.files w !! Keys.PRIVATE_KEY_PATH homedir = None
  \/ Keys.files w !! Keys.PUBLIC_KEY_PATH homedir = None ->
  Keys.KEYS_DIR homedir ∉ Keys.denied w ->
  Keys.PRIVATE_KEY_PATH homedir ∉ Keys.denied w ->
  Keys.PUBLIC_KEY_PATH homedir ∈ Keys.denied w ->
  exists w',
    Keys.ensureKeysExist homedir w = (Throw "EACCES", w')
    /\ Keys.content <$> Keys.files w' !! Keys.PRIVATE_KEY_PATH homedir
       = Some (Keys.privateKey (Keys.generateKeyPairSync (Keys.entropy w)))
    /\ Keys.files w' !! Keys.PUBLIC_KEY_PATH homedir
       = Keys.files w !! Keys.PUBLIC_KEY_PATH homedir.
Proof.
  intros Habs Hd Hp Hq.
  rewrite ensureKeysExist_absent by exact Habs.
  destruct (generateKeys_cases homedir w)
    as [[H _]|[(_ & H & _)|[(_ & _ & _ & H)|[(_ & _ & H) _]]]];
    try contradiction.
  eexists. split; [exact H|].
  split.
  - now rewrite stored_lookup.
  - rewrite stored_lookup_ne; [reflexivity|].
    apply not_eq_sym, key_paths_distinct.
Qed.

Lemma ensureKeysExist_partial_write_witness :
  exists w',
    Keys.ensureKeysExist (crypto := Samples.toy_crypto) Samples.home
      Fixtures.locked_public_world = (Throw "EACCES", w')
    /\ Keys.content <$> Keys.files Fixtures.locked_public_world
                          !! Keys.PRIVATE_KEY_PATH Samples.home
       = Some "s#"
    /\ Keys.content <$> Keys.files w' !! Keys.PRIVATE_KEY_PATH Samples.home
       = Some "s#####".
Proof.
  destruct (ensureKeysExist_partial_write Samples.toy_crypto Samples.home
              Fixtures.locked_public_world)
    as (w' & Hrun & Hpriv & _).
  - right. vm_compute. reflexivity.
  - vm_compute. discriminate.
  - vm_compute. discriminate.
  - vm_compute. reflexivity.
  - exists w'. split; [exact Hrun|]. split; [vm_compute; reflexivity|].
    exact Hpriv.
Defined.

(** X5. After a generation that succeeds, a key file that did not exist
    has the requested mode, 0600 for the private and 0644 for the public
    key, less the bits of the process's umask; a key file that existed
    keeps the mode it had. *)
Theorem generated_key_file_modes
    (crypto : Keys.Crypto) (homedir : string) (w : Keys.World) :
  ~ Keys.readable w (Keys.PRIVATE_KEY_PATH homedir)
  \/ ~ Keys.readable w (Keys.PUBLIC_KEY_PATH homedir) ->
  Keys.keys_writable homedir w ->
  exists pair w',
    Keys.ensureKeysExist homedir w = (Ok pair, w')
    /\ Keys.mode <$> Keys.files w' !! Keys.PRIVATE_KEY_PATH homedir
       = Some (default (N.ldiff 384 (Keys.umask w))
                 (Keys.mode <$> Keys.files w !! Keys.PRIVATE_KEY_PATH homedir))
    /\ Keys.mode <$> Keys.files w' !! Keys.PUBLIC_KEY_PATH homedir
       = Some (default (N.ldiff 420 (Keys.umask w))
                 (Keys.mode <$> Keys.files w !! Keys.PUBLIC_KEY_PATH homedir)).
Proof.
  intros Habs Hw.
  rewrite ensureKeysExist_unreadable by exact Habs.
  eexists _, _. split; [apply generateKeys_Ok; auto|].
  unfold Keys.written. split.
  - rewrite stored_lookup_ne by apply key_paths_distinct.
    now rewrite stored_lookup.
  - rewrite stored_lookup, stored_umask.
    now rewrite stored_lookup_ne
      by (apply not_eq_sym, key_paths_distinct).
Qed.

Lemma generated_key_file_modes_witness :
  exists pair w',
    Keys.ensureKeysExist (crypto := Samples.toy_crypto) Samples.home
      Fixtures.private_umask_world = (Ok pair, w')
    /\ Keys.mode <$> Keys.files w' !! Keys.PRIVATE_KEY_PATH Samples.home
       = Some 420%N
    /\ Keys.mode <$> Keys.files w' !! Keys.PUBLIC_KEY_PATH Samples.home
       = Some 384%N.
Proof.
  apply (generated_key_file_modes Samples.toy_crypto Samples.home
           Fixtures.private_umask_world).
  - right. intros [[f Hf] _]. vm_compute in Hf. discriminate.
  - repeat split; apply not_elem_of_empty.
Defined.

(** X6. [getPublicKeyPath] returns the path of [public.pem] exactly when
    [ensureKeysExist] returns, the file at that path then holds the public
    key of the pair, and it throws what [ensureKeysExist] throws. *)
Theorem getPublicKeyPath_after_ensure
    (crypto : Keys.Crypto) (homedir : string) (w : Keys.World) :
  (forall pair w',
     Keys.ensureKeysExist homedir w = (Ok pair, w') ->
     Keys.getPublicKeyPath homedir w = (Ok (Keys.PUBLIC_KEY_PATH homedir), w')
     /\ Keys.content <$> Keys.files w' !! Keys.PUBLIC_KEY_PATH homedir
        = Some (Keys.publicKey pair))
  /\ (forall e w',
        Keys.ensureKeysExist homedir w = (Throw e, w') ->
        Keys.getPublicKeyPath homedir w = (Throw e, w'))
  /\ (forall p w',
        Keys.getPublicKeyPath homedir w = (Ok p, w') ->
        p = Keys.PUBLIC_KEY_PATH homedir /\ is_Some (Keys.files w' !! p)).
Proof.
  split; [|split].
  - intros pair w' H. split.
    + unfold Keys.getPublicKeyPath, Keys.bindIO. now rewrite H.
    + now apply ensureKeysExist_Ok in H.
  - intros e w' H. unfold Keys.getPublicKeyPath, Keys.bindIO. now rewrite H.
  - intros p w'. unfold Keys.getPublicKeyPath, Keys.bindIO, Keys.retIO.
    destruct (Keys.ensureKeysExist homedir w) as [[pair|e] v] eqn:H;
      [|discriminate].
    intros [= <- <-]. split; [reflexivity|].
    apply ensureKeysExist_Ok in H as [_ H].
    destruct (Keys.files v !! Keys.PUBLIC_KEY_PATH homedir); [eauto|discriminate].
Qed.

(** The path that [getPublicKeyPath] returns for a home directory
    written with a trailing separator, and for the root directory. *)
Example getPublicKeyPath_normalized :
  fst (Keys.getPublicKeyPath (crypto := Samples.toy_crypto) "/home/dev/"
         Samples.fresh_world)
  = Ok "/home/dev/.vigil/keys/public.pem"
  /\ fst (Keys.getPublicKeyPath (crypto := Samples.toy_crypto) "/"
            Samples.fresh_world)
     = Ok "/.vigil/keys/public.pem".
Proof. vm_compute. split; reflexivity. Qed.

(** ** Further properties of the orchestrator and the aggregator *)

Section OrchestratorMoreFacts.
Import Orchestrator Notions.

Lemma trim_start_all_white_space l s :
  all_white_space l = true -> trim_start (l +:+ s) = trim_start s.
Proof.
  induction l as [|c l IH]; simpl; [reflexivity|].
  intros [Hc Hl]%andb_prop. rewrite Hc. auto.
Qed.

Lemma trim_start_clean c s :
  is_white_space c = false -> trim_start (String c s) = String c s.
Proof. intros H. simpl. now rewrite H. Qed.

Lemma trim_end_all_white_space t :
  all_white_space t = true -> trim_end t = EmptyString.
Proof.
  induction t as [|c t IH]; simpl; [reflexivity|].
  intros [Hc Ht]%andb_prop. rewrite (IH Ht). now rewrite Hc.
Qed.

Lemma trim_end_no_white_space s t :
  no_white_space s = true -> all_white_space t = true ->
  trim_end (s +:+ t) = s.
Proof.
  intros Hs Ht. induction s as [|c s IH]; simpl.
  - now apply trim_end_all_white_space.
  - simpl in Hs. apply andb_prop in Hs as [Hc Hs].
    rewrite (IH Hs). apply negb_true_iff in Hc.
    destruct s; [now rewrite Hc|reflexivity].
Qed.

(** Trimming removes the white space around a word. *)
Lemma trim_padded l s t :
  all_white_space l = true -> no_white_space s = true ->
  all_white_space t = true ->
  trim (l +:+ s +:+ t) = s.
Proof.
  intros Hl Hs Ht. unfold trim. rewrite trim_start_all_white_space by exact Hl.
  destruct s as [|c s].
  - simpl. rewrite trim_end_all_white_space; [reflexivity|].
    clear -Ht. induction t as [|c t IH]; [reflexivity|].
    simpl in *. apply andb_prop in Ht as [Hc Ht]. rewrite Hc. auto.
  - pose proof Hs as Hs'. simpl in Hs'. apply andb_prop in Hs' as [Hc _].
    apply negb_true_iff in Hc.
    change (String c s +:+ t) with (String c (s +:+ t)).
    rewrite trim_start_clean by exact Hc.
    change (String c (s +:+ t)) with (String c s +:+ t).
    now apply trim_end_no_white_space.
Qed.

End OrchestratorMoreFacts.

(** X7. A [hostname] command that fails does not fail the scan: the
    scan then returns exactly when the six scanners return, and every
    report it returns carries the host name ['unknown']. *)
Theorem runFullScan_hostname_unknown
    (h : Orchestrator.Host) (start d : nat) (e : string) :
  Orchestrator.exec_hostname h start = Orchestrator.Rejected d e ->
  (Orchestrator.is_fulfilled (Orchestrator.runFullScan h start) <->
   Orchestrator.is_fulfilled (Orchestrator.scanNetwork h (start + d))
   /\ Orchestrator.is_fulfilled (Orchestrator.scanProcesses h (start + d))
   /\ Orchestrator.is_fulfilled (Orchestrator.scanFilesystem h (start + d))
   /\ Orchestrator.is_fulfilled (Orchestrator.scanDependencies h (start + d))
   /\ Orchestrator.is_fulfilled (Orchestrator.scanConfiguration h (start + d))
   /\ Orchestrator.is_fulfilled (Orchestrator.scanContainers h (start + d)))
  /\ (forall d' r,
        Orchestrator.runFullScan h start = Orchestrator.Fulfilled d' r ->
        Orchestrator.hostname r = "unknown").
Proof.
  intros Hexec.
  assert (Orchestrator.getHostname h start
          = Orchestrator.Fulfilled d "unknown") as Hh
    by (unfold Orchestrator.getHostname; now rewrite Hexec).
  split.
  - exact (runFullScan_is_fulfilled h start d "unknown" Hh).
  - intros d' r Hrun.
    destruct (runFullScan_fulfilled_inv _ _ _ _ Hrun)
      as (d0 & d1 & Hh' & _).
    rewrite Hh in Hh'. now injection Hh' as _ <-.
Qed.

Lemma runFullScan_hostname_unknown_witness :
  Orchestrator.exec_hostname Fixtures.nameless_host 0
  = Orchestrator.Rejected 1 "spawn hostname ENOENT"
  /\ exists r,
       Orchestrator.runFullScan Fixtures.nameless_host 0
       = Orchestrator.Fulfilled 701 r
       /\ Orchestrator.hostname r = "unknown".
Proof.
  assert (Orchestrator.exec_hostname Fixtures.nameless_host 0
          = Orchestrator.Rejected 1 "spawn hostname ENOENT") as H
    by reflexivity.
  split; [exact H|].
  eexists. split; [reflexivity|].
  apply (proj2 (runFullScan_hostname_unknown _ _ _ _ H) 701%nat).
  reflexivity.
Defined.

(** X8. When the [hostname] command prints a name of ASCII characters
    without white space, surrounded by any ASCII white space (such as the
    final line feed), the host name of the report is that name alone. *)
Theorem getHostname_strips_white_space
    (h : Orchestrator.Host) (start d : nat) (before name after : string) :
  Orchestrator.exec_hostname h start
  = Orchestrator.Fulfilled d (before +:+ name +:+ after) ->
  Notions.all_white_space before = true ->
  Notions.ascii_text name = true ->
  Notions.no_white_space name = true ->
  Notions.all_white_space after = true ->
  Orchestrator.getHostname h start = Orchestrator.Fulfilled d name
  /\ (forall d' r,
        Orchestrator.runFullScan h start = Orchestrator.Fulfilled d' r ->
        Orchestrator.hostname r = name).
Proof.
  intros Hexec Hb _ Hn Ha.
  assert (Orchestrator.getHostname h start = Orchestrator.Fulfilled d name)
    as Hh.
  { unfold Orchestrator.getHostname. rewrite Hexec.
    now rewrite trim_padded. }
  split; [exact Hh|].
  intros d' r Hrun.
  destruct (runFullScan_fulfilled_inv _ _ _ _ Hrun) as (d0 & d1 & Hh' & _).
  rewrite Hh in Hh'. now injection Hh' as _ <-.
Qed.

Lemma getHostname_strips_white_space_witness :
  Orchestrator.getHostname Samples.steady_host 7
  = Orchestrator.Fulfilled 2 "build-01".
Proof.
  apply (proj1 (getHostname_strips_white_space Samples.steady_host 7 2
                  EmptyString "build-01" (String (ascii_of_nat 10) EmptyString)
                  eq_refl eq_refl eq_refl eq_refl eq_refl)).
Defined.

Section AggregatorMoreFacts.
Import Aggregator Reference Notions.

Lemma ladder_CLEAN_iff c h m l :
  0 <= c -> 0 <= h -> 0 <= m -> 0 <= l ->
  ladder c h m l = CLEAN <-> c + h + m + l = 0.
Proof.
  intros Hc Hh Hm Hl. unfold ladder.
  repeat case_decide; split; intros Hgoal; try discriminate; try lia;
    reflexivity.
Qed.

Lemma ladder_at_least_HIGH c h m l :
  0 < h -> ladder c h m l = CRITICAL \/ ladder c h m l = HIGH.
Proof. intros H. unfold ladder. repeat case_decide; auto; lia. Qed.

Lemma firewall_penalty_nonneg n : 0 <= firewall_penalty n.
Proof. unfold firewall_penalty. destruct (Network.enabled _); lia. Qed.

End AggregatorMoreFacts.

(** X9. When the dependency buckets are not negative, no counter of the
    summary is negative, and the risk level is [CLEAN] exactly when
    [totalIssues] is zero. *)
Theorem calculateSummary_clean_iff_nothing_counted
    (network : Network.NetworkScanResult)
    (processes : Process.ProcessScanResult)
    (filesystem : Filesystem.FilesystemScanResult)
    (dependencies : Dependencies.DependencyScanResult Z)
    (configuration : Configuration.ConfigScanResult)
    (containers : Containers.ContainerScanResult) :
  Notions.buckets_nonnegative dependencies ->
  let s := Aggregator.calculateSummary network processes filesystem
             dependencies configuration containers in
  0 <= Aggregator.criticalIssues s
  /\ 0 <= Aggregator.highIssues s
  /\ 0 <= Aggregator.mediumIssues s
  /\ 0 <= Aggregator.lowIssues s
  /\ (Aggregator.riskLevel s = Aggregator.CLEAN <->
      Aggregator.totalIssues s = 0).
Proof.
  intros (Hc & Hh & Hm & Hl) s. subst s.
  rewrite calculateSummary_counted. unfold Reference.summarize.
  cbn [Aggregator.criticalIssues Aggregator.highIssues
       Aggregator.mediumIssues Aggregator.lowIssues Aggregator.riskLevel
       Aggregator.totalIssues].
  set (fs := Reference.counted_findings _ _ _ _ _).
  pose proof (occurrences_nonneg critical fs).
  pose proof (occurrences_nonneg high fs).
  pose proof (occurrences_nonneg medium fs).
  pose proof (occurrences_nonneg low fs).
  pose proof (firewall_penalty_nonneg network).
  assert (0 <= Reference.env_secret_penalty processes)
    by (unfold Reference.env_secret_penalty; lia).
  assert (0 <= Reference.suid_penalty filesystem)
    by (unfold Reference.suid_penalty; lia).
  repeat split; try lia; apply ladder_CLEAN_iff; lia.
Qed.

Lemma calculateSummary_clean_iff_nothing_counted_witness :
  Notions.buckets_nonnegative Samples.no_dependencies
  /\ Aggregator.riskLevel
       (Aggregator.calculateSummary Samples.quiet_network Samples.no_processes
          Samples.clean_filesystem Samples.no_dependencies
          Samples.clean_configuration Samples.no_containers)
     = Aggregator.CLEAN.
Proof.
  assert (Notions.buckets_nonnegative Samples.no_dependencies) as H
    by (repeat split; simpl; lia).
  split; [exact H|].
  apply (calculateSummary_clean_iff_nothing_counted Samples.quiet_network
           Samples.no_processes Samples.clean_filesystem
           Samples.no_dependencies Samples.clean_configuration
           Samples.no_containers H).
  reflexivity.
Defined.

Lemma summary_high_when_unprotected
    (network : Network.NetworkScanResult)
    (processes : Process.ProcessScanResult)
    (filesystem : Filesystem.FilesystemScanResult)
    (dependencies : Dependencies.DependencyScanResult Z)
    (configuration : Configuration.ConfigScanResult)
    (containers : Containers.ContainerScanResult) :
  Notions.buckets_nonnegative dependencies ->
  Network.enabled (Network.firewallStatus network) = false
  \/ Process.secretsInEnv processes <> [] ->
  let s := Aggregator.calculateSummary network processes filesystem
             dependencies configuration containers in
  0 < Aggregator.highIssues s
  /\ (Aggregator.riskLevel s = Aggregator.CRITICAL
      \/ Aggregator.riskLevel s = Aggregator.HIGH).
Proof.
  intros (Hc & Hh & Hm & Hl) Hcause s. subst s.
  rewrite calculateSummary_counted. unfold Reference.summarize.
  cbn [Aggregator.highIssues Aggregator.riskLevel].
  set (fs := Reference.counted_findings _ _ _ _ _).
  pose proof (occurrences_nonneg high fs).
  pose proof (firewall_penalty_nonneg network).
  assert (0 <= Reference.env_secret_penalty processes)
    by (unfold Reference.env_secret_penalty; lia).
  assert (0 < Reference.firewall_penalty network
              + Reference.env_secret_penalty processes) as Hpos.
  { destruct Hcause as [Hoff|Hsec].
    - unfold Reference.firewall_penalty. rewrite Hoff. lia.
    - unfold Reference.env_secret_penalty in *.
      destruct (Process.secretsInEnv processes); [congruence|].
      simpl length. lia. }
  split; [lia|]. apply ladder_at_least_HIGH. lia.
Qed.

(** X10. When the dependency buckets are not negative, a disabled
    firewall or one secret in the environment is enough for the risk
    level to be [HIGH] or [CRITICAL]. *)
Theorem calculateSummary_at_least_high
    (network : Network.NetworkScanResult)
    (processes : Process.ProcessScanResult)
    (filesystem : Filesystem.FilesystemScanResult)
    (dependencies : Dependencies.DependencyScanResult Z)
    (configuration : Configuration.ConfigScanResult)
    (containers : Containers.ContainerScanResult) :
  Notions.buckets_nonnegative dependencies ->
  Network.enabled (Network.firewallStatus network) = false
  \/ Process.secretsInEnv processes <> [] ->
  let s := Aggregator.calculateSummary network processes filesystem
             dependencies configuration containers in
  0 < Aggregator.highIssues s
  /\ (Aggregator.riskLevel s = Aggregator.CRITICAL
      \/ Aggregator.riskLevel s = Aggregator.HIGH).
Proof.
  intros Hb Hcause.
  exact (summary_high_when_unprotected network processes filesystem
           dependencies configuration containers Hb Hcause).
Qed.

Lemma calculateSummary_at_least_high_witness :
  Notions.buckets_nonnegative Samples.no_dependencies
  /\ Network.enabled (Network.firewallStatus Samples.telnet_network) = false
  /\ 0 < Aggregator.highIssues
           (Aggregator.calculateSummary Samples.telnet_network
              Samples.no_processes Samples.clean_filesystem
              Samples.no_dependencies Samples.clean_configuration
              Samples.no_containers).
Proof.
  assert (Notions.buckets_nonnegative Samples.no_dependencies) as H
    by (repeat split; simpl; lia).
  split; [exact H|]. split; [reflexivity|].
  apply (calculateSummary_at_least_high Samples.telnet_network
           Samples.no_processes Samples.clean_filesystem
           Samples.no_dependencies Samples.clean_configuration
           Samples.no_containers H).
  left. reflexivity.
Defined.

(** ** Further properties of the dependency scanner *)

Section DependencyScannerMoreFacts.
Import Dependencies DependencyScanner Notions.
Local Open Scope nat_scope.

Lemma get_not_nullish v key :
  nullish v = false -> get v key = Ok (get_opt v key).
Proof. destruct v; simpl; intros; congruence. Qed.

Lemma get_nullish v key : nullish v = true -> exists e, get v key = Throw e.
Proof. destruct v; simpl; intros; try discriminate; eauto. Qed.

Lemma vulnerability_of_Ok k v :
  nullish v = false ->
  exists vuln, vulnerability_of (k, v) = Ok vuln /\ name vuln = k.
Proof.
  intros H. unfold vulnerability_of.
  rewrite !(get_not_nullish v) by exact H. simpl.
  eexists. split; reflexivity.
Qed.

Lemma vulnerability_of_Throw k v :
  nullish v = true -> exists e, vulnerability_of (k, v) = Throw e.
Proof.
  intros H. unfold vulnerability_of.
  destruct (get_nullish v "severity" H) as [e ->]. simpl. eauto.
Qed.

Lemma push_all_Ok es acc :
  Forall (fun e => nullish (snd e) = false) es ->
  exists vs, push_all es acc = Ok (acc ++ vs)%list
             /\ map name vs = map fst es.
Proof.
  intros H. revert acc.
  induction H as [|[k v] es Hv _ IH]; intros acc; cbn [push_all].
  - exists []. split; [now rewrite app_nil_r|reflexivity].
  - destruct (vulnerability_of_Ok k v Hv) as (vuln & -> & Hn).
    cbn [mbind Result_bind bindR].
    destruct (IH (acc ++ [vuln])%list) as (vs & -> & Hvs).
    exists (vuln :: vs). split.
    + now rewrite <- app_assoc.
    + simpl. now rewrite Hn, Hvs.
Qed.

Lemma push_all_Throw es acc :
  Exists (fun e => nullish (snd e) = true) es ->
  exists e, push_all es acc = Throw e.
Proof.
  intros H. revert acc.
  induction H as [[k v] es Hv|[k v] es _ IH]; intros acc; cbn [push_all].
  - destruct (vulnerability_of_Throw k v Hv) as [e ->].
    cbn [mbind Result_bind bindR]. eauto.
  - destruct (vulnerability_of (k, v)) as [vuln|e];
      cbn [mbind Result_bind bindR]; eauto.
Qed.

Lemma indexed_characters_not_nullish from s :
  Forall (fun e => nullish (snd e) = false) (indexed from (characters s)).
Proof.
  revert from. induction s as [|c s IH]; intros from; simpl; constructor; auto.
Qed.

(** A value that has entries counts as true. *)
Lemma entries_truthy v e : In e (entries v) -> truthy v = true.
Proof.
  destruct v as [| | |q|s|l|props]; simpl; try tauto.
  destruct s; simpl; tauto.
Qed.

Variable JSON_parse : string -> Result JSValue.

(** A report that throws leaves the empty result. *)
Lemma scanDependencies_report_Throw audit stdout auditData e :
  parsed_output audit = Some stdout ->
  JSON_parse stdout = Ok auditData ->
  report auditData = Throw e ->
  scanDependencies JSON_parse true audit = no_findings true.
Proof.
  intros Hout Hparse Hrep. unfold scanDependencies. simpl.
  destruct audit as [out|out]; simpl in *.
  - injection Hout as ->. rewrite Hparse. simpl. now rewrite Hrep.
  - destruct (negb (String.eqb out EmptyString)); [|discriminate].
    injection Hout as ->. rewrite Hparse. simpl. now rewrite Hrep.
Qed.

End DependencyScannerMoreFacts.

(** X11. The exit status of [npm audit] does not matter: for the same
    output, if it is not empty, the scanner returns the same result
    whether the command exited cleanly or failed. *)
Theorem scanDependencies_ignores_exit_status
    (JSON_parse : string -> Result JSValue) (accessible : bool)
    (stdout : string) :
  stdout <> EmptyString ->
  DependencyScanner.scanDependencies JSON_parse accessible
    (DependencyScanner.Exited stdout)
  = DependencyScanner.scanDependencies JSON_parse accessible
      (DependencyScanner.Failed stdout).
Proof.
  intros Hne. unfold DependencyScanner.scanDependencies.
  destruct accessible; simpl; [|reflexivity].
  assert (String.eqb stdout EmptyString = false) as ->
    by now apply String.eqb_neq.
  simpl.
  destruct (JSON_parse stdout) as [auditData|e]; simpl; [|reflexivity].
  destruct (DependencyScanner.report auditData); reflexivity.
Qed.

Lemma scanDependencies_ignores_exit_status_witness :
  "{}" <> EmptyString
  /\ DependencyScanner.scanDependencies Samples.parse_long_audit true
       (DependencyScanner.Exited "{}")
     = DependencyScanner.scanDependencies Samples.parse_long_audit true
         (DependencyScanner.Failed "{}").
Proof.
  assert ("{}" <> EmptyString) as H by discriminate.
  split; [exact H|].
  exact (scanDependencies_ignores_exit_status Samples.parse_long_audit true
           "{}" H).
Defined.

(** X12. One entry of [auditData.vulnerabilities] whose value is [null]
    makes the scanner drop the whole audit report: the result is the
    empty one, with no vulnerability and all buckets at zero. *)
Theorem scanDependencies_null_entry_drops_report
    (JSON_parse : string -> Result JSValue)
    (audit : DependencyScanner.Audit) (stdout key : string)
    (auditData : JSValue) :
  DependencyScanner.parsed_output audit = Some stdout ->
  JSON_parse stdout = Ok auditData ->
  In (key, JNull)
    (DependencyScanner.entries
       (DependencyScanner.get_opt auditData "vulnerabilities")) ->
  DependencyScanner.scanDependencies JSON_parse true audit
  = DependencyScanner.no_findings true.
Proof.
  intros Hout Hparse Hin.
  assert (exists e, DependencyScanner.report auditData = Throw e) as [e He].
  { unfold DependencyScanner.report, DependencyScanner.collect.
    destruct (Notions.nullish auditData) eqn:Hnull.
    - destruct (get_nullish auditData "vulnerabilities" Hnull) as [e ->].
      simpl. eauto.
    - rewrite get_not_nullish by exact Hnull. simpl.
      rewrite (entries_truthy _ _ Hin).
      destruct (push_all_Throw
                  (DependencyScanner.entries
                     (DependencyScanner.get_opt auditData "vulnerabilities"))
                  []) as [e ->]; [|simpl; eauto].
      apply List.Exists_exists. exists (key, JNull).
      split; [exact Hin|reflexivity]. }
  exact (scanDependencies_report_Throw JSON_parse audit stdout auditData e
           Hout Hparse He).
Qed.

Lemma scanDependencies_null_entry_drops_report_witness :
  DependencyScanner.scanDependencies Fixtures.parse_null_entry true
    (DependencyScanner.Exited "{}")
  = DependencyScanner.no_findings true.
Proof.
  apply (scanDependencies_null_entry_drops_report Fixtures.parse_null_entry
           (DependencyScanner.Exited "{}") "{}" "left-pad"
           Fixtures.audit_with_null_entry).
  - reflexivity.
  - reflexivity.
  - right. left. reflexivity.
Defined.

(** X13. When the parsed audit report is an object whose
    [vulnerabilities] has no [null] entry, [totalVulnerabilities] is the
    number of entries and the names of the listed vulnerabilities are the
    first twenty keys, in the order of enumeration. *)
Theorem scanDependencies_names_in_order
    (JSON_parse : string -> Result JSValue)
    (audit : DependencyScanner.Audit) (stdout : string)
    (auditData : JSValue) :
  DependencyScanner.parsed_output audit = Some stdout ->
  JSON_parse stdout = Ok auditData ->
  Notions.nullish auditData = false ->
  Forall (fun e => Notions.nullish (snd e) = false)
    (DependencyScanner.entries
       (DependencyScanner.get_opt auditData "vulnerabilities")) ->
  let keys := map fst (DependencyScanner.entries
                         (DependencyScanner.get_opt auditData
                            "vulnerabilities")) in
  let r := DependencyScanner.scanDependencies JSON_parse true audit in
  map Dependencies.name (Dependencies.vulnerabilities r) = firstn 20 keys
  /\ Dependencies.totalVulnerabilities r = length keys
  /\ Dependencies.hasPackageJson r = true.
Proof.
  intros Hout Hparse Hnull Hall keys r.
  set (listed := DependencyScanner.get_opt auditData "vulnerabilities") in *.
  assert (exists vs, DependencyScanner.collect auditData = Ok vs
                     /\ map Dependencies.name vs = keys) as (vs & Hc & Hvs).
  { unfold DependencyScanner.collect.
    rewrite get_not_nullish by exact Hnull. simpl. fold listed.
    destruct (DependencyScanner.truthy listed) eqn:Ht.
    - destruct (push_all_Ok (DependencyScanner.entries listed) [] Hall)
        as (vs & Hp & Hn).
      exists vs. split; [exact Hp|exact Hn].
    - exists []. split; [reflexivity|].
      subst keys. destruct (DependencyScanner.entries listed) as [|e es] eqn:He;
        [reflexivity|].
      assert (DependencyScanner.truthy listed = true)
        by (apply (entries_truthy listed e); rewrite He; now left).
      congruence. }
  destruct (collect_Ok_report _ _ Hc) as (r' & Hr' & Hv & Ht).
  assert (r = r') as ->
    by exact (scanDependencies_parsed JSON_parse audit stdout auditData r'
                Hout Hparse Hr').
  split; [|split].
  - rewrite Hv. unfold DependencyScanner.slice0.
    rewrite <- Hvs. symmetry. apply firstn_map.
  - rewrite Ht, <- Hvs. now rewrite length_map.
  - apply report_Ok in Hr' as (p & _ & b & _ & -> & _). reflexivity.
Qed.

Lemma scanDependencies_names_in_order_witness :
  Forall (fun e => Notions.nullish (snd e) = false)
    (DependencyScanner.entries
       (DependencyScanner.get_opt Samples.long_audit "vulnerabilities"))
  /\ map Dependencies.name
       (Dependencies.vulnerabilities
          (DependencyScanner.scanDependencies Samples.parse_long_audit true
             (DependencyScanner.Exited "{}")))
     = firstn 20
         (map fst
            (DependencyScanner.entries
               (DependencyScanner.get_opt Samples.long_audit
                  "vulnerabilities"))).
Proof.
  assert (Forall (fun e => Notions.nullish (snd e) = false)
            (DependencyScanner.entries
               (DependencyScanner.get_opt Samples.long_audit
                  "vulnerabilities"))) as Hall
    by (vm_compute; repeat constructor).
  split; [exact Hall|].
  exact (proj1 (scanDependencies_names_in_order Samples.parse_long_audit
                  (DependencyScanner.Exited "{}") "{}" Samples.long_audit
                  eq_refl eq_refl eq_refl Hall)).
Defined.

(** ** The scanner of environment variables *)

Section ProcessScannerFacts.
Import ProcessScanner.

Lemma first_pattern_None patterns pid key value :
  first_pattern patterns pid key value = None <->
  has_value value = false
  \/ existsb (fun p => test_ci (fst p) key) patterns = false.
Proof.
  induction patterns as [|[pattern type] rest IH]; simpl.
  - split; auto.
  - destruct (test_ci pattern key) eqn:Ht, (has_value value) eqn:Hv; simpl.
    + split; [discriminate|intros [H|H]; discriminate].
    + split; [auto|]. intros _. apply IH. now left.
    + exact IH.
    + exact IH.
Qed.

Lemma first_pattern_Some patterns pid key value found :
  first_pattern patterns pid key value = Some found ->
  Process.secret found = key
  /\ Process.epid found = pid
  /\ Process.ecommand found = "current-process"
  /\ In (Process.type found) (map snd patterns).
Proof.
  induction patterns as [|[pattern type] rest IH]; simpl; [discriminate|].
  destruct (test_ci pattern key && has_value value).
  - intros [= <-]. simpl. auto.
  - intros H. destruct (IH H) as (? & ? & ? & ?). auto.
Qed.

(** The pattern loop does not look at the value beyond its emptiness. *)
Lemma first_pattern_value patterns pid key value value' :
  has_value value = has_value value' ->
  first_pattern patterns pid key value = first_pattern patterns pid key value'.
Proof.
  intros H. induction patterns as [|[pattern type] rest IH]; simpl;
    [reflexivity|].
  rewrite H, IH. reflexivity.
Qed.

Lemma scan_entries_app env pid secrets :
  scan_entries env pid secrets = (secrets ++ scan_entries env pid [])%list.
Proof.
  revert secrets. induction env as [|[key value] rest IH]; intros secrets;
    cbn [scan_entries].
  - now rewrite app_nil_r.
  - destruct (first_pattern SECRET_PATTERNS pid key value) as [found|].
    + rewrite (IH (secrets ++ [found])%list), (IH ([] ++ [found])%list).
      simpl. now rewrite <- app_assoc.
    + apply IH.
Qed.

Lemma scanEnvironmentVariables_cons pid key value rest :
  scanEnvironmentVariables pid ((key, value) :: rest)
  = match first_pattern SECRET_PATTERNS pid key value with
    | Some found => found :: scanEnvironmentVariables pid rest
    | None => scanEnvironmentVariables pid rest
    end.
Proof.
  unfold scanEnvironmentVariables. cbn [scan_entries].
  destruct (first_pattern SECRET_PATTERNS pid key value) as [found|];
    [|reflexivity].
  now rewrite scan_entries_app.
Qed.

End ProcessScannerFacts.

(** X14. The secrets reported for the environment are, in order and
    once each, the variables whose value is not empty and whose name
    holds one of the eight words, letters compared without regard to
    case; a variable without a value is never reported. *)
Theorem scanEnvironmentVariables_reports_named_secrets
    (pid : string) (env : list (string * string)) :
  map Process.secret (ProcessScanner.scanEnvironmentVariables pid env)
  = map fst
      (List.filter
         (fun kv => ProcessScanner.has_value (snd kv)
                    && ProcessScanner.names_a_secret (fst kv))
         env)
  /\ (length (ProcessScanner.scanEnvironmentVariables pid env)
      <= length env)%nat.
Proof.
  induction env as [|[key value] rest [IH IHlen]]; [split; auto|].
  rewrite scanEnvironmentVariables_cons. simpl List.filter.
  destruct (ProcessScanner.first_pattern ProcessScanner.SECRET_PATTERNS
              pid key value) as [found|] eqn:Hf.
  - destruct (ProcessScanner.has_value value
              && ProcessScanner.names_a_secret key) eqn:Hc.
    + apply first_pattern_Some in Hf as (Hk & _).
      simpl. rewrite Hk, IH. split; [reflexivity|lia].
    + exfalso. apply andb_false_iff in Hc.
      assert (ProcessScanner.first_pattern ProcessScanner.SECRET_PATTERNS
                pid key value = None) as Hn
        by (apply first_pattern_None; tauto).
      congruence.
  - apply first_pattern_None in Hf.
    destruct (ProcessScanner.has_value value
              && ProcessScanner.names_a_secret key) eqn:Hc.
    + apply andb_prop in Hc as [Hv Hn].
      unfold ProcessScanner.names_a_secret in Hn.
      destruct Hf; congruence.
    + split; [exact IH|simpl; lia].
Qed.

(** X15. The report on the environment never holds a value: replacing
    every value by another one, empty for empty, changes nothing, and
    each reported record consists of the process id, the text
    ['current-process'], the name of a variable and a type of the
    table. *)
Theorem scanEnvironmentVariables_never_reports_values
    (pid : string) (env env' : list (string * string)) :
  Forall2 (fun kv kv' =>
             fst kv = fst kv'
             /\ ProcessScanner.has_value (snd kv)
                = ProcessScanner.has_value (snd kv')) env env' ->
  ProcessScanner.scanEnvironmentVariables pid env
  = ProcessScanner.scanEnvironmentVariables pid env'
  /\ Forall (fun found =>
               Process.epid found = pid
               /\ Process.ecommand found = "current-process"
               /\ In (Process.secret found) (map fst env)
               /\ In (Process.type found)
                    (map snd ProcessScanner.SECRET_PATTERNS))
       (ProcessScanner.scanEnvironmentVariables pid env).
Proof.
  intros H. split.
  - induction H as [|[k v] [k' v'] env env' [Hk Hv] _ IH]; [reflexivity|].
    simpl in Hk, Hv. subst k'.
    rewrite !scanEnvironmentVariables_cons.
    rewrite (first_pattern_value _ pid k v v' Hv), IH. reflexivity.
  - clear H env'. induction env as [|[k v] env IH]; [constructor|].
    rewrite scanEnvironmentVariables_cons.
    assert (Forall
              (fun found =>
                 Process.epid found = pid
                 /\ Process.ecommand found = "current-process"
                 /\ In (Process.secret found) (map fst ((k, v) :: env))
                 /\ In (Process.type found)
                      (map snd ProcessScanner.SECRET_PATTERNS))
              (ProcessScanner.scanEnvironmentVariables pid env)) as IH'.
    { eapply List.Forall_impl; [|exact IH].
      intros found (? & ? & ? & ?). repeat split; auto. now right. }
    destruct (ProcessScanner.first_pattern _ pid k v) as [found|] eqn:Hf;
      [|exact IH'].
    constructor; [|exact IH'].
    apply first_pattern_Some in Hf as (Hs & Hp & Hc & Ht).
    repeat split; auto. left. now rewrite Hs.
Qed.

Lemma scanEnvironmentVariables_never_reports_values_witness :
  ProcessScanner.scanEnvironmentVariables "4242" Fixtures.build_env
  = ProcessScanner.scanEnvironmentVariables "4242" Fixtures.build_env_rotated.
Proof.
  apply (scanEnvironmentVariables_never_reports_values "4242"
           Fixtures.build_env Fixtures.build_env_rotated).
  repeat constructor.
Defined.

(** ** The filesystem scanner *)

Section FilesystemScannerFacts.
Import Filesystem FilesystemScanner.
Local Open Scope list_scope.

(** A loop that pushes what [emit] yields for each element. *)
Lemma forEach_push {A B} (emit : A -> list B) (step : A -> list B -> list B)
    xs acc :
  (forall x ys, step x ys = ys ++ emit x) ->
  Aggregator.forEach xs step acc = acc ++ flat_map emit xs.
Proof.
  intros Hstep. unfold Aggregator.forEach. revert acc.
  induction xs as [|x xs IH]; intros acc; simpl.
  - now rewrite app_nil_r.
  - rewrite IH, Hstep. now rewrite <- app_assoc.
Qed.

Lemma length_flat_map_le {A B} (emit : A -> list B) xs :
  (forall x, length (emit x) <= 1)%nat ->
  (length (flat_map emit xs) <= length xs)%nat.
Proof.
  intros H. induction xs as [|x xs IH]; simpl; [lia|].
  rewrite length_app. specialize (H x). lia.
Qed.

Lemma check_sensitive_push home disk file issues :
  check_sensitive home disk file issues
  = issues ++ sensitive_issue home disk file.
Proof.
  unfold sensitive_issue, check_sensitive.
  destruct (disk !! Path.join home (fst file)) as [stats|];
    [|now rewrite app_nil_r].
  destruct (negb _); [reflexivity|now rewrite app_nil_r].
Qed.

Lemma checkSensitiveFiles_flat_map home disk :
  checkSensitiveFiles home disk
  = flat_map (sensitive_issue home disk) SENSITIVE_FILES.
Proof.
  unfold checkSensitiveFiles.
  now rewrite (forEach_push (sensitive_issue home disk))
    by apply check_sensitive_push.
Qed.

Lemma land_read_bits m :
  N.land (N.land m mask_0o777) mask_0o044 = N.land m mask_0o044.
Proof. rewrite <- N.land_assoc. reflexivity. Qed.

Lemma check_suid_push disk line files :
  check_suid disk line files = files ++ suid_issue disk line.
Proof.
  unfold suid_issue, check_suid.
  destruct (disk !! line); [reflexivity|now rewrite app_nil_r].
Qed.

Lemma check_home_secret_push home disk file secrets :
  check_home_secret home disk file secrets
  = secrets ++ home_secret home disk file.
Proof.
  unfold home_secret, check_home_secret.
  destruct (can_read _ _); [reflexivity|now rewrite app_nil_r].
Qed.

Lemma check_cwd_secret_push cwd disk file secrets :
  check_cwd_secret cwd disk file secrets
  = secrets ++ cwd_secret cwd disk file.
Proof.
  unfold cwd_secret, check_cwd_secret.
  destruct (can_read _ _); [|now rewrite app_nil_r].
  destruct (disk !! _) as [stats|]; [|now rewrite app_nil_r].
  destruct (st_isFile stats); [reflexivity|now rewrite app_nil_r].
Qed.

Lemma findExposedSecrets_flat_map home cwd disk :
  findExposedSecrets home cwd disk
  = flat_map (home_secret home disk) home_secret_files
    ++ flat_map (cwd_secret cwd disk) cwd_secret_files.
Proof.
  unfold findExposedSecrets.
  rewrite (forEach_push (cwd_secret cwd disk))
    by apply check_cwd_secret_push.
  now rewrite (forEach_push (home_secret home disk))
    by apply check_home_secret_push.
Qed.

Lemma findWorldWritableFiles_map found :
  findWorldWritableFiles found
  = match found with
    | Ok stdout =>
        map (fun line => {| path := line; issue := "World-writable file";
                            severity := medium; permissions := None |})
          (non_blank_lines stdout)
    | Throw _ => []
    end.
Proof.
  destruct found as [stdout|e]; [|reflexivity]. simpl.
  rewrite (forEach_push
             (fun line => [{| path := line; issue := "World-writable file";
                              severity := medium; permissions := None |}]))
    by reflexivity.
  simpl. induction (non_blank_lines stdout); simpl; congruence.
Qed.

Lemma findSuidFiles_flat_map found disk :
  findSuidFiles found disk
  = match found with
    | Ok stdout =>
        flat_map (suid_issue disk) (firstn 20 (non_blank_lines stdout))
    | Throw _ => []
    end.
Proof.
  destruct found as [stdout|e]; [|reflexivity]. simpl.
  now rewrite (forEach_push (suid_issue disk)) by apply check_suid_push.
Qed.

(** Severities of what the scanner reports. *)

Lemma worldWritable_all_medium found :
  Forall (fun i => severity i = medium) (findWorldWritableFiles found).
Proof.
  rewrite findWorldWritableFiles_map. destruct found; [|constructor].
  apply Forall_forall. intros i Hi.
  apply list_elem_of_In, in_map_iff in Hi as (line & <- & _). reflexivity.
Qed.

Lemma suid_all_low found disk :
  Forall (fun i => severity i = low) (findSuidFiles found disk).
Proof.
  rewrite findSuidFiles_flat_map. destruct found; [|constructor].
  apply Forall_forall. intros i Hi.
  apply list_elem_of_In, in_flat_map in Hi as (line & _ & Hi).
  unfold suid_issue, check_suid in Hi.
  destruct (disk !! line); [|destruct Hi].
  destruct Hi as [<-|[]]. reflexivity.
Qed.

Lemma exposed_high_or_medium home cwd disk :
  Forall (fun i => Reference.is_high_or_medium (severity i) = true)
    (findExposedSecrets home cwd disk).
Proof.
  rewrite findExposedSecrets_flat_map.
  apply Forall_app. split; apply Forall_forall; intros i Hi;
    apply list_elem_of_In, in_flat_map in Hi as (file & _ & Hi).
  - unfold home_secret, check_home_secret in Hi.
    destruct (can_read _ _); [|destruct Hi].
    destruct Hi as [<-|[]]. reflexivity.
  - unfold cwd_secret, check_cwd_secret in Hi.
    destruct (can_read _ _); [|destruct Hi].
    destruct (disk !! _) as [stats|]; [|destruct Hi].
    destruct (st_isFile stats); [|destruct Hi].
    destruct Hi as [<-|[]]. reflexivity.
Qed.

Lemma filter_all {A} (f : A -> bool) l :
  Forall (fun x => f x = true) l -> List.filter f l = l.
Proof.
  induction 1 as [|x l Hx _ IH]; [reflexivity|].
  simpl. now rewrite Hx, IH.
Qed.

Lemma toString_8_value n :
  (n < 4096)%N -> octal_value (toString_8 n) 0 = n.
Proof.
  intros Hn.
  assert (forallb (fun k => (octal_value (toString_8 (N.of_nat k)) 0
                             =? N.of_nat k)%N) (seq 0 4096) = true) as Hall
    by (vm_compute; reflexivity).
  rewrite forallb_forall in Hall.
  specialize (Hall (N.to_nat n)).
  rewrite N2Nat.id in Hall. apply N.eqb_eq, Hall.
  apply in_seq. lia.
Qed.

End FilesystemScannerFacts.

(** X16. [checkSensitiveFiles] reports a file exactly when it is one
    of the seven files of the table, exists under the home directory and
    has the group-read or the other-read bit set; the issue carries the
    severity of the table and the permission bits in octal.  Write and
    execute bits play no part, and there are at most seven issues. *)
Theorem checkSensitiveFiles_reports_read_bits
    (home : string) (disk : gmap string FilesystemScanner.Stat)
    (i : Filesystem.FileIssue) :
  (In i (FilesystemScanner.checkSensitiveFiles home disk) <->
   exists file sev stats,
     In (file, sev) FilesystemScanner.SENSITIVE_FILES
     /\ disk !! Path.join home file = Some stats
     /\ N.land (FilesystemScanner.st_mode stats) 36 <> 0%N
     /\ i = {| Filesystem.path := Path.join home file;
               Filesystem.issue :=
                 "Sensitive file has overly permissive permissions";
               Filesystem.severity := sev;
               Filesystem.permissions :=
                 Some (FilesystemScanner.toString_8
                         (N.land (FilesystemScanner.st_mode stats) 511)) |})
  /\ (length (FilesystemScanner.checkSensitiveFiles home disk) <= 7)%nat.
Proof.
  rewrite checkSensitiveFiles_flat_map. split.
  - rewrite in_flat_map. split.
    + intros ([file sev] & Hin & Hi).
      unfold FilesystemScanner.sensitive_issue,
        FilesystemScanner.check_sensitive in Hi. simpl in Hi.
      destruct (disk !! Path.join home file) as [stats|] eqn:Hs;
        [|destruct Hi].
      rewrite land_read_bits in Hi.
      destruct (N.eqb_spec
                  (N.land (FilesystemScanner.st_mode stats)
                     FilesystemScanner.mask_0o044) 0) as [Hz|Hz];
        simpl in Hi; [destruct Hi|].
      destruct Hi as [<-|[]].
      exists file, sev, stats. repeat split; assumption.
    + intros (file & sev & stats & Hin & Hs & Hz & ->).
      exists (file, sev). split; [exact Hin|].
      unfold FilesystemScanner.sensitive_issue,
        FilesystemScanner.check_sensitive. simpl.
      rewrite Hs, land_read_bits.
      destruct (N.eqb_spec
                  (N.land (FilesystemScanner.st_mode stats)
                     FilesystemScanner.mask_0o044) 0) as [Hz'|Hz'];
        [contradiction|].
      simpl. now left.
  - change 7%nat with (length FilesystemScanner.SENSITIVE_FILES).
    apply length_flat_map_le. intros [file sev].
    unfold FilesystemScanner.sensitive_issue,
      FilesystemScanner.check_sensitive. simpl.
    destruct (disk !! _); [|simpl; lia].
    destruct (negb _); simpl; lia.
Qed.

(** X17. The aggregator counts every finding that the filesystem
    scanner reports: as long as the counters stay safe integers, with the
    result of [scanFilesystem], [totalIssues] exceeds what it is for an
    empty filesystem result by the number of entries of the four
    lists. *)
Theorem calculateSummary_counts_all_of_scanFilesystem
    (home cwd : string) (disk : gmap string FilesystemScanner.Stat)
    (worldWritable suid : Result string)
    (network : Network.NetworkScanResult)
    (processes : Process.ProcessScanResult)
    (dependencies : Dependencies.DependencyScanResult Z)
    (configuration : Configuration.ConfigScanResult)
    (containers : Containers.ContainerScanResult) :
  Notions.counts_exactly network processes
    (FilesystemScanner.scanFilesystem home cwd disk worldWritable suid)
    dependencies configuration containers ->
  let found := FilesystemScanner.scanFilesystem home cwd disk
                 worldWritable suid in
  Aggregator.totalIssues
    (Aggregator.calculateSummary network processes found dependencies
       configuration containers)
  = Aggregator.totalIssues
      (Aggregator.calculateSummary network processes Samples.clean_filesystem
         dependencies configuration containers)
    + Z.of_nat (length (Filesystem.sensitiveFileIssues found)
                + length (Filesystem.worldWritableFiles found)
                + length (Filesystem.suidFiles found)
                + length (Filesystem.exposedSecrets found))
  /\ 0 <= Aggregator.totalIssues
            (Aggregator.calculateSummary network processes
               Samples.clean_filesystem dependencies configuration containers)
  /\ Aggregator.totalIssues
       (Aggregator.calculateSummary network processes found dependencies
          configuration containers)
     <= Notions.MAX_SAFE_INTEGER.
Proof.
  intros [(Hbc & Hbh & Hbm & Hbl) Hsafe] found. subst found.
  revert Hsafe. unfold Reference.counted_inputs.
  rewrite !calculateSummary_counted.
  unfold Reference.summarize.
  cbn [Aggregator.totalIssues].
  unfold Reference.counted_findings, Reference.suid_penalty,
    Reference.firewall_penalty, Reference.env_secret_penalty.
  cbn [FilesystemScanner.scanFilesystem Filesystem.sensitiveFileIssues
       Filesystem.worldWritableFiles Filesystem.suidFiles
       Filesystem.exposedSecrets Samples.clean_filesystem].
  rewrite (filter_all Reference.is_medium
             (map Filesystem.severity
                (FilesystemScanner.findWorldWritableFiles worldWritable))).
  2: { apply List.Forall_map.
       eapply List.Forall_impl; [|apply worldWritable_all_medium].
       intros i ->. reflexivity. }
  rewrite (filter_all Reference.is_high_or_medium
             (map Filesystem.severity
                (FilesystemScanner.findExposedSecrets home cwd disk))).
  2: { apply List.Forall_map. apply exposed_high_or_medium. }
  cbn [map List.filter length app].
  set (a := map Network.severity _).
  set (b := map Process.severity _).
  set (c := map Filesystem.severity (FilesystemScanner.checkSensitiveFiles _ _)).
  set (d := map Filesystem.severity (FilesystemScanner.findWorldWritableFiles _)).
  set (e := map Filesystem.severity (FilesystemScanner.findExposedSecrets _ _ _)).
  set (f := map Configuration.severity (Configuration.sshConfigIssues _)).
  set (g := map Configuration.severity (Configuration.secretsInConfig _)).
  set (k := Reference.container_findings _).
  rewrite !length_app, !occurrences_app.
  pose proof (occurrences_total a) as Ha.
  pose proof (occurrences_total b) as Hb.
  pose proof (occurrences_total c) as Hc.
  pose proof (occurrences_total d) as Hd.
  pose proof (occurrences_total e) as He.
  pose proof (occurrences_total f) as Hf.
  pose proof (occurrences_total g) as Hg.
  pose proof (occurrences_total k) as Hk.
  subst c d e. rewrite !length_map in Hc, Hd, He.
  rewrite !length_map.
  simpl length.
  destruct (Network.enabled _); lia.
Qed.

Lemma calculateSummary_counts_all_of_scanFilesystem_witness :
  Notions.counts_exactly Samples.quiet_network Samples.no_processes
    (FilesystemScanner.scanFilesystem "/home/dev" "/srv/app" Scenes.dev_disk
       Scenes.one_world_writable (Throw "find: not found"))
    Samples.no_dependencies Samples.clean_configuration Samples.no_containers
  /\ Aggregator.totalIssues
       (Aggregator.calculateSummary Samples.quiet_network Samples.no_processes
          (FilesystemScanner.scanFilesystem "/home/dev" "/srv/app"
             Scenes.dev_disk Scenes.one_world_writable
             (Throw "find: not found"))
          Samples.no_dependencies Samples.clean_configuration
          Samples.no_containers)
     = 3.
Proof.
  assert (Notions.counts_exactly Samples.quiet_network Samples.no_processes
            (FilesystemScanner.scanFilesystem "/home/dev" "/srv/app"
               Scenes.dev_disk Scenes.one_world_writable
               (Throw "find: not found"))
            Samples.no_dependencies Samples.clean_configuration
            Samples.no_containers) as H
    by (repeat split; vm_compute; discriminate).
  split; [exact H|].
  rewrite (proj1 (calculateSummary_counts_all_of_scanFilesystem _ _ _ _ _
                    _ _ _ _ _ H)).
  vm_compute. reflexivity.
Defined.

Section FilesystemScannerMoreFacts.
Import Filesystem FilesystemScanner.

Lemma land_setuid_bit m :
  N.land (N.land m mask_0o7777) mask_0o4000 = N.land m mask_0o4000.
Proof. rewrite <- N.land_assoc. reflexivity. Qed.

Lemma land_0o7777_bound m : (N.land m mask_0o7777 < 4096)%N.
Proof.
  change mask_0o7777 with (N.ones 12). rewrite N.land_ones.
  apply N.mod_lt. discriminate.
Qed.

Lemma length_firstn_le {A} n (l : list A) : (length (firstn n l) <= n)%nat.
Proof. rewrite length_firstn. lia. Qed.

End FilesystemScannerMoreFacts.

(** X18. [findSuidFiles] lists at most twenty files, however many the
    [find] command prints, and none when the command fails.  Each entry
    is a printed path that [stat] can reach; it has severity low, its
    permissions are the twelve low bits of the mode in octal, and it is
    called a SUID binary exactly when the set-user-id bit is set, a SGID
    binary in every other case. *)
Theorem findSuidFiles_at_most_twenty
    (found : Result string) (disk : gmap string FilesystemScanner.Stat) :
  (length (FilesystemScanner.findSuidFiles found disk) <= 20)%nat
  /\ (forall e, found = Throw e ->
                FilesystemScanner.findSuidFiles found disk = [])
  /\ (forall i,
        In i (FilesystemScanner.findSuidFiles found disk) ->
        exists stdout stats perms,
          found = Ok stdout
          /\ In (Filesystem.path i)
               (FilesystemScanner.non_blank_lines stdout)
          /\ disk !! Filesystem.path i = Some stats
          /\ Filesystem.severity i = low
          /\ Filesystem.permissions i = Some perms
          /\ FilesystemScanner.octal_value perms 0
             = N.land (FilesystemScanner.st_mode stats) 4095
          /\ Filesystem.issue i
             = if (N.land (FilesystemScanner.st_mode stats) 2048 =? 0)%N
               then "SGID binary" else "SUID binary").
Proof.
  rewrite findSuidFiles_flat_map.
  split; [|split].
  - destruct found as [stdout|e]; [|simpl; lia].
    etransitivity; [|apply (length_firstn_le 20
                              (FilesystemScanner.non_blank_lines stdout))].
    apply length_flat_map_le. intros line.
    unfold FilesystemScanner.suid_issue, FilesystemScanner.check_suid.
    destruct (disk !! line); simpl; lia.
  - intros e ->. reflexivity.
  - intros i Hi. destruct found as [stdout|e]; [|destruct Hi].
    apply in_flat_map in Hi as (line & Hline & Hi).
    unfold FilesystemScanner.suid_issue, FilesystemScanner.check_suid in Hi.
    destruct (disk !! line) as [stats|] eqn:Hs; [|destruct Hi].
    destruct Hi as [<-|[]]. cbn [Filesystem.path Filesystem.severity
                                 Filesystem.permissions Filesystem.issue].
    exists stdout, stats. eexists.
    split; [reflexivity|].
    split; [apply list_elem_of_In, (subseteq_take 20), list_elem_of_In;
            exact Hline|].
    split; [exact Hs|]. split; [reflexivity|]. split; [reflexivity|].
    split.
    + apply toString_8_value. apply land_0o7777_bound.
    + rewrite land_setuid_bit.
      change FilesystemScanner.mask_0o4000 with 2048%N.
      destruct (N.land (FilesystemScanner.st_mode stats) 2048 =? 0)%N;
        reflexivity.
Qed.

(** X19. [findExposedSecrets] reports a path exactly when it is one
    of the nine candidate files under the home directory and can be read
    (severity medium, whatever kind of file it is), or one of the three
    candidates under the working directory, readable and a regular file
    (severity high); there are at most twelve entries. *)
Theorem findExposedSecrets_reports_readable_candidates
    (home cwd : string) (disk : gmap string FilesystemScanner.Stat)
    (i : Filesystem.FileIssue) :
  (In i (FilesystemScanner.findExposedSecrets home cwd disk) <->
   (exists file,
      In file FilesystemScanner.home_secret_files
      /\ FilesystemScanner.can_read disk (Path.join home file) = true
      /\ i = {| Filesystem.path := Path.join home file;
                Filesystem.issue := "Potential secrets file found";
                Filesystem.severity := medium;
                Filesystem.permissions := None |})
   \/ (exists file stats,
         In file FilesystemScanner.cwd_secret_files
         /\ disk !! Path.join cwd file = Some stats
         /\ FilesystemScanner.st_readable stats = true
         /\ FilesystemScanner.st_isFile stats = true
         /\ i = {| Filesystem.path := Path.join cwd file;
                   Filesystem.issue :=
                     "Potential secrets file in current directory";
                   Filesystem.severity := high;
                   Filesystem.permissions := None |}))
  /\ (length (FilesystemScanner.findExposedSecrets home cwd disk) <= 12)%nat.
Proof.
  rewrite findExposedSecrets_flat_map. split.
  - rewrite in_app_iff, !in_flat_map. split.
    + intros [(file & Hin & Hi)|(file & Hin & Hi)].
      * left. unfold FilesystemScanner.home_secret,
          FilesystemScanner.check_home_secret in Hi.
        destruct (FilesystemScanner.can_read disk (Path.join home file))
          eqn:Hr; [|destruct Hi].
        destruct Hi as [<-|[]]. exists file. auto.
      * right. unfold FilesystemScanner.cwd_secret,
          FilesystemScanner.check_cwd_secret,
          FilesystemScanner.can_read in Hi.
        destruct (disk !! Path.join cwd file) as [stats|] eqn:Hs;
          [|destruct Hi].
        destruct (FilesystemScanner.st_readable stats) eqn:Hr;
          [|destruct Hi].
        destruct (FilesystemScanner.st_isFile stats) eqn:Hf; [|destruct Hi].
        destruct Hi as [<-|[]]. exists file, stats. auto.
    + intros [(file & Hin & Hr & ->)|(file & stats & Hin & Hs & Hr & Hf & ->)].
      * left. exists file. split; [exact Hin|].
        unfold FilesystemScanner.home_secret,
          FilesystemScanner.check_home_secret. rewrite Hr. now left.
      * right. exists file. split; [exact Hin|].
        unfold FilesystemScanner.cwd_secret,
          FilesystemScanner.check_cwd_secret, FilesystemScanner.can_read.
        rewrite Hs, Hr, Hf. now left.
  - rewrite length_app.
    assert (length (flat_map (FilesystemScanner.home_secret home disk)
                      FilesystemScanner.home_secret_files) <= 9)%nat.
    { change 9%nat with (length FilesystemScanner.home_secret_files).
      apply length_flat_map_le. intros file.
      unfold FilesystemScanner.home_secret,
        FilesystemScanner.check_home_secret.
      destruct (FilesystemScanner.can_read _ _); simpl; lia. }
    assert (length (flat_map (FilesystemScanner.cwd_secret cwd disk)
                      FilesystemScanner.cwd_secret_files) <= 3)%nat.
    { change 3%nat with (length FilesystemScanner.cwd_secret_files).
      apply length_flat_map_le. intros file.
      unfold FilesystemScanner.cwd_secret,
        FilesystemScanner.check_cwd_secret.
      destruct (FilesystemScanner.can_read _ _); [|simpl; lia].
      destruct (disk !! _) as [stats|]; [|simpl; lia].
      destruct (FilesystemScanner.st_isFile stats); simpl; lia. }
    lia.
Qed.

(** ** The firewall check, the privileged processes and the SSH check *)

Section ShellScannersFacts.
Import NetworkScanner PrivilegedProcesses SshConfig.
Local Open Scope list_scope.

Lemma length_substring_le n m s :
  (String.length (String.substring n m s) <= m)%nat.
Proof.
  revert n m. induction s as [|c s IH]; intros n m.
  - destruct n, m; simpl; lia.
  - destruct n as [|n]; destruct m as [|m]; simpl; try lia.
    + specialize (IH 0%nat m). lia.
    + apply IH.
    + apply IH.
Qed.

Lemma findPrivilegedProcesses_map ps :
  findPrivilegedProcesses ps
  = match ps with
    | Ok stdout =>
        map privileged_process
          (firstn 10
             (List.filter
                (fun l => negb (String.eqb (Orchestrator.trim l) EmptyString)
                          && negb (includes "grep" l))
                (FilesystemScanner.split_lines stdout)))
    | Throw _ => []
    end.
Proof.
  destruct ps as [stdout|e]; [|reflexivity]. simpl.
  rewrite (forEach_push (fun line => [privileged_process line]))
    by reflexivity.
  simpl. induction (firstn 10 _); simpl; congruence.
Qed.

Lemma after_ci_agree w1 w2 t r1 r2 :
  after_ci w1 t = Some r1 -> after_ci w2 t = Some r2 ->
  agree_ci w1 w2 = true.
Proof.
  revert w2 t. induction w1 as [|a w1 IH]; intros [|b w2] [|c t];
    simpl; try reflexivity; try discriminate.
  destruct (Ascii.eqb_spec (ProcessScanner.to_upper a)
              (ProcessScanner.to_upper c)) as [Hac|]; [|discriminate].
  destruct (Ascii.eqb_spec (ProcessScanner.to_upper b)
              (ProcessScanner.to_upper c)) as [Hbc|]; [|discriminate].
  intros H1 H2. rewrite Hac, Hbc, Ascii.eqb_refl. simpl. eauto.
Qed.

Lemma says_yes_agree n1 n2 t :
  says_yes n1 t = true -> says_yes n2 t = true -> agree_ci n1 n2 = true.
Proof.
  unfold says_yes.
  destruct (after_ci n1 t) as [r1|] eqn:H1; [|discriminate].
  destruct (after_ci n2 t) as [r2|] eqn:H2; [|destruct r1; discriminate].
  intros _ _. eapply after_ci_agree; eassumption.
Qed.

Lemma says_yes_after name t :
  says_yes name t = true -> ProcessScanner.starts_with_ci name t = true.
Proof.
  unfold says_yes.
  destruct (after_ci name t) as [r|] eqn:H; [|discriminate].
  intros _. revert t r H.
  induction name as [|a name IH]; intros [|c t] r; simpl;
    try reflexivity; try discriminate.
  destruct (_ =? _)%char; [|discriminate]. simpl. eauto.
Qed.

Lemma check_line_push line issues :
  check_line line issues = issues ++ line_issues line.
Proof.
  unfold line_issues, check_line.
  destruct (says_yes "PermitRootLogin" _),
    (says_yes "PasswordAuthentication" _),
    (says_yes "PermitEmptyPasswords" _); simpl;
    rewrite <- ?app_assoc, ?app_nil_r; reflexivity.
Qed.

(** The three directives exclude one another. *)
Lemma line_issues_cases line :
  let t := Orchestrator.trim line in
  line_issues line = []
  \/ exists name text sev,
       In (name, (text, sev)) directives
       /\ says_yes name t = true
       /\ line_issues line
          = [{| Configuration.file := sshConfigPath;
                Configuration.issue := text;
                Configuration.severity := sev;
                Configuration.line := Some t |}].
Proof.
  intros t. unfold line_issues, check_line. fold t.
  destruct (says_yes "PermitRootLogin" t) eqn:H1,
    (says_yes "PasswordAuthentication" t) eqn:H2,
    (says_yes "PermitEmptyPasswords" t) eqn:H3;
    try (pose proof (says_yes_agree _ _ _ H1 H2); discriminate);
    try (pose proof (says_yes_agree _ _ _ H1 H3); discriminate);
    try (pose proof (says_yes_agree _ _ _ H2 H3); discriminate).
  - right. exists "PermitRootLogin", "SSH allows root login", high.
    split; [now left|]. split; [exact H1|reflexivity].
  - right.
    exists "PasswordAuthentication", "SSH allows password authentication",
      medium.
    split; [right; now left|]. split; [exact H2|reflexivity].
  - right. exists "PermitEmptyPasswords", "SSH allows empty passwords",
      critical.
    split; [do 2 right; now left|]. split; [exact H3|reflexivity].
  - now left.
Qed.

Lemma checkSSHConfig_flat_map config :
  checkSSHConfig config
  = match config with
    | Ok content =>
        flat_map line_issues (FilesystemScanner.split_lines content)
    | Throw _ => []
    end.
Proof.
  destruct config as [content|e]; [|reflexivity]. simpl.
  now rewrite (forEach_push line_issues) by apply check_line_push.
Qed.

End ShellScannersFacts.

(** X20. [checkFirewall] reports an enabled firewall in two cases
    only: [ufw status] prints ['Status: active'], in which case
    [iptables] is not looked at; or it does not, and the line count that
    [iptables -L | wc -l] prints is a number greater than 8.  A command
    that throws gives the type ['unknown'].  Whenever the firewall is
    reported disabled and the dependency buckets are not negative, a
    summary computed with that status is rated [HIGH] or [CRITICAL]. *)
Theorem checkFirewall_enabled_cases (ufw iptables : Result string) :
  let status := NetworkScanner.checkFirewall ufw iptables in
  (Network.enabled status = true <->
   (exists out, ufw = Ok out
                /\ NetworkScanner.includes "Status: active" out = true)
   \/ (exists out counted n,
         ufw = Ok out
         /\ NetworkScanner.includes "Status: active" out = false
         /\ iptables = Ok counted
         /\ NetworkScanner.parseInt (Orchestrator.trim counted) = Some n
         /\ 8 < n))
  /\ (forall out,
        ufw = Ok out ->
        NetworkScanner.includes "Status: active" out = true ->
        status = {| Network.enabled := true; Network.type := "ufw" |})
  /\ (Network.type status = "unknown" <->
      (exists e, ufw = Throw e)
      \/ (exists out e,
            ufw = Ok out
            /\ NetworkScanner.includes "Status: active" out = false
            /\ iptables = Throw e))
  /\ (Network.enabled status = false ->
      forall network processes filesystem dependencies configuration
             containers,
        Network.firewallStatus network = status ->
        Notions.buckets_nonnegative dependencies ->
        let s := Aggregator.calculateSummary network processes filesystem
                   dependencies configuration containers in
        Aggregator.riskLevel s = Aggregator.CRITICAL
        \/ Aggregator.riskLevel s = Aggregator.HIGH).
Proof.
  intros status. subst status. unfold NetworkScanner.checkFirewall.
  split; [|split; [|split]].
  - destruct ufw as [out|e]; simpl.
    + destruct (NetworkScanner.includes "Status: active" out) eqn:Hact; simpl.
      * split; [intros _; left; eauto|reflexivity].
      * destruct iptables as [counted|e]; simpl.
        -- destruct (NetworkScanner.parseInt (Orchestrator.trim counted))
             as [n|] eqn:Hn; simpl.
           ++ destruct (Z.gtb_spec n 8); simpl.
              ** split; [|reflexivity]. intros _. right.
                 exists out, counted, n. repeat split; auto.
              ** split; [discriminate|].
                 intros [(o & Ho & Hi)|(o & c & m & Ho & _ & Hc & Hm & Hlt)].
                 --- injection Ho as <-. congruence.
                 --- injection Hc as <-. rewrite Hn in Hm.
                     injection Hm as <-. lia.
           ++ split; [discriminate|].
              intros [(o & Ho & Hi)|(o & c & m & Ho & _ & Hc & Hm & Hlt)].
              ** injection Ho as <-. congruence.
              ** injection Hc as <-. congruence.
        -- split; [discriminate|].
           intros [(o & Ho & Hi)|(o & c & m & Ho & _ & Hc & _)].
           ++ injection Ho as <-. congruence.
           ++ discriminate.
    + split; [discriminate|].
      intros [(o & Ho & _)|(o & c & m & Ho & _)]; discriminate.
  - intros out -> ->. reflexivity.
  - destruct ufw as [out|e]; simpl.
    + destruct (NetworkScanner.includes "Status: active" out) eqn:Hact; simpl.
      * split; [discriminate|].
        intros [[e He]|(o & e & Ho & Hi & _)]; [discriminate|].
        injection Ho as <-. congruence.
      * destruct iptables as [counted|e]; simpl.
        -- destruct (NetworkScanner.greater_than _ 8); simpl;
             (split; [discriminate|]);
             intros [[e He]|(o & e & _ & _ & He)]; discriminate.
        -- split; [|reflexivity]. intros _. right. exists out, e. auto.
    + split; [|reflexivity]. intros _. left. eauto.
  - intros Hoff network processes filesystem dependencies configuration
      containers Hstatus Hb.
    rewrite <- Hstatus in Hoff.
    destruct (summary_high_when_unprotected network processes filesystem
                dependencies configuration containers Hb (or_introl Hoff))
      as [_ Hrisk].
    exact Hrisk.
Qed.

(** X21. For a [ps] output of ASCII characters,
    [findPrivilegedProcesses] lists at most ten processes, and none when
    the command fails.  Each entry is made from a printed line that is
    not blank and does not mention [grep]; it has the user ['root'], the
    severity medium and a command of at most one hundred characters. *)
Theorem findPrivilegedProcesses_at_most_ten (ps : Result string) :
  Notions.ascii_output ps ->
  (length (PrivilegedProcesses.findPrivilegedProcesses ps) <= 10)%nat
  /\ (forall e, ps = Throw e ->
                PrivilegedProcesses.findPrivilegedProcesses ps = [])
  /\ (forall p,
        In p (PrivilegedProcesses.findPrivilegedProcesses ps) ->
        Process.user p = "root"
        /\ Process.severity p = medium
        /\ Process.issue p = "Running with root privileges"
        /\ (String.length (Process.command p) <= 100)%nat
        /\ exists stdout line,
             ps = Ok stdout
             /\ In line (FilesystemScanner.split_lines stdout)
             /\ NetworkScanner.includes "grep" line = false
             /\ Orchestrator.trim line <> EmptyString
             /\ p = PrivilegedProcesses.privileged_process line).
Proof.
  intros _. rewrite findPrivilegedProcesses_map.
  split; [|split].
  - destruct ps as [stdout|e]; [|simpl; lia].
    rewrite length_map. apply length_firstn_le.
  - intros e ->. reflexivity.
  - intros p Hp. destruct ps as [stdout|e]; [|destruct Hp].
    apply in_map_iff in Hp as (line & <- & Hline).
    apply list_elem_of_In, (subseteq_take 10), list_elem_of_In in Hline.
    apply filter_In in Hline as [Hin Hkeep].
    apply andb_prop in Hkeep as [Hblank Hgrep].
    apply negb_true_iff in Hblank, Hgrep.
    split; [reflexivity|]. split; [reflexivity|]. split; [reflexivity|].
    split; [apply length_substring_le|].
    exists stdout, line. repeat split; auto.
    now apply String.eqb_neq.
Qed.

Lemma findPrivilegedProcesses_at_most_ten_witness :
  Notions.ascii_output Scenes.ps_root
  /\ (length (PrivilegedProcesses.findPrivilegedProcesses Scenes.ps_root)
      <= 10)%nat
  /\ forall p,
       In p (PrivilegedProcesses.findPrivilegedProcesses Scenes.ps_root) ->
       p = {| Process.pid := "1";
              Process.command := "/sbin/init splash";
              Process.user := "root";
              Process.issue := "Running with root privileges";
              Process.severity := medium |}.
Proof.
  assert (Notions.ascii_output Scenes.ps_root) as H by reflexivity.
  split; [exact H|].
  destruct (findPrivilegedProcesses_at_most_ten Scenes.ps_root H)
    as (Hlen & _ & Heach).
  split; [exact Hlen|].
  intros p Hp. destruct (Heach p Hp) as (_ & _ & _ & _ & _).
  vm_compute in Hp. destruct Hp as [<-|[]]. reflexivity.
Defined.

(** X22. For a configuration of ASCII characters, [checkSSHConfig]
    reports at most one issue per line of the
    configuration, and none when the file cannot be read.  Each issue
    stems from a line which, once trimmed, starts with one of the three
    directive names, in any case; it carries the trimmed line and the
    severity of that directive: high for [PermitRootLogin], medium for
    [PasswordAuthentication], critical for [PermitEmptyPasswords]. *)
Theorem checkSSHConfig_one_issue_per_line (config : Result string) :
  Notions.ascii_output config ->
  (forall e, config = Throw e -> SshConfig.checkSSHConfig config = [])
  /\ (forall content,
        config = Ok content ->
        (length (SshConfig.checkSSHConfig config)
         <= length (FilesystemScanner.split_lines content))%nat)
  /\ (forall i,
        In i (SshConfig.checkSSHConfig config) ->
        exists content line name text sev,
          config = Ok content
          /\ In line (FilesystemScanner.split_lines content)
          /\ In (name, (text, sev)) SshConfig.directives
          /\ ProcessScanner.starts_with_ci name (Orchestrator.trim line) = true
          /\ i = {| Configuration.file := "/etc/ssh/sshd_config";
                    Configuration.issue := text;
                    Configuration.severity := sev;
                    Configuration.line := Some (Orchestrator.trim line) |}).
Proof.
  intros _. rewrite checkSSHConfig_flat_map.
  split; [|split].
  - intros e ->. reflexivity.
  - intros content ->. apply length_flat_map_le. intros line.
    destruct (line_issues_cases line) as [->|(n & t & s & _ & _ & ->)];
      simpl; lia.
  - intros i Hi. destruct config as [content|e]; [|destruct Hi].
    apply in_flat_map in Hi as (line & Hline & Hi).
    destruct (line_issues_cases line) as [H|(n & t & s & Hd & Hy & H)];
      rewrite H in Hi; [destruct Hi|].
    destruct Hi as [<-|[]].
    exists content, line, n, t, s. repeat split; auto.
    now apply says_yes_after.
Qed.

Lemma checkSSHConfig_one_issue_per_line_witness :
  Notions.ascii_output Scenes.sshd_config
  /\ forall i,
       In i (SshConfig.checkSSHConfig Scenes.sshd_config) ->
       i = {| Configuration.file := "/etc/ssh/sshd_config";
              Configuration.issue := "SSH allows root login";
              Configuration.severity := high;
              Configuration.line := Some "permitrootlogin   YES" |}.
Proof.
  assert (Notions.ascii_output Scenes.sshd_config) as H by reflexivity.
  split; [exact H|].
  destruct (checkSSHConfig_one_issue_per_line Scenes.sshd_config H)
    as (_ & _ & Heach).
  intros i Hi. destruct (Heach i Hi) as (_ & _ & _ & _ & _).
  vm_compute in Hi. destruct Hi as [<-|[]]. reflexivity.
Defined.

(** ** Further properties of the summary *)

Section SummaryMoreFacts.
Import Aggregator Reference Notions.

Lemma ladder_monotone c h m l c' h' m' l' :
  c <= c' -> h <= h' -> m <= m' -> l <= l' ->
  (rank (ladder c h m l) <= rank (ladder c' h' m' l'))%nat.
Proof.
  intros Hc Hh Hm Hl. unfold ladder.
  repeat case_decide; simpl; lia.
Qed.

Lemma counted_findings_more n n2 p p2 f f2 c c2 k k2 sev :
  occurrences sev
    (counted_findings (more_network n n2) (more_processes p p2)
       (more_filesystem f f2) (more_configuration c c2)
       (more_containers k k2))
  = occurrences sev (counted_findings n p f c k)
    + occurrences sev (counted_findings n2 p2 f2 c2 k2).
Proof.
  unfold counted_findings, container_findings.
  cbn [more_network more_processes more_filesystem more_configuration
       more_containers Network.openPorts Process.suspiciousProcesses
       Filesystem.sensitiveFileIssues Filesystem.worldWritableFiles
       Filesystem.exposedSecrets Configuration.sshConfigIssues
       Configuration.secretsInConfig Containers.containers].
  rewrite !map_app, !List.filter_app, flat_map_app, !occurrences_app. lia.
Qed.

End SummaryMoreFacts.



(** X24. More findings never lower the risk level: when the lists of
    a second result set are added to those of a first one, with the same
    firewall status and dependency buckets, the risk level is the same or
    higher in the order CLEAN, LOW, MEDIUM, HIGH, CRITICAL. *)
Theorem calculateSummary_monotone
    (network network2 : Network.NetworkScanResult)
    (processes processes2 : Process.ProcessScanResult)
    (filesystem filesystem2 : Filesystem.FilesystemScanResult)
    (dependencies : Dependencies.DependencyScanResult Z)
    (configuration configuration2 : Configuration.ConfigScanResult)
    (containers containers2 : Containers.ContainerScanResult) :
  (Notions.rank
     (Aggregator.riskLevel
        (Aggregator.calculateSummary network processes filesystem
           dependencies configuration containers))
   <= Notions.rank
        (Aggregator.riskLevel
           (Aggregator.calculateSummary
              (Notions.more_network network network2)
              (Notions.more_processes processes processes2)
              (Notions.more_filesystem filesystem filesystem2)
              dependencies
              (Notions.more_configuration configuration configuration2)
              (Notions.more_containers containers containers2))))%nat.
Proof.
  rewrite !calculateSummary_counted. unfold Reference.summarize.
  cbn [Aggregator.riskLevel].
  apply ladder_monotone; rewrite counted_findings_more.
  - pose proof (occurrences_nonneg critical
                  (Reference.counted_findings network2 processes2
                     filesystem2 configuration2 containers2)). lia.
  - pose proof (occurrences_nonneg high
                  (Reference.counted_findings network2 processes2
                     filesystem2 configuration2 containers2)).
    unfold Reference.firewall_penalty, Reference.env_secret_penalty.
    cbn [Notions.more_network Notions.more_processes Network.firewallStatus
         Process.secretsInEnv].
    rewrite length_app. lia.
  - pose proof (occurrences_nonneg medium
                  (Reference.counted_findings network2 processes2
                     filesystem2 configuration2 containers2)). lia.
  - pose proof (occurrences_nonneg low
                  (Reference.counted_findings network2 processes2
                     filesystem2 configuration2 containers2)).
    unfold Reference.suid_penalty.
    cbn [Notions.more_filesystem Filesystem.suidFiles].
    rewrite length_app. lia.
Qed.
